(** * osmo-fl2k: the streaming runtime library (libosmo-fl2k.c)

    A shallow embedding of the parts of [src/libosmo-fl2k.c] that the
    specification talks about: register I/O over vendor control
    transfers, the PLL solver, the byte permutations of the two DAC
    modes, mode control, and the transfer pool with its completion
    callback.

    Conventions.
    - C integers are [Z] with the wrap-around of their type written out
      ([u8], [u32], [u64]).
    - A [char] is the [Z] of its 8-bit pattern, in [0, 256).
    - A pointer that the code tests against NULL is an [option].
    - A computation whose C behaviour is undefined (an access outside an
      array, an integer division by zero, a conversion out of range)
      yields [None]. *)

From Stdlib Require Import ZArith QArith Qround Qabs Qcanon Lia.
From Stdlib Require Import PrimFloat SpecFloat FloatOps Uint63.
From Stdlib Require String.
From stdpp Require Import numbers base option list.

Local Open Scope Z_scope.

(** ** Machine integers *)

Definition u8 (x : Z) : Z := x mod 2 ^ 8.
Definition u32 (x : Z) : Z := x mod 2 ^ 32.
Definition u64 (x : Z) : Z := x mod 2 ^ 64.

(** What [printf] shows for a 32-bit unsigned argument under [%d]: its
    bits read as an [int]. *)
Definition s32 (x : Z) : Z :=
  if decide (u32 x < 2 ^ 31) then u32 x else u32 x - 2 ^ 32.

(** ** Sample buffers *)

(** An output buffer: its bytes, and (ghost state) the offsets stored to
    so far, most recent first. *)
Record buffer := Buffer { bytes : list Z; stores : list nat }.

Definition fresh (bs : list Z) : buffer := Buffer bs [].

(** [in[j]] *)
Definition load (in_ : list Z) (j : Z) : option Z :=
  if decide (0 ≤ j) then in_ !! Z.to_nat j else None.

(** [out[i] = v] *)
Definition store (i v : Z) (out : buffer) : option buffer :=
  if decide (0 ≤ i < Z.of_nat (length (bytes out)))
  then Some (Buffer (<[Z.to_nat i := v]> (bytes out)) (Z.to_nat i :: stores out))
  else None.

(** [out[dst] = in[src] + offset;] the sum is an [int], the store keeps
    its low 8 bits. *)
Definition put (in_ : list Z) (offset dst src : Z) (out : buffer) : option buffer :=
  v ← load in_ src; store dst (u8 (v + offset)) out.

(** ** Buffer format conversion (multichannel mode) *)

(** The body of the loop of [fl2k_convert_r]: eight stores, [j]
    post-incremented after each. *)
Definition convert_r_body (in_ : list Z) (offset i j : Z) (out : buffer) : option buffer :=
  out ← put in_ offset (u32 (i + 6)) j out;
  out ← put in_ offset (u32 (i + 1)) (u32 (j + 1)) out;
  out ← put in_ offset (u32 (i + 12)) (u32 (j + 2)) out;
  out ← put in_ offset (u32 (i + 15)) (u32 (j + 3)) out;
  out ← put in_ offset (u32 (i + 10)) (u32 (j + 4)) out;
  out ← put in_ offset (u32 (i + 21)) (u32 (j + 5)) out;
  out ← put in_ offset (u32 (i + 16)) (u32 (j + 6)) out;
  put in_ offset (u32 (i + 19)) (u32 (j + 7)) out.

Definition convert_g_body (in_ : list Z) (offset i j : Z) (out : buffer) : option buffer :=
  out ← put in_ offset (u32 (i + 5)) j out;
  out ← put in_ offset (u32 (i + 0)) (u32 (j + 1)) out;
  out ← put in_ offset (u32 (i + 3)) (u32 (j + 2)) out;
  out ← put in_ offset (u32 (i + 14)) (u32 (j + 3)) out;
  out ← put in_ offset (u32 (i + 9)) (u32 (j + 4)) out;
  out ← put in_ offset (u32 (i + 20)) (u32 (j + 5)) out;
  out ← put in_ offset (u32 (i + 23)) (u32 (j + 6)) out;
  put in_ offset (u32 (i + 18)) (u32 (j + 7)) out.

Definition convert_b_body (in_ : list Z) (offset i j : Z) (out : buffer) : option buffer :=
  out ← put in_ offset (u32 (i + 4)) j out;
  out ← put in_ offset (u32 (i + 7)) (u32 (j + 1)) out;
  out ← put in_ offset (u32 (i + 2)) (u32 (j + 2)) out;
  out ← put in_ offset (u32 (i + 13)) (u32 (j + 3)) out;
  out ← put in_ offset (u32 (i + 8)) (u32 (j + 4)) out;
  out ← put in_ offset (u32 (i + 11)) (u32 (j + 5)) out;
  out ← put in_ offset (u32 (i + 22)) (u32 (j + 6)) out;
  put in_ offset (u32 (i + 17)) (u32 (j + 7)) out.

(** [for (i = 0; i < len; i += stride) body], with the input cursor [j]
    advanced by [adv] per pass; [i] and [j] are [unsigned int].  The fuel
    bounds the number of passes; it runs out only if [i] wraps around. *)
Fixpoint convert_loop (body : Z → Z → buffer → option buffer)
    (stride adv : Z) (fuel : nat) (len i j : Z) (out : buffer) : option buffer :=
  match fuel with
  | O => None
  | S fuel =>
      if decide (i < len) then
        out ← body i j out;
        convert_loop body stride adv fuel len (u32 (i + stride)) (u32 (j + adv)) out
      else Some out
  end.

Definition loop_fuel (len stride : Z) : nat := Z.to_nat (len / stride + 2).

Definition fl2k_convert_r (out : option buffer) (in_ : option (list Z))
    (len offset : Z) : option (option buffer) :=
  match in_, out with
  | Some in_, Some o =>
      Some <$> convert_loop (convert_r_body in_ offset) 24 8 (loop_fuel len 24) len 0 0 o
  | _, _ => Some out
  end.

Definition fl2k_convert_g (out : option buffer) (in_ : option (list Z))
    (len offset : Z) : option (option buffer) :=
  match in_, out with
  | Some in_, Some o =>
      Some <$> convert_loop (convert_g_body in_ offset) 24 8 (loop_fuel len 24) len 0 0 o
  | _, _ => Some out
  end.

Definition fl2k_convert_b (out : option buffer) (in_ : option (list Z))
    (len offset : Z) : option (option buffer) :=
  match in_, out with
  | Some in_, Some o =>
      Some <$> convert_loop (convert_b_body in_ offset) 24 8 (loop_fuel len 24) len 0 0 o
  | _, _ => Some out
  end.

(** ** Conversion for single channel (256-colour) mode *)

(** The loop body of [fl2k_convert_singlechan]: swap 32 bit words. *)
Definition convert_singlechan_body (in_ : list Z) (offset i _j : Z) (out : buffer) : option buffer :=
  out ← put in_ offset (u32 (i + 0)) (u32 (i + 4)) out;
  out ← put in_ offset (u32 (i + 1)) (u32 (i + 5)) out;
  out ← put in_ offset (u32 (i + 2)) (u32 (i + 6)) out;
  out ← put in_ offset (u32 (i + 3)) (u32 (i + 7)) out;
  out ← put in_ offset (u32 (i + 4)) (u32 (i + 0)) out;
  out ← put in_ offset (u32 (i + 5)) (u32 (i + 1)) out;
  out ← put in_ offset (u32 (i + 6)) (u32 (i + 2)) out;
  put in_ offset (u32 (i + 7)) (u32 (i + 3)) out.

Definition fl2k_convert_singlechan (out : option buffer) (in_ : option (list Z))
    (len offset : Z) : option (option buffer) :=
  match in_, out with
  | Some in_, Some o =>
      Some <$> convert_loop (convert_singlechan_body in_ offset) 8 0 (loop_fuel len 8) len 0 0 o
  | _, _ => Some out
  end.

(** * The device handle and its environment *)

(** ** Constants of the public header *)

(** Modelled from the spec: the header [osmo-fl2k.h] is not among the
    sources.  The specification names the error taxonomy (INVALID_PARAM,
    NO_MEM, BUSY, TIMEOUT, NOT_FOUND, OTHER), the two modes, the palette
    size (256 entries) and the per-call buffer length (1,310,720 bytes,
    three of which make one transfer).  The numeric values of the error
    codes are those of [enum fl2k_error]; the code below depends on them
    only through [FL2K_SUCCESS = 0] and the errors being negative. *)
Definition FL2K_SUCCESS : Z := 0.
Definition FL2K_ERROR_INVALID_PARAM : Z := -1.
Definition FL2K_ERROR_NO_DEVICE : Z := -2.
Definition FL2K_ERROR_NOT_FOUND : Z := -5.
Definition FL2K_ERROR_BUSY : Z := -6.
Definition FL2K_ERROR_TIMEOUT : Z := -7.
Definition FL2K_ERROR_NO_MEM : Z := -11.
Definition FL2K_ERROR_OTHER : Z := -99.

Definition FL2K_MODE_MULTICHAN : Z := 0.
Definition FL2K_MODE_SINGLECHAN : Z := 1.

Definition FL2K_PALETTE_SIZE : Z := 256.
Definition FL2K_BUF_LEN : Z := 1280 * 1024.
Definition FL2K_XFER_LEN : Z := FL2K_BUF_LEN * 3.

(** ** Constants of the library *)

Definition DEFAULT_BUF_NUMBER : Z := 4.
Definition CTRL_IN : Z := Z.lor 0x40 0x80.
Definition CTRL_OUT : Z := Z.lor 0x40 0x00.
Definition CTRL_TIMEOUT : Z := 300.
Definition R_EN : Z := Z.shiftl 1 0.
Definition G_EN : Z := Z.shiftl 1 1.
Definition B_EN : Z := Z.shiftl 1 2.

(** libusb: [LIBUSB_ERROR_NO_DEVICE] and the transfer status codes. *)
Definition LIBUSB_ERROR_NO_DEVICE : Z := -4.

Inductive libusb_transfer_status :=
  | LIBUSB_TRANSFER_COMPLETED
  | LIBUSB_TRANSFER_ERROR
  | LIBUSB_TRANSFER_TIMED_OUT
  | LIBUSB_TRANSFER_CANCELLED
  | LIBUSB_TRANSFER_STALL
  | LIBUSB_TRANSFER_NO_DEVICE
  | LIBUSB_TRANSFER_OVERFLOW.

Global Instance libusb_transfer_status_eq_dec : EqDecision libusb_transfer_status.
Proof. solve_decision. Defined.

(** ** Data model *)

Inductive fl2k_async_status := FL2K_INACTIVE | FL2K_CANCELING | FL2K_RUNNING.

Inductive fl2k_buf_state := BUF_EMPTY | BUF_SUBMITTED | BUF_FILLED.

Global Instance fl2k_async_status_eq_dec : EqDecision fl2k_async_status.
Proof. solve_decision. Defined.

Global Instance fl2k_buf_state_eq_dec : EqDecision fl2k_buf_state.
Proof. solve_decision. Defined.

(** [fl2k_xfer_info_t]; the back pointer [dev] is implicit.  The field
    [seq] is spelled [seqno] here, [seq] being the list of successive
    naturals. *)
Record fl2k_xfer_info := XferInfo { seqno : Z; state : fl2k_buf_state }.

(** A [struct libusb_transfer] of the pool together with what it points
    to: [dev->xfer[i]], its buffer [dev->xfer_buf[i]], and its
    [user_data], which is [&dev->xfer_info[i]] (or NULL). *)
Record libusb_transfer := Transfer {
  status : libusb_transfer_status;
  xfer_buffer : list Z;
  user_data : option fl2k_xfer_info
}.

(** [struct fl2k_dev], restricted to the fields the modelled functions
    use.  [rate] is a [double]; see the section on the PLL. *)
Record fl2k_dev := Dev {
  xfer_num : Z;
  xfer_buf_num : Z;
  xfer_buf_len : Z;
  xfer : list libusb_transfer;
  has_cb : bool;
  async_status : fl2k_async_status;
  async_cancel : Z;
  mode : Z;
  use_zerocopy : Z;
  rate : Q;
  dev_lost : Z;
  underflow_cnt : Z
}.

Definition set_xfer_num v d := Dev v (xfer_buf_num d) (xfer_buf_len d) (xfer d) (has_cb d) (async_status d) (async_cancel d) (mode d) (use_zerocopy d) (rate d) (dev_lost d) (underflow_cnt d).
Definition set_xfer_buf_num v d := Dev (xfer_num d) v (xfer_buf_len d) (xfer d) (has_cb d) (async_status d) (async_cancel d) (mode d) (use_zerocopy d) (rate d) (dev_lost d) (underflow_cnt d).
Definition set_xfer_buf_len v d := Dev (xfer_num d) (xfer_buf_num d) v (xfer d) (has_cb d) (async_status d) (async_cancel d) (mode d) (use_zerocopy d) (rate d) (dev_lost d) (underflow_cnt d).
Definition set_xfer v d := Dev (xfer_num d) (xfer_buf_num d) (xfer_buf_len d) v (has_cb d) (async_status d) (async_cancel d) (mode d) (use_zerocopy d) (rate d) (dev_lost d) (underflow_cnt d).
Definition set_has_cb v d := Dev (xfer_num d) (xfer_buf_num d) (xfer_buf_len d) (xfer d) v (async_status d) (async_cancel d) (mode d) (use_zerocopy d) (rate d) (dev_lost d) (underflow_cnt d).
Definition set_async_status v d := Dev (xfer_num d) (xfer_buf_num d) (xfer_buf_len d) (xfer d) (has_cb d) v (async_cancel d) (mode d) (use_zerocopy d) (rate d) (dev_lost d) (underflow_cnt d).
Definition set_async_cancel v d := Dev (xfer_num d) (xfer_buf_num d) (xfer_buf_len d) (xfer d) (has_cb d) (async_status d) v (mode d) (use_zerocopy d) (rate d) (dev_lost d) (underflow_cnt d).
Definition set_mode v d := Dev (xfer_num d) (xfer_buf_num d) (xfer_buf_len d) (xfer d) (has_cb d) (async_status d) (async_cancel d) v (use_zerocopy d) (rate d) (dev_lost d) (underflow_cnt d).
Definition set_use_zerocopy v d := Dev (xfer_num d) (xfer_buf_num d) (xfer_buf_len d) (xfer d) (has_cb d) (async_status d) (async_cancel d) (mode d) v (rate d) (dev_lost d) (underflow_cnt d).
Definition set_rate v d := Dev (xfer_num d) (xfer_buf_num d) (xfer_buf_len d) (xfer d) (has_cb d) (async_status d) (async_cancel d) (mode d) (use_zerocopy d) v (dev_lost d) (underflow_cnt d).
Definition set_dev_lost v d := Dev (xfer_num d) (xfer_buf_num d) (xfer_buf_len d) (xfer d) (has_cb d) (async_status d) (async_cancel d) (mode d) (use_zerocopy d) (rate d) v (underflow_cnt d).
Definition set_underflow_cnt v d := Dev (xfer_num d) (xfer_buf_num d) (xfer_buf_len d) (xfer d) (has_cb d) (async_status d) (async_cancel d) (mode d) (use_zerocopy d) (rate d) (dev_lost d) v.

(** ** The environment: the USB bus, threads, the diagnostic channel *)

(** The arguments of [libusb_control_transfer]. *)
Record ctrl_request := CtrlRequest {
  bmRequestType : Z;
  bRequest : Z;
  wValue : Z;
  wIndex : Z;
  data_out : list Z;
  wLength : Z;
  timeout : Z
}.

(** Its outcome: the return value, and the four bytes found in the data
    buffer afterwards (for an IN transfer that fell short these are
    whatever the buffer held: it is not initialised). *)
Record ctrl_reply := CtrlReply { ctrl_ret : Z; data_in : list Z }.

(** The two worker threads, by their entry points. *)
Inductive thread_fn := fl2k_usb_worker | fl2k_sample_worker.

(** Messages printed to [stderr]; an integer argument is the number
    the message shows. *)
Inductive diag :=
  | ShortRead
  | PaletteWriteError (i : Z)
  | PaletteMismatch (i reg expected : Z)
  | RateNotPossible (target_freq : Z) (sample_clock error : Q)
  | Resubmitted
  | CallbackCanceling (xfer_status : libusb_transfer_status) (r : Z)
  | AllocatingZerocopy (n : Z)
  | UsbfsMmapBug
  | ZerocopyAllocFailed (i : Z)
  | SubmitFailed (i : Z)
  | SpawnError.

(** Everything outside the handle.  [bus n req] is the outcome of the
    [n]-th control transfer when it is [req]; [submit_ret n] the return
    value of the [n]-th [libusb_submit_transfer]; [dev_mem_alloc_ret n]
    the outcome of the [n]-th [libusb_dev_mem_alloc]: [None] for NULL,
    and otherwise the content of the memory the kernel maps, byte by
    byte; [dev_mem_allocs] counts these calls.  The logs are most recent
    first. *)
Record world := World {
  bus : nat → ctrl_request → ctrl_reply;
  ctrl_log : list ctrl_request;
  submit_ret : nat → Z;
  submit_log : list (nat * list Z);
  cond_signals : nat;
  malloc_ok : bool;
  dev_mem_alloc_ret : nat → option (nat → Z);
  dev_mem_allocs : nat;
  pthread_create_ret : nat → Z;
  threads : list thread_fn;
  stderr : list diag
}.

(** Computations: state over the world, failing where C is undefined. *)
Definition M (A : Type) : Type := world → option (A * world).

Global Instance M_ret : MRet M := λ A a w, Some (a, w).
Global Instance M_bind : MBind M := λ A B f m w,
  match m w with
  | Some (a, w') => f a w'
  | None => None
  end.

Definition lift {A} (o : option A) : M A := λ w, (λ a, (a, w)) <$> o.

Definition libusb_control_transfer (req : ctrl_request) : M ctrl_reply := λ w,
  Some (bus w (length (ctrl_log w)) req,
        World (bus w) (req :: ctrl_log w) (submit_ret w) (submit_log w)
              (cond_signals w) (malloc_ok w) (dev_mem_alloc_ret w) (dev_mem_allocs w)
              (pthread_create_ret w) (threads w) (stderr w)).

Definition libusb_submit_transfer (i : nat) (buf : list Z) : M Z := λ w,
  Some (submit_ret w (length (submit_log w)),
        World (bus w) (ctrl_log w) (submit_ret w) ((i, buf) :: submit_log w)
              (cond_signals w) (malloc_ok w) (dev_mem_alloc_ret w) (dev_mem_allocs w)
              (pthread_create_ret w) (threads w) (stderr w)).

Definition pthread_cond_signal : M unit := λ w,
  Some (tt, World (bus w) (ctrl_log w) (submit_ret w) (submit_log w)
              (S (cond_signals w)) (malloc_ok w) (dev_mem_alloc_ret w) (dev_mem_allocs w)
              (pthread_create_ret w) (threads w) (stderr w)).

Definition pthread_create (thread : thread_fn) : M Z := λ w,
  Some (pthread_create_ret w (length (threads w)),
        World (bus w) (ctrl_log w) (submit_ret w) (submit_log w)
              (cond_signals w) (malloc_ok w) (dev_mem_alloc_ret w) (dev_mem_allocs w)
              (pthread_create_ret w)
              (if decide (pthread_create_ret w (length (threads w)) = 0)
               then thread :: threads w else threads w)
              (stderr w)).

(** [libusb_dev_mem_alloc(dev->devh, len)]: NULL, or [len] bytes of
    memory with the content the kernel left there. *)
Definition mem_bytes (content : nat → Z) (len : Z) : list Z :=
  (λ k, u8 (content k)) <$> seq 0 (Z.to_nat len).

Definition libusb_dev_mem_alloc (len : Z) : M (option (list Z)) := λ w,
  Some ((λ content, mem_bytes content len) <$> dev_mem_alloc_ret w (dev_mem_allocs w),
        World (bus w) (ctrl_log w) (submit_ret w) (submit_log w)
              (cond_signals w) (malloc_ok w) (dev_mem_alloc_ret w) (S (dev_mem_allocs w))
              (pthread_create_ret w) (threads w) (stderr w)).

(** [malloc(size)] of a sample buffer: whether the result is not NULL. *)
Definition malloc : M bool := λ w, Some (malloc_ok w, w).

Definition fprintf_stderr (m : diag) : M unit := λ w,
  Some (tt, World (bus w) (ctrl_log w) (submit_ret w) (submit_log w)
              (cond_signals w) (malloc_ok w) (dev_mem_alloc_ret w) (dev_mem_allocs w)
              (pthread_create_ret w) (threads w) (m :: stderr w)).

(** A loop over [l] carrying a state; the body either continues with a
    new state or leaves the function with a return value. *)
Fixpoint for_each {A S R} (l : list A) (s : S) (body : A → S → M (S + R)) : M (S + R) :=
  match l with
  | [] => mret (inl s)
  | x :: l =>
      r ← body x s;
      match r with
      | inl s' => for_each l s' body
      | inr v => mret (inr v)
      end
  end.

(** * Register I/O *)

(** [static int fl2k_read_reg(fl2k_dev_t *dev, uint16_t reg, uint32_t *val)].
    [val] is the content of [*val] on entry, or [None] for a NULL pointer;
    the result pairs the return value with the content of [*val] on exit.
    The local [r] is a [uint32_t]. *)
Definition fl2k_read_reg (dev : option fl2k_dev) (reg : Z) (val : option Z) : M (Z * option Z) :=
  match dev, val with
  | Some _, Some _ =>
      rep ← libusb_control_transfer (CtrlRequest CTRL_IN 0x40 0 reg [] 4 CTRL_TIMEOUT);
      let r := u32 (ctrl_ret rep) in
      if decide (r < 4) then
        _ ← fprintf_stderr ShortRead;
        mret (FL2K_ERROR_OTHER, val)
      else
        let data i := u8 (data_in rep !!! i) in
        mret (FL2K_SUCCESS,
              Some (u32 (Z.lor (Z.lor (Z.lor (Z.shiftl (data 3%nat) 24)
                                             (Z.shiftl (data 2%nat) 16))
                                      (Z.shiftl (data 1%nat) 8))
                               (data 0%nat))))
  | _, _ => mret (FL2K_ERROR_INVALID_PARAM, val)
  end.

(** [static int fl2k_write_reg(fl2k_dev_t *dev, uint16_t reg, uint32_t val)] *)
Definition fl2k_write_reg (dev : option fl2k_dev) (reg : Z) (val : Z) : M Z :=
  match dev with
  | None => mret FL2K_ERROR_INVALID_PARAM
  | Some _ =>
      let data := [Z.land val 0xff;
                   Z.land (Z.shiftr val 8) 0xff;
                   Z.land (Z.shiftr val 16) 0xff;
                   Z.land (Z.shiftr val 24) 0xff] in
      rep ← libusb_control_transfer (CtrlRequest CTRL_OUT 0x41 0 reg data 4 CTRL_TIMEOUT);
      let r := u32 (ctrl_ret rep) in
      if decide (r ≠ 4) then mret FL2K_ERROR_OTHER else mret FL2K_SUCCESS
  end.

(** * Palette and mode control *)

(** [int fl2k_load_custom_palette(fl2k_dev_t *dev, uint32_t *palette)];
    [palette] points to [FL2K_PALETTE_SIZE] words. *)
Definition fl2k_load_custom_palette (dev : option fl2k_dev) (palette : list Z) : M Z :=
  match dev with
  | None => mret FL2K_ERROR_INVALID_PARAM
  | Some _ =>
      (* write palette RAM *)
      w ← for_each (seqZ 0 FL2K_PALETTE_SIZE) tt (λ i _,
             p ← lift (load palette i);
             r ← fl2k_write_reg dev 0x805c (u32 (Z.lor (Z.shiftl p 8) (Z.land i 0xff)));
             _ ← (if decide (r < 0) then fprintf_stderr (PaletteWriteError i) else mret tt);
             mret (inl tt : unit + Z));
      match w with
      | inr r => mret r
      | inl _ =>
          (* verify palette RAM *)
          v ← for_each (seqZ 0 FL2K_PALETTE_SIZE) 0 (λ i reg,
                 r ← fl2k_write_reg dev 0x8060 (Z.land (i + 1) 0xff);
                 '(r', reg') ← fl2k_read_reg dev 0x805c (Some reg);
                 let r := Z.lor r r' in
                 let reg := default reg reg' in
                 if decide (r < 0) then mret (inr FL2K_ERROR_OTHER)
                 else
                   p ← lift (load palette i);
                   _ ← (if decide (reg ≠ p)
                        then fprintf_stderr (PaletteMismatch i reg p) else mret tt);
                   mret (inl reg));
          match v with
          | inr r => mret r
          | inl _ => mret FL2K_SUCCESS
          end
      end
  end.

(** [int fl2k_set_enabled_channels(fl2k_dev_t *dev, uint8_t chan_mask)]:
    a linear 8 bit palette on the desired DAC channels. *)
Definition fl2k_set_enabled_channels (dev : option fl2k_dev) (chan_mask : Z) : M Z :=
  let entry i :=
    Z.lor (Z.lor (if decide (Z.land chan_mask R_EN ≠ 0) then Z.shiftl i 16 else 0)
                 (if decide (Z.land chan_mask G_EN ≠ 0) then Z.shiftl i 8 else 0))
          (if decide (Z.land chan_mask B_EN ≠ 0) then i else 0) in
  fl2k_load_custom_palette dev (entry <$> seqZ 0 FL2K_PALETTE_SIZE).

(** [int fl2k_set_mode(fl2k_dev_t *dev, fl2k_mode_t mode)]; the result
    pairs the return value with the handle afterwards. *)
Definition fl2k_set_mode (dev : option fl2k_dev) (mode_ : Z) : M (Z * option fl2k_dev) :=
  match dev with
  | None => mret (FL2K_ERROR_INVALID_PARAM, dev)
  | Some d =>
      if decide (async_status d = FL2K_RUNNING) then mret (FL2K_ERROR_BUSY, dev)
      else if decide (mode d = mode_) then mret (FL2K_SUCCESS, dev)
      else
        '(r, reg) ← fl2k_read_reg dev 0x8004 (Some 0);
        (* [reg] is not initialised; 0 stands for its content on entry *)
        let reg := default 0 reg in
        if decide (r < 0) then mret (FL2K_ERROR_OTHER, dev)
        else
          k ← (if decide (mode_ = FL2K_MODE_SINGLECHAN) then
                 (* enable 256 colour palette mode *)
                 r' ← fl2k_set_enabled_channels dev R_EN;
                 mret (Some (Z.lor reg (Z.lor (Z.shiftl 1 25) (Z.shiftl 1 26))))
               else if decide (mode_ = FL2K_MODE_MULTICHAN) then
                 mret (Some (Z.land reg (u32 (Z.lnot (Z.lor (Z.shiftl 1 25) (Z.shiftl 1 26))))))
               else mret None);
          match k with
          | None => mret (FL2K_ERROR_INVALID_PARAM, dev)
          | Some reg =>
              r ← fl2k_write_reg dev 0x8004 reg;
              if decide (r = 0) then mret (r, Some (set_mode mode_ d))
              else mret (r, dev)
          end
  end.

(** * The PLL *)

(** ** Floating point *)

(** A finite [float] or [double] is the rational number it denotes.  Each
    arithmetic operation computes the exact result and rounds it to the
    nearest value of the format, ties to even ([fround]); it yields [None]
    where the result would be infinite, NaN or subnormal, none of which
    the PLL computations reach on the words the library produces. *)

Global Instance Qlt_decision (x y : Q) : Decision (x < y)%Q.
Proof. unfold Qlt. apply _. Defined.

(** The integer nearest to [a / b] for [0 < b], ties to even. *)
Definition rne (a b : Z) : Z :=
  let q := a / b in
  match 2 * (a mod b) ?= b with
  | Lt => q
  | Gt => q + 1
  | Eq => if Z.even q then q else q + 1
  end.

(** [m * 2 ^ e] *)
Definition dyadic (m e : Z) : Q :=
  if decide (0 ≤ e) then inject_Z (m * 2 ^ e) else Qmake m (Z.to_pos (2 ^ (- e))).

(** Rounding to precision [prec], the unit in the last place being
    [2 ^ e] with [emin ≤ e < emax]. *)
Definition fround (prec emin emax : Z) (x : Q) : option Q :=
  let x := Qred x in
  let n := Qnum x in
  let d := Zpos (Qden x) in
  if decide (n = 0) then Some 0%Q
  else
    let scaled e := (n * 2 ^ Z.max 0 (- e), d * 2 ^ Z.max 0 e) in
    let e0 := Z.log2 (Z.abs n) - Z.log2 d - (prec - 1) in
    let e := if decide (Z.abs (scaled e0).1 < 2 ^ (prec - 1) * (scaled e0).2)
             then e0 - 1 else e0 in
    let m := rne (scaled e).1 (scaled e).2 in
    if decide (emin ≤ e < emax) then Some (Qred (dyadic m e)) else None.

(** binary32 and binary64 *)
Definition b32 : Q → option Q := fround 24 (-149) 104.
Definition b64 : Q → option Q := fround 53 (-1074) 971.

Definition b32_div (x y : Q) : option Q :=
  if decide (Qnum y = 0) then None else b32 (x / y).
Definition b32_mul (x y : Q) : option Q := b32 (x * y).
Definition b64_div (x y : Q) : option Q :=
  if decide (Qnum y = 0) then None else b64 (x / y).
Definition b64_mul (x y : Q) : option Q := b64 (x * y).
Definition b64_add (x y : Q) : option Q := b64 (x + y).
Definition b64_sub (x y : Q) : option Q := b64 (x - y).

(** Conversions between integers and floating point.  [float_of_Z] and
    [double_of_Z] round; [uint32_of_double] truncates towards zero and is
    undefined outside the range of [uint32_t]. *)
Definition float_of_Z (n : Z) : option Q := b32 (inject_Z n).
Definition double_of_Z (n : Z) : option Q := b64 (inject_Z n).

Definition Qtrunc (x : Q) : Z :=
  if decide (0 ≤ Qnum x) then Qfloor x else Qceiling x.

Definition uint32_of_double (x : Q) : option Z :=
  let t := Qtrunc x in
  if decide (0 ≤ t < 2 ^ 32) then Some t else None.

(** ** Decoding a PLL register word *)

(** [static double fl2k_reg_to_freq(uint32_t reg)] *)
Definition fl2k_reg_to_freq (reg : Z) : option Q :=
  let pll_clock := 160000000 in
  let div := u8 (Z.land reg 0x3f) in
  let out_div := u8 (Z.land (Z.shiftr reg 8) 0xf) in
  let frac := u8 (Z.land (Z.shiftr reg 16) 0xf) in
  let mult := u8 (Z.land (Z.shiftr reg 20) 0xf) in
  (* sample_clock = (pll_clock * mult) / (uint32_t)div; *)
  sample_clock ← (if decide (div = 0) then None
                  else double_of_Z (u32 (pll_clock * mult) / div));
  (* offs_div = (pll_clock / 5.0f ) * mult; *)
  pll_clock_f ← float_of_Z pll_clock;
  fifth ← b32_div pll_clock_f 5;
  mult_f ← float_of_Z mult;
  offs_div ← b32_mul fifth mult_f;
  (* offset = ((double)sample_clock/(offs_div/2)) * 1000000.0f; *)
  half ← b64_div offs_div 2;
  ratio ← b64_div sample_clock half;
  offset ← b64_mul ratio 1000000;
  (* sample_clock += (uint32_t)offset * frac; *)
  offset_u ← uint32_of_double offset;
  step ← double_of_Z (u32 (offset_u * frac));
  sample_clock ← b64_add sample_clock step;
  (* sample_clock /= out_div; *)
  out_div_d ← double_of_Z out_div;
  b64_div sample_clock out_div_d.

(** ** The solver *)

Fixpoint fold_opt {A S} (f : S → A → option S) (l : list A) (s : S) : option S :=
  match l with
  | [] => Some s
  | x :: l => s' ← f s x; fold_opt f l s'
  end.

(** The register word the loop body assembles. *)
Definition pll_reg (out_div mult div frac : Z) : Z :=
  u32 (Z.lor (Z.lor (Z.lor (Z.lor (Z.shiftl mult 20) (Z.shiftl frac 16))
                           (Z.shiftl 0x60 8))
                    (Z.shiftl out_div 8))
             div).

(** The body of the innermost loop; the state is [(result_reg, last_error)]. *)
Definition pll_try (target_freq : Z) (st : Z * Q) (reg : Z) : option (Z * Q) :=
  sample_clock ← fl2k_reg_to_freq reg;
  target ← double_of_Z target_freq;
  error ← b64_sub sample_clock target;
  (* Keep closest match *)
  if decide (Qabs error < st.2)%Q then Some (reg, Qabs error) else Some st.

(** The ranges of the three loops, in iteration order:
    [for (mult = 6; mult >= 3; mult--)], [for (div = 63; div > 1; div--)],
    [for (frac = 1; frac <= 15; frac++)]. *)
Definition mult_range : list Z := [6; 5; 4; 3].
Definition div_range : list Z := reverse (seqZ 2 62).
Definition frac_range : list Z := seqZ 1 15.

Definition pll_search (target_freq : Z) (st : Z * Q) : option (Z * Q) :=
  let out_div := 1 in
  fold_opt (λ st mult,
    fold_opt (λ st div,
      fold_opt (λ st frac, pll_try target_freq st (pll_reg out_div mult div frac))
        frac_range st)
      div_range st)
    mult_range st.

(** [int fl2k_set_sample_rate(fl2k_dev_t *dev, uint32_t target_freq)] *)
Definition fl2k_set_sample_rate (dev : option fl2k_dev) (target_freq : Z)
    : M (Z * option fl2k_dev) :=
  match dev with
  | None => mret (FL2K_ERROR_INVALID_PARAM, dev)
  | Some d =>
      (* last_error = 1e20f, reg = 0, result_reg = 0 *)
      last_error ← lift (b32 (inject_Z (10 ^ 20)));
      '(result_reg, _) ← lift (pll_search target_freq (0, last_error));
      sample_clock ← lift (fl2k_reg_to_freq result_reg);
      target ← lift (double_of_Z target_freq);
      error ← lift (b64_sub sample_clock target);
      let d := set_rate sample_clock d in
      _ ← (if decide (1 < Qabs error)%Q
           then fprintf_stderr (RateNotPossible (s32 target_freq) sample_clock error)
           else mret tt);
      r ← fl2k_write_reg (Some d) 0x802c result_reg;
      mret (r, Some d)
  end.

(** [uint32_t fl2k_get_sample_rate(fl2k_dev_t *dev)] *)
Definition fl2k_get_sample_rate (dev : option fl2k_dev) : option Z :=
  match dev with
  | None => Some 0
  | Some d => uint32_of_double (rate d)
  end.

(** * The transfer pool and the streaming engine *)

(** [dev->xfer_info[i].state = st], seen through [dev->xfer[i]->user_data]. *)
Definition set_state (i : nat) (st : fl2k_buf_state) (d : fl2k_dev) : fl2k_dev :=
  set_xfer (alter (λ x, Transfer (status x) (xfer_buffer x)
                          ((λ info, XferInfo (seqno info) st) <$> user_data x))
                  i (xfer d)) d.

(** The loop of [fl2k_get_next_xfer] over the indices [idx] still to be
    visited; [next_buf] is an [int], [-1] for none. *)
Fixpoint next_xfer_loop (pool : list libusb_transfer) (st : fl2k_buf_state)
    (idx : list nat) (next_buf next_seq : Z) : option (option nat) :=
  match idx with
  | [] =>
      Some (if decide (st = BUF_FILLED ∧ 0 ≤ next_buf)
            then Some (Z.to_nat next_buf) else None)
  | i :: idx =>
      x ← pool !! i;
      match user_data x with
      | None => next_xfer_loop pool st idx next_buf next_seq
      | Some xfer_info =>
          if decide (state xfer_info = st) then
            if decide (st = BUF_EMPTY) then Some (Some i)
            else if decide (seqno xfer_info < next_seq ∨ next_buf < 0)
                 then next_xfer_loop pool st idx (Z.of_nat i) (seqno xfer_info)
                 else next_xfer_loop pool st idx next_buf next_seq
          else next_xfer_loop pool st idx next_buf next_seq
      end
  end.

(** [static struct libusb_transfer *fl2k_get_next_xfer(fl2k_dev_t *dev,
    fl2k_buf_state_t state)]; the result is the index of the transfer, or
    [None] for NULL. *)
Definition fl2k_get_next_xfer (dev : fl2k_dev) (st : fl2k_buf_state) : option (option nat) :=
  next_xfer_loop (xfer dev) st (seq 0 (Z.to_nat (xfer_buf_num dev))) (-1) 0.

(** [int fl2k_stop_tx(fl2k_dev_t *dev)] *)
Definition fl2k_stop_tx (dev : option fl2k_dev) : Z * option fl2k_dev :=
  match dev with
  | None => (FL2K_ERROR_INVALID_PARAM, dev)
  | Some d =>
      (* if streaming, try to cancel gracefully *)
      if decide (async_status d = FL2K_RUNNING) then
        (0, Some (set_async_cancel 1 (set_async_status FL2K_CANCELING d)))
      (* if called while in pending state, change the state forcefully *)
      else if decide (async_status d ≠ FL2K_INACTIVE) then
        (0, Some (set_async_status FL2K_INACTIVE d))
      else (FL2K_ERROR_BUSY, dev)
  end.

(** [static void LIBUSB_CALL _libusb_callback(struct libusb_transfer *xfer)],
    for [xfer = dev->xfer[k]]; its [status] has been set by libusb. *)
Definition _libusb_callback (dev : fl2k_dev) (k : nat) : M fl2k_dev :=
  xfer_ ← lift (xfer dev !! k);
  _ ← lift (user_data xfer_);
  '(r, dev) ←
    (if decide (status xfer_ = LIBUSB_TRANSFER_COMPLETED) then
       (* resubmit transfer *)
       if decide (async_status dev = FL2K_RUNNING) then
         (* get next transfer *)
         next_xfer ← lift (fl2k_get_next_xfer dev BUF_FILLED);
         match next_xfer with
         | Some j =>
             next ← lift (xfer dev !! j);
             _ ← lift (user_data next);
             (* Submit next filled transfer *)
             let dev := set_state j BUF_SUBMITTED dev in
             r ← libusb_submit_transfer j (xfer_buffer next);
             let dev := set_state k BUF_EMPTY dev in
             _ ← pthread_cond_signal;
             mret (r, dev)
         | None =>
             (* We need to re-submit the transfer in any case, as
                otherwise the device stops to output data and hangs *)
             r ← libusb_submit_transfer k (xfer_buffer xfer_);
             _ ← pthread_cond_signal;
             let dev := set_underflow_cnt (u32 (underflow_cnt dev + 1)) dev in
             _ ← fprintf_stderr Resubmitted;
             mret (r, dev)
         end
       else mret (0, dev)
     else mret (0, dev));
  if decide ((status xfer_ ≠ LIBUSB_TRANSFER_CANCELLED
              ∧ status xfer_ ≠ LIBUSB_TRANSFER_COMPLETED)
             ∨ r = LIBUSB_ERROR_NO_DEVICE) then
    let dev := set_dev_lost 1 dev in
    let dev := default dev (fl2k_stop_tx (Some dev)).2 in
    _ ← pthread_cond_signal;
    _ ← fprintf_stderr (CallbackCanceling (status xfer_) r);
    mret dev
  else mret dev.

(** The record the application callback fills in, as far as the worker
    reads it. *)
Record fl2k_data_info := DataInfo {
  sampletype_signed : Z;
  r_buf : option (list Z);
  g_buf : option (list Z);
  b_buf : option (list Z)
}.

Definition sample_offset (di : fl2k_data_info) : Z :=
  if decide (sampletype_signed di ≠ 0) then 128 else 0.

(** A conversion applied at [&out_buf[at]]. *)
Definition convert_at (conv : option buffer → option (list Z) → Z → Z → option (option buffer))
    (at_ : nat) (in_ : option (list Z)) (len offset : Z) (out_buf : list Z)
    : option (list Z) :=
  o ← conv (Some (fresh (drop at_ out_buf))) in_ len offset;
  o ← o;
  Some (take at_ out_buf ++ bytes o).

(** The loop body of [fl2k_sample_worker] once it holds the empty
    transfer [i]: the buffers handed over by the application callback
    ([data_info], one record per call) are converted into the transfer's
    buffer, the transfer takes the next sequence number and becomes
    FILLED.  [buf_cnt] is the worker's [uint64_t] counter; the result
    pairs the handle with the counter afterwards. *)
Definition sample_worker_fill (dev : fl2k_dev) (buf_cnt : Z) (i : nat)
    (data_info : list fl2k_data_info) : option (fl2k_dev * Z) :=
  xfer_ ← xfer dev !! i;
  _ ← user_data xfer_;
  let out_buf := xfer_buffer xfer_ in
  out_buf ←
    (if decide (mode dev = FL2K_MODE_SINGLECHAN) then
       (* Convert a buffer to the singlechannel DAC format *)
       d0 ← data_info !! 0%nat; d1 ← data_info !! 1%nat; d2 ← data_info !! 2%nat;
       out_buf ← convert_at fl2k_convert_singlechan 0 (r_buf d0)
                   FL2K_BUF_LEN (sample_offset d0) out_buf;
       out_buf ← convert_at fl2k_convert_singlechan (Z.to_nat FL2K_BUF_LEN) (r_buf d1)
                   FL2K_BUF_LEN (sample_offset d1) out_buf;
       convert_at fl2k_convert_singlechan (Z.to_nat (2 * FL2K_BUF_LEN)) (r_buf d2)
         FL2K_BUF_LEN (sample_offset d2) out_buf
     else
       (* Re-arrange and copy bytes in buffer for DACs *)
       d0 ← data_info !! 0%nat;
       out_buf ← convert_at fl2k_convert_r 0 (r_buf d0) (xfer_buf_len dev)
                   (sample_offset d0) out_buf;
       out_buf ← convert_at fl2k_convert_g 0 (g_buf d0) (xfer_buf_len dev)
                   (sample_offset d0) out_buf;
       convert_at fl2k_convert_b 0 (b_buf d0) (xfer_buf_len dev)
         (sample_offset d0) out_buf);
  (* xfer_info->seq = buf_cnt++; xfer_info->state = BUF_FILLED; *)
  Some (set_xfer (<[i := Transfer (status xfer_) out_buf
                           (Some (XferInfo buf_cnt BUF_FILLED))]> (xfer dev)) dev,
        u64 (buf_cnt + 1)).

(** The test for the usbfs mmap() bug,
    [buf[0] || memcmp(buf, buf + 1, len - 1)], on a buffer of [len]
    bytes: [len - 1] is computed in 32 bits, and reading [buf[0]] of an
    empty buffer is undefined. *)
Definition mmap_bug (buf : list Z) (len : Z) : option bool :=
  b0 ← buf !! 0%nat;
  let n := Z.to_nat (u32 (len - 1)) in
  Some (bool_decide (b0 ≠ 0) || bool_decide (take n buf ≠ take n (drop 1 buf))).

(** [libusb_alloc_transfer(0)]: a zeroed transfer, with no buffer and no
    [user_data] yet. *)
Definition libusb_alloc_transfer : libusb_transfer :=
  Transfer LIBUSB_TRANSFER_COMPLETED [] None.

(** [static int fl2k_alloc_submit_transfers(fl2k_dev_t *dev)], as built
    on Linux with libusb 1.0.21 or later (the zero-copy block is
    compiled in).  The three arrays are taken to be allocated; [malloc]
    stands for the allocations of the sample buffers in userspace, whose
    content is indeterminate until the [memset] of the fill loop.
    Freeing has no effect that is modelled. *)
Definition fl2k_alloc_submit_transfers (dev : option fl2k_dev) : M (Z * option fl2k_dev) :=
  match dev with
  | None => mret (FL2K_ERROR_INVALID_PARAM, dev)
  | Some d =>
      let n := Z.to_nat (xfer_buf_num d) in
      let d := set_xfer (replicate n libusb_alloc_transfer) d in
      _ ← fprintf_stderr (AllocatingZerocopy (s32 (xfer_buf_num d)));
      let d := set_use_zerocopy 1 d in
      (* the state is [dev->xfer_buf] so far; [inr tt] is [break] with
         [dev->use_zerocopy = 0] *)
      zc ← for_each (seq 0 n) [] (λ i xfer_buf,
              buf ← libusb_dev_mem_alloc (xfer_buf_len d);
              match buf with
              | Some buf =>
                  (* Check if Kernel usbfs mmap() bug is present *)
                  bug ← lift (mmap_bug buf (xfer_buf_len d));
                  if bug : bool then
                    _ ← fprintf_stderr UsbfsMmapBug;
                    mret (inr tt)
                  else mret (inl (xfer_buf ++ [buf]) : list (list Z) + unit)
              | None =>
                  _ ← fprintf_stderr (ZerocopyAllocFailed (s32 (Z.of_nat i)));
                  mret (inr tt)
              end);
      let d := match zc with inl _ => d | inr _ => set_use_zerocopy 0 d end in
      (* no zero-copy available, allocate buffers in userspace *)
      r ← (if decide (use_zerocopy d = 0) then
             for_each (seq 0 n) tt (λ _ _,
               ok ← malloc;
               if ok : bool then mret (inl tt) else mret (inr FL2K_ERROR_NO_MEM))
           else mret (inl tt));
      match r with
      | inr r => mret (r, Some d)
      | inl _ =>
          (* fill transfers *)
          let pool :=
            match zc with
            | inl xfer_buf =>
                (λ buf, Transfer LIBUSB_TRANSFER_COMPLETED buf (Some (XferInfo 0 BUF_EMPTY)))
                  <$> xfer_buf
            | inr _ =>
                (* memset(dev->xfer_buf[i], 0, dev->xfer_buf_len) *)
                replicate n (Transfer LIBUSB_TRANSFER_COMPLETED
                               (replicate (Z.to_nat (xfer_buf_len d)) 0)
                               (Some (XferInfo 0 BUF_EMPTY)))
            end in
          let d := set_xfer pool d in
          (* submit transfers *)
          r ← for_each (seq 0 (Z.to_nat (xfer_num d))) d (λ i d,
                 xfer_ ← lift (xfer d !! i);
                 r ← libusb_submit_transfer i (xfer_buffer xfer_);
                 let d := set_state i BUF_SUBMITTED d in
                 if decide (r < 0) then
                   _ ← fprintf_stderr (SubmitFailed (s32 (Z.of_nat i)));
                   mret (inr d)
                 else mret (inl d : fl2k_dev + fl2k_dev));
          match r with
          | inl d | inr d => mret (0, Some d)
          end
      end
  end.

(** [static int _fl2k_free_async_buffers(fl2k_dev_t *dev)] *)
Definition _fl2k_free_async_buffers (dev : option fl2k_dev) : Z * option fl2k_dev :=
  match dev with
  | None => (FL2K_ERROR_INVALID_PARAM, dev)
  | Some d => (0, Some (set_xfer [] d))
  end.

(** [int fl2k_start_tx(fl2k_dev_t *dev, fl2k_tx_cb_t cb, void *ctx,
    uint32_t buf_num)]; [cb] tells whether the callback pointer is
    non-NULL. *)
Definition fl2k_start_tx (dev : option fl2k_dev) (cb : bool) (buf_num : Z)
    : M (Z * option fl2k_dev) :=
  match dev with
  | None => mret (FL2K_ERROR_INVALID_PARAM, dev)
  | Some d =>
      if negb cb then mret (FL2K_ERROR_INVALID_PARAM, dev)
      else
        let d := set_async_status FL2K_RUNNING d in
        let d := set_async_cancel 0 d in
        let d := set_has_cb cb d in
        let d := set_xfer_num (if decide (0 < buf_num) then buf_num
                               else DEFAULT_BUF_NUMBER) d in
        (* have two spare buffers that can be filled while the others
           are submitted *)
        let d := set_xfer_buf_num (u32 (xfer_num d + 2)) d in
        let d := set_xfer_buf_len FL2K_XFER_LEN d in
        let cleanup (dev : option fl2k_dev) : M (Z * option fl2k_dev) :=
          mret (FL2K_ERROR_BUSY, (_fl2k_free_async_buffers dev).2) in
        '(r, dev) ← fl2k_alloc_submit_transfers (Some d);
        if decide (r < 0) then cleanup dev
        else
          r ← pthread_create fl2k_usb_worker;
          if decide (r < 0) then
            _ ← fprintf_stderr SpawnError; cleanup dev
          else
            r ← pthread_create fl2k_sample_worker;
            if decide (r < 0) then
              _ ← fprintf_stderr SpawnError; cleanup dev
            else mret (0, dev)
  end.

(** * Initialisation, mode query and the I2C master *)

(** [int fl2k_init_device(fl2k_dev_t *dev)]: the initialisation sequence;
    the results of the register writes are not looked at. *)
Definition fl2k_init_device (dev : option fl2k_dev) : M Z :=
  match dev with
  | None => mret FL2K_ERROR_INVALID_PARAM
  | Some _ =>
      (* initialization *)
      _ ← fl2k_write_reg dev 0x8020 0xdf0000cc;
      (* set DAC freq to lowest value possible to avoid underrun during init *)
      _ ← fl2k_write_reg dev 0x802c 0x00416f3f;
      _ ← fl2k_write_reg dev 0x8048 0x7ffb8004;
      _ ← fl2k_write_reg dev 0x803c 0xd701004d;
      _ ← fl2k_write_reg dev 0x8004 0x0000031c;
      _ ← fl2k_write_reg dev 0x8004 0x0010039d;
      _ ← fl2k_write_reg dev 0x8008 0x07800898;
      _ ← fl2k_write_reg dev 0x801c 0x00000000;
      _ ← fl2k_write_reg dev 0x0070 0x04186085;
      (* blanking magic *)
      _ ← fl2k_write_reg dev 0x8008 0xfeff0780;
      _ ← fl2k_write_reg dev 0x800c 0x0000f001;
      (* VSYNC magic *)
      _ ← fl2k_write_reg dev 0x8010 0x0400042a;
      _ ← fl2k_write_reg dev 0x8014 0x0010002d;
      _ ← fl2k_write_reg dev 0x8004 0x00000002;
      mret 0
  end.

(** [int fl2k_deinit_device(fl2k_dev_t *dev)] *)
Definition fl2k_deinit_device (dev : option fl2k_dev) : Z :=
  match dev with
  | None => FL2K_ERROR_INVALID_PARAM
  | Some _ => 0
  end.

(** [fl2k_mode_t fl2k_get_mode(fl2k_dev_t *dev)]; for a NULL handle the
    function ends without a [return]. *)
Definition fl2k_get_mode (dev : option fl2k_dev) : option Z := mode <$> dev.

(** The polling loop of [fl2k_i2c_read] and [fl2k_i2c_write], [n] passes
    left: [for (i = 0; i < 10; i++)], each pass a read of register 0x8020
    after [sleep_ms(10)] (which only takes time).  The result is [inl r]
    for [return r], and otherwise [inr (timeout, reg)] as the loop leaves
    the two variables.  [1 << 31] is taken to be the sign bit, as every
    compiler for a 32-bit [int] has it. *)
Fixpoint i2c_poll (dev : option fl2k_dev) (n : nat) (reg : Z) : M (Z + Z * Z) :=
  match n with
  | O => mret (inr (1, reg))
  | S n =>
      '(r, reg') ← fl2k_read_reg dev 0x8020 (Some reg);
      let reg := default reg reg' in
      if decide (r < 0) then mret (inl r)
      (* check if operation completed *)
      else if decide (Z.land reg (Z.shiftl 1 31) ≠ 0) then mret (inr (0, reg))
      else i2c_poll dev n reg
  end.

(** [int fl2k_i2c_read(fl2k_dev_t *dev, uint8_t i2c_addr, uint8_t reg_addr,
    uint8_t *data)]; [data] is the content of the four bytes [data] points
    to, and the result pairs the return value with their content
    afterwards: a control transfer that returns [n ≥ 0] has stored [n]
    bytes. *)
Definition fl2k_i2c_read (dev : option fl2k_dev) (i2c_addr reg_addr : Z) (data : list Z)
    : M (Z * list Z) :=
  match dev with
  | None => mret (FL2K_ERROR_INVALID_PARAM, data)
  | Some _ =>
      '(r, reg) ← fl2k_read_reg dev 0x8020 (Some 0);
      (* [reg] is not initialised; 0 stands for its content on entry *)
      if decide (r < 0) then mret (r, data)
      else
        (* apply mask, clearing bit 30 disables periodic repetition of read *)
        let reg := Z.land (default 0 reg) 0x3ffc0000 in
        (* set I2C register and address, select I2C read (bit 7) *)
        let reg := Z.lor reg (Z.lor (Z.lor (Z.lor (Z.shiftl 1 28) (Z.shiftl reg_addr 8))
                                           (Z.shiftl 1 7))
                                    (Z.land i2c_addr 0x7f)) in
        r ← fl2k_write_reg dev 0x8020 reg;
        if decide (r < 0) then mret (r, data)
        else
          p ← i2c_poll dev 10 reg;
          match p with
          | inl r => mret (r, data)
          | inr (timeout, reg) =>
              if decide (timeout ≠ 0) then mret (FL2K_ERROR_TIMEOUT, data)
              (* check if slave responded and all data was read *)
              else if decide (Z.land reg (Z.shiftl 0x0f 24) ≠ 0)
                   then mret (FL2K_ERROR_NOT_FOUND, data)
              else
                (* read data from register 0x8024 *)
                rep ← libusb_control_transfer
                        (CtrlRequest CTRL_IN 0x40 0 0x8024 [] 4 CTRL_TIMEOUT);
                let n := Z.to_nat (ctrl_ret rep) in
                mret (ctrl_ret rep, take n (data_in rep) ++ drop n data)
          end
  end.

(** [int fl2k_i2c_write(fl2k_dev_t *dev, uint8_t i2c_addr, uint8_t reg_addr,
    uint8_t *data)] *)
Definition fl2k_i2c_write (dev : option fl2k_dev) (i2c_addr reg_addr : Z) (data : list Z)
    : M Z :=
  match dev with
  | None => mret FL2K_ERROR_INVALID_PARAM
  | Some _ =>
      (* write data to register 0x8028 *)
      rep ← libusb_control_transfer
              (CtrlRequest CTRL_OUT 0x41 0 0x8028 data 4 CTRL_TIMEOUT);
      let r := ctrl_ret rep in
      if decide (r < 0) then mret r
      else
        '(r, reg) ← fl2k_read_reg dev 0x8020 (Some 0);
        if decide (r < 0) then mret r
        else
          (* apply mask, clearing bit 30 disables periodic repetition of read *)
          let reg := Z.land (default 0 reg) 0x3ffc0000 in
          (* set I2C register and address *)
          let reg := Z.lor reg (Z.lor (Z.lor (Z.shiftl 1 28) (Z.shiftl reg_addr 8))
                                      (Z.land i2c_addr 0x7f)) in
          r ← fl2k_write_reg dev 0x8020 reg;
          if decide (r < 0) then mret r
          else
            p ← i2c_poll dev 10 reg;
            match p with
            | inl r => mret r
            | inr (timeout, reg) =>
                if decide (timeout ≠ 0) then mret FL2K_ERROR_TIMEOUT
                (* check if slave responded and all data was written *)
                else if decide (Z.land reg (Z.shiftl 0x0f 24) ≠ 0)
                     then mret FL2K_ERROR_NOT_FOUND
                else mret FL2K_SUCCESS
            end
  end.

(** * Device enumeration and opening *)

(** [fl2k_dongle_t] and the table [known_devices]. *)
Record fl2k_dongle := Dongle { vid : Z; pid : Z; name : String.string }.

Module Import dongle_names.
Import String.
Definition FL2000DX_OEM : string := "FL2000DX OEM".
Definition empty_name : string := "".
End dongle_names.

Definition known_devices : list fl2k_dongle := [Dongle 0x1d5c 0x2000 FL2000DX_OEM].

(** [static fl2k_dongle_t *find_known_device(uint16_t vid, uint16_t pid)] *)
Definition find_known_device (vid_ pid_ : Z) : option fl2k_dongle :=
  List.find (λ d, bool_decide (vid d = vid_ ∧ pid d = pid_)) known_devices.

(** [struct libusb_device_descriptor], as far as it is read. *)
Record libusb_device_descriptor := Descriptor { idVendor : Z; idProduct : Z }.

(** What the library asks of libusb and of [malloc] outside a session:
    the return values of the calls of [fl2k_open], and the devices on
    the bus in the order [libusb_get_device_list] reports them ([None]
    when it fails, returning a negative count and no list). *)
Record usb_host := UsbHost {
  dev_malloc_ok : bool;
  libusb_init_ret : Z;
  device_list : option (list libusb_device_descriptor);
  libusb_open_ret : nat → Z;
  libusb_kernel_driver_active_ret : Z;
  libusb_detach_kernel_driver_ret : Z;
  libusb_claim_interface_ret : Z → Z;
  libusb_set_interface_alt_setting_ret : Z
}.

(** [uint32_t fl2k_get_device_count(void)].  After a failed
    [libusb_get_device_list] the loop is skipped and
    [libusb_free_device_list] is handed a pointer that was never set. *)
Definition fl2k_get_device_count (h : usb_host) : option Z :=
  if decide (libusb_init_ret h < 0) then Some 0
  else
    list ← device_list h;
    Some (foldl (λ device_count dd,
                   match find_known_device (idVendor dd) (idProduct dd) with
                   | Some _ => u32 (device_count + 1)
                   | None => device_count
                   end) 0 list).

(** The loop of [fl2k_get_device_name]; the result is [device] when the
    loop is left. *)
Fixpoint device_name_loop (index : Z) (list : list libusb_device_descriptor)
    (device : option fl2k_dongle) (device_count : Z) : option fl2k_dongle :=
  match list with
  | [] => device
  | dd :: list =>
      let device := find_known_device (idVendor dd) (idProduct dd) in
      match device with
      | Some _ =>
          let device_count := u32 (device_count + 1) in
          if decide (index = u32 (device_count - 1)) then device
          else device_name_loop index list device device_count
      | None => device_name_loop index list device device_count
      end
  end.

(** [const char *fl2k_get_device_name(uint32_t index)] *)
Definition fl2k_get_device_name (h : usb_host) (index : Z) : option String.string :=
  if decide (libusb_init_ret h < 0) then Some empty_name
  else
    list ← device_list h;
    Some (match device_name_loop index list None 0 with
          | Some device => name device
          | None => empty_name
          end).

(** The loop of [fl2k_open] that picks the device: the result is the
    position in the list of the device [device] points to when the loop
    is left, [None] for NULL. *)
Fixpoint open_loop (index : Z) (list : list libusb_device_descriptor) (i : nat)
    (device_count : Z) : option nat :=
  match list with
  | [] => None
  | dd :: list =>
      let device_count :=
        match find_known_device (idVendor dd) (idProduct dd) with
        | Some _ => u32 (device_count + 1)
        | None => device_count
        end in
      if decide (index = u32 (device_count - 1)) then Some i
      else open_loop index list (S i) device_count
  end.

Definition ENOMEM : Z := 12.
Definition LIBUSB_ERROR_ACCESS : Z := -3.

(** Messages of [fl2k_open]. *)
Inductive open_diag :=
  | UsbOpenError (r : Z)
  | FixPermissions
  | DetachingDriver
  | DetachFailed (r : Z)
  | ClaimInterfaceError (r : Z)
  | AltSettingFailed
  | ClaimInterface1Error (r : Z).

(** The handle after [memset(dev, 0, sizeof(fl2k_dev_t))]. *)
Definition zeroed_dev : fl2k_dev :=
  Dev 0 0 0 [] false FL2K_INACTIVE 0 0 0 0%Q 0 0.

(** [int fl2k_open(fl2k_dev_t **out_dev, uint32_t index)].  [out_dev] is
    the content of [*out_dev] on entry; the result is the return value,
    the content of [*out_dev] on exit, and what was printed, most recent
    first. *)
Definition fl2k_open (h : usb_host) (out_dev : option fl2k_dev) (index : Z)
    : M (Z * option fl2k_dev * list open_diag) :=
  if negb (dev_malloc_ok h) then mret (- ENOMEM, out_dev, [])
  else if decide (libusb_init_ret h < 0) then mret (-1, out_dev, [])
  else
    let dev := set_dev_lost 1 zeroed_dev in
    match open_loop index (default [] (device_list h)) 0 0 with
    | None => mret (-1, out_dev, [])
    | Some device =>
        let r := libusb_open_ret h device in
        if decide (r < 0) then
          mret (r, out_dev,
                (if decide (r = LIBUSB_ERROR_ACCESS) then [FixPermissions] else [])
                ++ [UsbOpenError r])
        else
          (* If the adapter has an SPI flash for the Windows driver, we
             need to detach the USB mass storage driver first *)
          let detach := bool_decide (libusb_kernel_driver_active_ret h = 1) in
          let log := if detach then [DetachingDriver] else [] in
          if detach && bool_decide (libusb_detach_kernel_driver_ret h < 0) then
            mret (libusb_detach_kernel_driver_ret h, out_dev,
                  DetachFailed (libusb_detach_kernel_driver_ret h) :: log)
          else
            let r := libusb_claim_interface_ret h 0 in
            if decide (r < 0) then mret (r, out_dev, ClaimInterfaceError r :: log)
            else
              let log :=
                if decide (libusb_set_interface_alt_setting_ret h < 0) then
                  (if decide (libusb_claim_interface_ret h 1 < 0)
                   then [ClaimInterface1Error (libusb_claim_interface_ret h 1)] else [])
                  ++ AltSettingFailed :: log
                else log in
              r ← fl2k_init_device (Some dev);
              if decide (r < 0) then mret (r, out_dev, log)
              else mret (0, Some (set_dev_lost 0 dev), log)
    end.

(** * Properties of the format conversions *)

Module Convert.

(** The stores of a conversion, as data: offset and value, in program
    order. *)
Definition apply_writes (ws : list (nat * Z)) (o : buffer) : buffer :=
  foldl (λ o w, Buffer (<[w.1 := w.2]> (bytes o)) (w.1 :: stores o)) o ws.

Definition resolve (in_ : list Z) (offset : Z) (w : Z * Z) : nat * Z :=
  (Z.to_nat w.1, u8 (in_ !!! Z.to_nat w.2 + offset)).

Lemma apply_writes_cons w ws o :
  apply_writes (w :: ws) o
  = apply_writes ws (Buffer (<[w.1 := w.2]> (bytes o)) (w.1 :: stores o)).
Proof. reflexivity. Qed.

Lemma apply_writes_length ws o :
  length (bytes (apply_writes ws o)) = length (bytes o).
Proof.
  revert o. induction ws as [|w ws IH]; intros o; [done|].
  rewrite apply_writes_cons, IH. cbn. by rewrite length_insert.
Qed.

Lemma apply_writes_app ws1 ws2 o :
  apply_writes (ws1 ++ ws2) o = apply_writes ws2 (apply_writes ws1 o).
Proof. unfold apply_writes. by rewrite foldl_app. Qed.

Lemma apply_writes_stores ws o :
  stores (apply_writes ws o) = reverse (ws.*1) ++ stores o.
Proof.
  revert o. induction ws as [|w ws IH]; intros o; [done|].
  rewrite apply_writes_cons, IH, fmap_cons, reverse_cons, <- app_assoc. done.
Qed.

Lemma apply_writes_other ws o i :
  i ∉ ws.*1 → bytes (apply_writes ws o) !! i = bytes o !! i.
Proof.
  revert o. induction ws as [|w ws IH]; intros o Hi; [done|].
  rewrite fmap_cons, not_elem_of_cons in Hi. destruct Hi as [Hne Hi].
  rewrite apply_writes_cons, IH by done. cbn. by rewrite list_lookup_insert_ne.
Qed.

Lemma apply_writes_lookup ws o i v :
  NoDup (ws.*1) → (i, v) ∈ ws → (i < length (bytes o))%nat →
  bytes (apply_writes ws o) !! i = Some v.
Proof.
  revert o. induction ws as [|w ws IH]; intros o Hnd Hin Hlen.
  { by apply elem_of_nil in Hin. }
  rewrite fmap_cons in Hnd. apply NoDup_cons in Hnd as [Hw Hnd].
  rewrite apply_writes_cons.
  apply elem_of_cons in Hin as [<-|Hin].
  - rewrite apply_writes_other by done. cbn.
    by apply list_lookup_insert_eq.
  - apply IH; [done..|]. cbn. by rewrite length_insert.
Qed.

Lemma put_ok in_ offset dst src out :
  0 ≤ dst < Z.of_nat (length (bytes out)) →
  0 ≤ src < Z.of_nat (length in_) →
  put in_ offset dst src out = Some (apply_writes [resolve in_ offset (dst, src)] out).
Proof.
  intros Hd Hs. unfold put, load, store.
  rewrite decide_True by lia.
  assert (Z.to_nat src < length in_)%nat as Hlt by lia.
  destruct (lookup_lt_is_Some_2 in_ _ Hlt) as [v Hv].
  rewrite Hv. cbn. rewrite decide_True by lia.
  unfold resolve. cbn. by rewrite (list_lookup_total_correct _ _ _ Hv).
Qed.

(** The loop, for a body that performs the writes [W k] in pass [k]. *)
Lemma convert_loop_ok body stride adv (W : nat → list (nat * Z)) len (n : nat) L :
  0 < stride → 0 ≤ adv ≤ stride →
  stride * Z.of_nat n < 2 ^ 32 →
  stride * (Z.of_nat n - 1) < len ≤ stride * Z.of_nat n →
  (∀ (k : nat) out, (k < n)%nat → length (bytes out) = L →
     body (stride * Z.of_nat k) (adv * Z.of_nat k) out = Some (apply_writes (W k) out)) →
  ∀ (m k : nat) fuel out, (k + m = n)%nat → (m < fuel)%nat → length (bytes out) = L →
    convert_loop body stride adv fuel len (stride * Z.of_nat k) (adv * Z.of_nat k) out
    = Some (apply_writes (seq k m ≫= W) out).
Proof.
  intros Hs Ha Hwrap Hlen Hbody m.
  induction m as [|m IH]; intros k fuel out Hk Hfuel HL.
  - destruct fuel as [|fuel]; [lia|]. cbn.
    rewrite decide_False by nia. done.
  - destruct fuel as [|fuel]; [lia|]. cbn [convert_loop].
    rewrite decide_True by nia.
    rewrite Hbody by (done || lia). cbn [mbind option_bind].
    replace (u32 (stride * Z.of_nat k + stride)) with (stride * Z.of_nat (S k)).
    2:{ unfold u32. rewrite Z.mod_small by nia. lia. }
    replace (u32 (adv * Z.of_nat k + adv)) with (adv * Z.of_nat (S k)).
    2:{ unfold u32. rewrite Z.mod_small by nia. lia. }
    rewrite IH; [|lia|lia|by rewrite apply_writes_length].
    cbn [seq]. rewrite bind_cons, apply_writes_app. done.
Qed.

(** The output offsets of each channel within a 24-byte group, in input
    order, as the specification lists them. *)
Definition r_offsets : list nat := [6; 1; 12; 15; 10; 21; 16; 19]%nat.
Definition g_offsets : list nat := [5; 0; 3; 14; 9; 20; 23; 18]%nat.
Definition b_offsets : list nat := [4; 7; 2; 13; 8; 11; 22; 17]%nat.

(** The writes of pass [k] of a channel whose offsets are [offs]. *)
Definition group_writes (offs : list nat) (in_ : list Z) (offset : Z) (k : nat)
    : list (nat * Z) :=
  imap (λ c d, (24 * k + d, u8 (in_ !!! (8 * k + c) + offset))%nat) offs.

Definition groups (len : Z) : nat := Z.to_nat ((len + 23) / 24).

Lemma to_nat_affine (a d : Z) (k : nat) :
  0 ≤ a → 0 ≤ d →
  Z.to_nat (a * Z.of_nat k + d) = (Z.to_nat a * k + Z.to_nat d)%nat.
Proof. intros. rewrite Z2Nat.inj_add, Z2Nat.inj_mul, !Nat2Z.id by lia. done. Qed.

Lemma to_nat_linear (a : Z) (k : nat) :
  0 ≤ a → Z.to_nat (a * Z.of_nat k) = (Z.to_nat a * k)%nat.
Proof. intros. rewrite Z2Nat.inj_mul, !Nat2Z.id by lia. done. Qed.

Ltac prove_group body :=
  intros Hw Hout Hin; unfold body, u32;
  rewrite !Z.mod_small by lia;
  repeat (rewrite put_ok by (rewrite ?apply_writes_length; lia);
          cbn [mbind option_bind]);
  f_equal; unfold resolve; cbn [fst snd];
  rewrite ?to_nat_affine, ?to_nat_linear by lia;
  cbv [group_writes imap r_offsets g_offsets b_offsets compose];
  rewrite ?Nat.add_0_r; reflexivity.

Lemma convert_r_group in_ offset (k : nat) out :
  24 * Z.of_nat k + 24 ≤ 2 ^ 32 →
  (24 * k + 24 ≤ length (bytes out))%nat →
  (8 * k + 8 ≤ length in_)%nat →
  convert_r_body in_ offset (24 * Z.of_nat k) (8 * Z.of_nat k) out
  = Some (apply_writes (group_writes r_offsets in_ offset k) out).
Proof. prove_group convert_r_body. Qed.

Lemma convert_g_group in_ offset (k : nat) out :
  24 * Z.of_nat k + 24 ≤ 2 ^ 32 →
  (24 * k + 24 ≤ length (bytes out))%nat →
  (8 * k + 8 ≤ length in_)%nat →
  convert_g_body in_ offset (24 * Z.of_nat k) (8 * Z.of_nat k) out
  = Some (apply_writes (group_writes g_offsets in_ offset k) out).
Proof. prove_group convert_g_body. Qed.

Lemma convert_b_group in_ offset (k : nat) out :
  24 * Z.of_nat k + 24 ≤ 2 ^ 32 →
  (24 * k + 24 ≤ length (bytes out))%nat →
  (8 * k + 8 ≤ length in_)%nat →
  convert_b_body in_ offset (24 * Z.of_nat k) (8 * Z.of_nat k) out
  = Some (apply_writes (group_writes b_offsets in_ offset k) out).
Proof. prove_group convert_b_body. Qed.

(** All writes of a channel conversion over [n] groups. *)
Definition chan_writes (offs : list nat) (in_ : list Z) (offset : Z) (n : nat)
    : list (nat * Z) :=
  seq 0 n ≫= group_writes offs in_ offset.

Definition chan_index (offs : list nat) (n : nat) : list nat :=
  seq 0 n ≫= λ k, (λ d, 24 * k + d)%nat <$> offs.

Lemma groups_bounds len :
  0 ≤ len → 24 * (Z.of_nat (groups len) - 1) < len ≤ 24 * Z.of_nat (groups len).
Proof.
  intros Hlen. unfold groups.
  rewrite Z2Nat.id by (apply Z.div_pos; lia).
  pose proof (Z.div_mod (len + 23) 24 ltac:(lia)) as Hdm.
  pose proof (Z.mod_pos_bound (len + 23) 24 ltac:(lia)) as Hm.
  lia.
Qed.

Lemma convert_chan_ok body offs in_ offset len out :
  (∀ (k : nat) o,
     24 * Z.of_nat k + 24 ≤ 2 ^ 32 →
     (24 * k + 24 ≤ length (bytes o))%nat →
     (8 * k + 8 ≤ length in_)%nat →
     body (24 * Z.of_nat k) (8 * Z.of_nat k) o
     = Some (apply_writes (group_writes offs in_ offset k) o)) →
  0 ≤ len ≤ 2 ^ 32 - 24 →
  (24 * groups len ≤ length (bytes out))%nat →
  (8 * groups len ≤ length in_)%nat →
  convert_loop body 24 8 (loop_fuel len 24) len 0 0 out
  = Some (apply_writes (chan_writes offs in_ offset (groups len)) out).
Proof.
  intros Hbody Hlen Hout Hin.
  pose proof (groups_bounds len ltac:(lia)) as Hg.
  refine (convert_loop_ok body 24 8 _ len (groups len) (length (bytes out))
            _ _ _ _ _ (groups len) 0%nat (loop_fuel len 24) out _ _ _);
    try lia; try done.
  - intros k o Hk Ho. apply Hbody; lia.
  - unfold loop_fuel.
    assert (Z.of_nat (groups len) ≤ len / 24 + 1); [|lia].
    unfold groups. rewrite Z2Nat.id by (apply Z.div_pos; lia).
    replace (len + 23) with (len + 24 + -1 * 1) by lia.
    pose proof (Z.div_le_mono (len + 24 + -1 * 1) (len + 1 * 24) 24 ltac:(lia) ltac:(lia)) as H.
    rewrite Z.div_add in H by lia. lia.
Qed.

Lemma chan_writes_index offs in_ offset n :
  (chan_writes offs in_ offset n).*1 = chan_index offs n.
Proof.
  unfold chan_writes, chan_index.
  induction (seq 0 n) as [|k ks IH]; [done|].
  rewrite !bind_cons, fmap_app, IH. f_equal.
  unfold group_writes. rewrite fmap_imap.
  rewrite <- imap_const. apply imap_ext. done.
Qed.

Lemma chan_writes_elem offs in_ offset n k c d :
  (k < n)%nat → offs !! c = Some d →
  ((24 * k + d)%nat, u8 (in_ !!! (8 * k + c)%nat + offset))
    ∈ chan_writes offs in_ offset n.
Proof.
  intros Hk Hc. unfold chan_writes. apply list_elem_of_bind.
  exists k. split; [|apply elem_of_seq; lia].
  unfold group_writes. apply list_elem_of_lookup. exists c.
  rewrite list_lookup_imap, Hc. done.
Qed.

Lemma chan_index_S offs n :
  chan_index offs (S n) = chan_index offs n ++ ((λ d, 24 * n + d)%nat <$> offs).
Proof.
  unfold chan_index. rewrite seq_S, bind_app. cbn. by rewrite app_nil_r.
Qed.

Lemma offsets_partition : r_offsets ++ g_offsets ++ b_offsets ≡ₚ seq 0 24.
Proof. apply (bool_decide_unpack _). vm_compute. exact I. Qed.

Lemma chan_index_partition n :
  chan_index r_offsets n ++ chan_index g_offsets n ++ chan_index b_offsets n
  ≡ₚ seq 0 (24 * n).
Proof.
  induction n as [|n IH]; [done|].
  rewrite !chan_index_S.
  replace (24 * S n)%nat with (24 * n + 24)%nat by lia.
  rewrite seq_app, <- IH.
  replace (seq (0 + 24 * n) 24) with (Nat.add (24 * n) <$> seq 0 24)
    by (rewrite fmap_add_seq; f_equal; lia).
  rewrite <- offsets_partition, !fmap_app.
  set (f := (λ d : nat, (24 * n + d)%nat)).
  change (Nat.add (24 * n)) with f.
  solve_Permutation.
Qed.

Lemma fl2k_convert_r_ok in_ offset len out :
  0 ≤ len ≤ 2 ^ 32 - 24 →
  (24 * groups len ≤ length (bytes out))%nat →
  (8 * groups len ≤ length in_)%nat →
  fl2k_convert_r (Some out) (Some in_) len offset
  = Some (Some (apply_writes (chan_writes r_offsets in_ offset (groups len)) out)).
Proof.
  intros. unfold fl2k_convert_r.
  rewrite (convert_chan_ok _ r_offsets in_ offset) by (done || apply convert_r_group).
  done.
Qed.

Lemma fl2k_convert_g_ok in_ offset len out :
  0 ≤ len ≤ 2 ^ 32 - 24 →
  (24 * groups len ≤ length (bytes out))%nat →
  (8 * groups len ≤ length in_)%nat →
  fl2k_convert_g (Some out) (Some in_) len offset
  = Some (Some (apply_writes (chan_writes g_offsets in_ offset (groups len)) out)).
Proof.
  intros. unfold fl2k_convert_g.
  rewrite (convert_chan_ok _ g_offsets in_ offset) by (done || apply convert_g_group).
  done.
Qed.

Lemma fl2k_convert_b_ok in_ offset len out :
  0 ≤ len ≤ 2 ^ 32 - 24 →
  (24 * groups len ≤ length (bytes out))%nat →
  (8 * groups len ≤ length in_)%nat →
  fl2k_convert_b (Some out) (Some in_) len offset
  = Some (Some (apply_writes (chan_writes b_offsets in_ offset (groups len)) out)).
Proof.
  intros. unfold fl2k_convert_b.
  rewrite (convert_chan_ok _ b_offsets in_ offset) by (done || apply convert_b_group).
  done.
Qed.

(** The three conversions in the order [fl2k_sample_worker] calls them. *)
Definition convert_multichan (out : buffer) (r_buf g_buf b_buf : list Z)
    (len offset : Z) : option (option buffer) :=
  o ← fl2k_convert_r (Some out) (Some r_buf) len offset;
  o ← fl2k_convert_g o (Some g_buf) len offset;
  fl2k_convert_b o (Some b_buf) len offset.

(** C3. Multi-channel conversion: in every 24-byte output group [k] the
    R channel's 8 consecutive input samples land at output offsets
    6,1,12,15,10,21,16,19, G's at 5,0,3,14,9,20,23,18 and B's at
    4,7,2,13,8,11,22,17, in input order (each with the bias added modulo
    256); the three offset lists partition 0..23; and the three conversions
    together store to every byte of the output groups exactly once. *)
Theorem multichan_layout (out : buffer) (r_buf g_buf b_buf : list Z) (len offset : Z) :
  0 ≤ len ≤ 2 ^ 32 - 24 →
  (24 * groups len ≤ length (bytes out))%nat →
  (8 * groups len ≤ length r_buf)%nat →
  (8 * groups len ≤ length g_buf)%nat →
  (8 * groups len ≤ length b_buf)%nat →
  stores out = [] →
  ∃ out',
    convert_multichan out r_buf g_buf b_buf len offset = Some (Some out')
    ∧ length (bytes out') = length (bytes out)
    ∧ (∀ (k c d : nat) v, (k < groups len)%nat →
         (r_offsets !! c = Some d ∧ r_buf !! (8 * k + c)%nat = Some v) ∨
         (g_offsets !! c = Some d ∧ g_buf !! (8 * k + c)%nat = Some v) ∨
         (b_offsets !! c = Some d ∧ b_buf !! (8 * k + c)%nat = Some v) →
         bytes out' !! (24 * k + d)%nat = Some (u8 (v + offset)))
    ∧ r_offsets ++ g_offsets ++ b_offsets ≡ₚ seq 0 24
    ∧ stores out' ≡ₚ seq 0 (24 * groups len).
Proof.
  intros Hlen Hout Hr Hg Hb Hst.
  set (n := groups len) in *.
  set (W := chan_writes r_offsets r_buf offset n
            ++ chan_writes g_offsets g_buf offset n
            ++ chan_writes b_offsets b_buf offset n).
  assert (W.*1 ≡ₚ seq 0 (24 * n)) as Hperm.
  { unfold W. rewrite !fmap_app, !chan_writes_index. apply chan_index_partition. }
  assert (NoDup (W.*1)) as Hnd by (rewrite Hperm; apply NoDup_seq).
  exists (apply_writes W out). split; [|split; [|split; [|split]]].
  - unfold convert_multichan.
    rewrite fl2k_convert_r_ok by done. cbn [mbind option_bind].
    rewrite fl2k_convert_g_ok by (rewrite ?apply_writes_length; done).
    cbn [mbind option_bind].
    rewrite fl2k_convert_b_ok by (rewrite ?apply_writes_length; done).
    unfold W. by rewrite !apply_writes_app.
  - apply apply_writes_length.
  - intros k c d v Hk Hcase.
    assert ((24 * k + d)%nat < 24 * n)%nat as Hrange.
    { assert (d < 24)%nat; [|lia].
      destruct Hcase as [[Hd _]|[[Hd _]|[Hd _]]];
        apply list_elem_of_lookup_2 in Hd;
        (assert (d ∈ seq 0 24) as Hs
           by (rewrite <- offsets_partition, !elem_of_app; auto));
        apply elem_of_seq in Hs; lia. }
    apply apply_writes_lookup; [done| |lia].
    unfold W. rewrite !elem_of_app.
    destruct Hcase as [[Hd Hv]|[[Hd Hv]|[Hd Hv]]];
      rewrite <- (list_lookup_total_correct _ _ _ Hv);
      [left|right; left|right; right]; by apply chan_writes_elem.
  - apply offsets_partition.
  - rewrite apply_writes_stores, Hst, app_nil_r, reverse_Permutation. done.
Qed.

(** The layout theorem at the specification's scenario 6: one group,
    R = 0..7, G = 8..15, B = 16..23, unsigned. *)
Lemma multichan_layout_witness :
  ∃ out',
    convert_multichan (fresh (replicate 24 0))
      [0;1;2;3;4;5;6;7] [8;9;10;11;12;13;14;15] [16;17;18;19;20;21;22;23] 24 0
    = Some (Some out')
    ∧ length (bytes out') = 24%nat
    ∧ (∀ (k c d : nat) v, (k < groups 24)%nat →
         (r_offsets !! c = Some d ∧ [0;1;2;3;4;5;6;7] !! (8 * k + c)%nat = Some v) ∨
         (g_offsets !! c = Some d ∧ [8;9;10;11;12;13;14;15] !! (8 * k + c)%nat = Some v) ∨
         (b_offsets !! c = Some d ∧ [16;17;18;19;20;21;22;23] !! (8 * k + c)%nat = Some v) →
         bytes out' !! (24 * k + d)%nat = Some (u8 (v + 0)))
    ∧ r_offsets ++ g_offsets ++ b_offsets ≡ₚ seq 0 24
    ∧ stores out' ≡ₚ seq 0 (24 * groups 24).
Proof.
  apply (multichan_layout (fresh (replicate 24 0))
           [0;1;2;3;4;5;6;7] [8;9;10;11;12;13;14;15] [16;17;18;19;20;21;22;23] 24 0).
  - vm_compute. split; discriminate.
  - vm_compute. lia.
  - vm_compute. lia.
  - vm_compute. lia.
  - vm_compute. lia.
  - reflexivity.
Defined.

Example multichan_scenario_6 :
  convert_multichan (fresh (replicate 24 0))
    [0;1;2;3;4;5;6;7] [8;9;10;11;12;13;14;15] [16;17;18;19;20;21;22;23] 24 0
  = Some (Some (Buffer
      [9; 1; 18; 10; 16; 8; 0; 17; 20; 12; 4; 21; 2; 19; 11; 3; 6; 23; 15; 7; 13; 5; 22; 14]
      [17; 22; 11; 8; 13; 2; 7; 4; 18; 23; 20; 9; 14; 3; 0; 5; 19; 16; 21; 10; 15; 12; 1; 6]%nat)).
Proof. vm_compute. reflexivity. Qed.

(** ** Single-channel conversion *)

(** Within a group, output position [c] takes input position
    [swap_src !! c]: the two 32-bit words change places. *)
Definition swap_src : list nat := [4; 5; 6; 7; 0; 1; 2; 3]%nat.

Definition swap_writes (in_ : list Z) (offset : Z) (k : nat) : list (nat * Z) :=
  imap (λ c s, (8 * k + c, u8 (in_ !!! (8 * k + s) + offset))%nat) swap_src.

Definition singlechan_writes (in_ : list Z) (offset : Z) (n : nat) : list (nat * Z) :=
  seq 0 n ≫= swap_writes in_ offset.

Lemma convert_singlechan_group in_ offset (k : nat) out j :
  8 * Z.of_nat k + 8 ≤ 2 ^ 32 →
  (8 * k + 8 ≤ length (bytes out))%nat →
  (8 * k + 8 ≤ length in_)%nat →
  convert_singlechan_body in_ offset (8 * Z.of_nat k) j out
  = Some (apply_writes (swap_writes in_ offset k) out).
Proof.
  intros Hw Hout Hin; unfold convert_singlechan_body, u32.
  rewrite !Z.mod_small by lia.
  repeat (rewrite put_ok by (rewrite ?apply_writes_length; lia);
          cbn [mbind option_bind]).
  f_equal. unfold resolve. cbn [fst snd].
  rewrite ?to_nat_affine, ?to_nat_linear by lia.
  cbv [swap_writes imap swap_src compose].
  rewrite ?Nat.add_0_r. reflexivity.
Qed.

Lemma singlechan_writes_index in_ offset n :
  (singlechan_writes in_ offset n).*1 = seq 0 (8 * n).
Proof.
  unfold singlechan_writes. induction n as [|n IH]; [done|].
  rewrite seq_S, bind_app, fmap_app, IH. cbn [mbind list_bind].
  replace (8 * S n)%nat with (8 * n + 8)%nat by lia.
  rewrite seq_app, app_nil_r. f_equal.
  cbv [swap_writes imap swap_src compose fmap list_fmap fst].
  rewrite !Nat.add_0_l. cbn [seq].
  repeat (f_equal; try lia).
Qed.

Lemma fl2k_convert_singlechan_ok in_ offset len out (n : nat) :
  len = 8 * Z.of_nat n → len ≤ 2 ^ 32 - 8 →
  (8 * n ≤ length (bytes out))%nat →
  (8 * n ≤ length in_)%nat →
  fl2k_convert_singlechan (Some out) (Some in_) len offset
  = Some (Some (apply_writes (singlechan_writes in_ offset n) out)).
Proof.
  intros -> Hlen Hout Hin. unfold fl2k_convert_singlechan.
  assert (n < loop_fuel (8 * Z.of_nat n) 8)%nat as Hfuel.
  { unfold loop_fuel. rewrite Z.mul_comm, Z.div_mul by lia. lia. }
  pose proof (convert_loop_ok (convert_singlechan_body in_ offset) 8 0
             (swap_writes in_ offset) (8 * Z.of_nat n) n
             (length (bytes out)) ltac:(lia) ltac:(lia) ltac:(lia) ltac:(lia)
             (λ k o Hk Ho, convert_singlechan_group in_ offset k o _
                             ltac:(lia) ltac:(lia) ltac:(lia))
             n 0%nat (loop_fuel (8 * Z.of_nat n) 8) out
             ltac:(lia) Hfuel eq_refl) as Hloop.
  change (8 * Z.of_nat 0) with 0 in Hloop.
  change (0 * Z.of_nat 0) with 0 in Hloop.
  rewrite Hloop. done.
Qed.

Lemma singlechan_lookup in_ offset n out (k c s : nat) v :
  (8 * n ≤ length (bytes out))%nat →
  (k < n)%nat → swap_src !! c = Some s → in_ !! (8 * k + s)%nat = Some v →
  bytes (apply_writes (singlechan_writes in_ offset n) out) !! (8 * k + c)%nat
  = Some (u8 (v + offset)).
Proof.
  intros Hout Hk Hc Hv.
  assert (c < 8)%nat by (apply lookup_lt_Some in Hc; exact Hc).
  apply apply_writes_lookup.
  - rewrite singlechan_writes_index. apply NoDup_seq.
  - unfold singlechan_writes. apply list_elem_of_bind. exists k.
    split; [|apply elem_of_seq; lia].
    apply list_elem_of_lookup. exists c. unfold swap_writes.
    rewrite list_lookup_imap, Hc. cbn.
    by rewrite (list_lookup_total_correct _ _ _ Hv).
  - lia.
Qed.

Lemma swap_src_involutive c s :
  swap_src !! c = Some s → swap_src !! s = Some c.
Proof.
  intros Hc. assert (c < 8)%nat by (apply lookup_lt_Some in Hc; exact Hc).
  do 8 (destruct c as [|c]; [injection Hc as <-; reflexivity|]). lia.
Qed.

(** C7. Single-channel conversion of a buffer whose length is a multiple
    of 8 yields an output of the same length in which every 8-byte group
    [b0..b7] reads [b4,b5,b6,b7,b0,b1,b2,b3], each byte with the bias
    added modulo 256; with zero bias, converting the result again gives
    back the original buffer. *)
Theorem singlechan_swap_involution (out : buffer) (in_ : list Z) (len offset : Z) (n : nat) :
  len = 8 * Z.of_nat n → len ≤ 2 ^ 32 - 8 →
  length in_ = (8 * n)%nat → length (bytes out) = (8 * n)%nat →
  Forall (λ b, 0 ≤ b < 256) in_ →
  ∃ out',
    fl2k_convert_singlechan (Some out) (Some in_) len offset = Some (Some out')
    ∧ length (bytes out') = length in_
    ∧ (∀ (k c s : nat) v, (k < n)%nat →
         swap_src !! c = Some s → in_ !! (8 * k + s)%nat = Some v →
         bytes out' !! (8 * k + c)%nat = Some (u8 (v + offset)))
    ∧ (offset = 0 → ∀ out2, length (bytes out2) = (8 * n)%nat →
         ∃ out'',
           fl2k_convert_singlechan (Some out2) (Some (bytes out')) len 0 = Some (Some out'')
           ∧ bytes out'' = in_).
Proof.
  intros Hlen Hmax Hin Hout Hbytes.
  exists (apply_writes (singlechan_writes in_ offset n) out).
  split; [|split; [|split]].
  - apply fl2k_convert_singlechan_ok; (done || lia).
  - rewrite apply_writes_length. lia.
  - intros k c s v Hk Hc Hv. apply (singlechan_lookup _ _ _ _ k c s v); (done || lia).
  - intros -> out2 Hout2.
    set (mid := apply_writes (singlechan_writes in_ 0 n) out).
    exists (apply_writes (singlechan_writes (bytes mid) 0 n) out2).
    assert (length (bytes mid) = (8 * n)%nat) as Hmid
      by (unfold mid; rewrite apply_writes_length; lia).
    split; [apply fl2k_convert_singlechan_ok; (done || lia)|].
    apply list_eq_same_length with (8 * n)%nat;
      [done|by rewrite apply_writes_length|].
    intros i x y Hi Hx Hy.
    pose proof (Nat.div_mod_eq i 8) as Hdm.
    pose proof (Nat.mod_upper_bound i 8 ltac:(lia)) as Hmod.
    set (k := (i / 8)%nat) in *. set (c := (i mod 8)%nat) in *.
    assert (k < n)%nat as Hk by lia.
    destruct (lookup_lt_is_Some_2 swap_src c ltac:(cbn; lia)) as [s Hs].
    pose proof (swap_src_involutive _ _ Hs) as Hs'.
    assert (s < 8)%nat by (apply lookup_lt_Some in Hs'; exact Hs').
    assert (bytes mid !! (8 * k + s)%nat = Some (u8 (y + 0))) as Hm.
    { apply (singlechan_lookup in_ 0 n out k s c y); try (done || lia).
      rewrite <- Hy. f_equal. lia. }
    assert (Some x = Some (u8 (u8 (y + 0) + 0))) as Hxy.
    { rewrite <- Hx. replace i with (8 * k + c)%nat by lia.
      apply (singlechan_lookup (bytes mid) 0 n out2 k c s (u8 (y + 0)));
        (done || lia). }
    injection Hxy as ->.
    assert (0 ≤ y < 256) by (eapply (proj1 (Forall_lookup _ _) Hbytes); exact Hy).
    unfold u8. rewrite !Z.add_0_r, Z.mod_mod, Z.mod_small by lia. done.
Qed.

Lemma singlechan_swap_involution_witness :
  ∃ out',
    fl2k_convert_singlechan (Some (fresh (replicate 8 0)))
      (Some [10; 11; 12; 13; 250; 251; 252; 253]) 8 0 = Some (Some out')
    ∧ length (bytes out') = length [10; 11; 12; 13; 250; 251; 252; 253]
    ∧ (∀ (k c s : nat) v, (k < 1)%nat →
         swap_src !! c = Some s →
         [10; 11; 12; 13; 250; 251; 252; 253] !! (8 * k + s)%nat = Some v →
         bytes out' !! (8 * k + c)%nat = Some (u8 (v + 0)))
    ∧ (0 = 0 → ∀ out2, length (bytes out2) = (8 * 1)%nat →
         ∃ out'',
           fl2k_convert_singlechan (Some out2) (Some (bytes out')) 8 0 = Some (Some out'')
           ∧ bytes out'' = [10; 11; 12; 13; 250; 251; 252; 253]).
Proof.
  apply (singlechan_swap_involution (fresh (replicate 8 0))
           [10; 11; 12; 13; 250; 251; 252; 253] 8 0 1).
  - reflexivity.
  - vm_compute. discriminate.
  - reflexivity.
  - reflexivity.
  - repeat (apply Forall_cons; split; [lia|]). by apply Forall_nil.
Defined.

Example singlechan_twice :
  (o ← fl2k_convert_singlechan (Some (fresh (replicate 8 0)))
         (Some [10; 11; 12; 13; 250; 251; 252; 253]) 8 0;
   fl2k_convert_singlechan (Some (fresh (replicate 8 0))) (bytes <$> o) 8 0)
  = Some (Some (Buffer [10; 11; 12; 13; 250; 251; 252; 253]
                       [7; 6; 5; 4; 3; 2; 1; 0]%nat)).
Proof. vm_compute. reflexivity. Qed.

End Convert.

(** * Concrete handles and environments used in examples *)

(** The handle as [fl2k_open] leaves it: zeroed by [memset], nothing
    lost. *)
Definition opened_dev : fl2k_dev :=
  Dev 0 0 0 [] false FL2K_INACTIVE 0 FL2K_MODE_MULTICHAN 0 0%Q 0 0.

(** An environment whose every control transfer has the outcome [rep],
    in which the kernel offers no zero-copy memory
    ([libusb_dev_mem_alloc] returns NULL), and in which submissions,
    allocations in userspace and thread creation succeed. *)
Definition steady_world (rep : ctrl_reply) : world :=
  World (λ _ _, rep) [] (λ _, 0) [] 0 true (λ _, None) 0 (λ _, 0) [] [].

(** * Properties of register I/O *)

Module RegIO.

(** A read whose transfer delivers [r] bytes, [0 ≤ r < 4], fails. *)
Lemma read_reg_short d reg v w :
  0 ≤ ctrl_ret (bus w (length (ctrl_log w)) (CtrlRequest CTRL_IN 0x40 0 reg [] 4 CTRL_TIMEOUT)) < 4 →
  ∃ w', fl2k_read_reg (Some d) reg (Some v) w = Some ((FL2K_ERROR_OTHER, Some v), w').
Proof.
  intros Hr. unfold fl2k_read_reg, libusb_control_transfer, mbind, M_bind.
  cbn. unfold u32. rewrite Z.mod_small by lia.
  rewrite decide_True by lia. cbn. eauto.
Qed.

(** A read whose transfer fails with a (negative) libusb error code
    reports success: the code, stored in a [uint32_t], is not below 4.
    The value handed back is assembled from the uninitialised buffer. *)
Lemma read_reg_error_not_detected d reg v w :
  let rep := bus w (length (ctrl_log w)) (CtrlRequest CTRL_IN 0x40 0 reg [] 4 CTRL_TIMEOUT) in
  - 2 ^ 31 ≤ ctrl_ret rep < 0 →
  ∃ v' w', fl2k_read_reg (Some d) reg (Some v) w = Some ((FL2K_SUCCESS, Some v'), w').
Proof.
  intros rep Hr. unfold fl2k_read_reg, libusb_control_transfer, mbind, M_bind.
  cbn. fold rep.
  assert (4 ≤ u32 (ctrl_ret rep)) as Hu.
  { unfold u32. replace (ctrl_ret rep) with (ctrl_ret rep + 2 ^ 32 + -1 * 2 ^ 32) by lia.
    rewrite Z.mod_add by lia. rewrite Z.mod_small by lia. lia. }
  rewrite decide_False by lia. cbn. eauto.
Qed.

(** C8 (the code departs from the claim).  A register read whose control
    transfer fails with LIBUSB_ERROR_TIMEOUT (-7), no byte having arrived,
    returns FL2K_SUCCESS, and hands back the word found in the
    uninitialised buffer (here 0xefbeadde). *)
Theorem read_reg_timeout_reports_success :
  fst <$> fl2k_read_reg (Some opened_dev) 0x8004 (Some 0)
            (steady_world (CtrlReply (-7) [0xde; 0xad; 0xbe; 0xef]))
  = Some (FL2K_SUCCESS, Some 0xefbeadde).
Proof. vm_compute. reflexivity. Qed.

(** The sibling [fl2k_write_reg] compares with [!=] and does detect the
    same failure. *)
Example write_reg_timeout_detected :
  fst <$> fl2k_write_reg (Some opened_dev) 0x8004 0
            (steady_world (CtrlReply (-7) [0; 0; 0; 0]))
  = Some FL2K_ERROR_OTHER.
Proof. vm_compute. reflexivity. Qed.

End RegIO.

(** * Properties of mode control *)

Module Mode.

(** C9. [fl2k_set_mode] on a handle whose status is RUNNING returns BUSY
    and leaves both the handle and the environment as they were (no
    control transfer is issued).  On a handle that is not RUNNING, asking
    for the mode it already has returns success, again with handle and
    environment untouched.  The operation is idempotent: after a call
    that succeeded, the same call succeeds again and changes nothing. *)
Theorem set_mode_guarded_idempotent (d : fl2k_dev) (m : Z) (w : world) :
  (async_status d = FL2K_RUNNING →
     fl2k_set_mode (Some d) m w = Some ((FL2K_ERROR_BUSY, Some d), w))
  ∧ (async_status d ≠ FL2K_RUNNING →
     fl2k_set_mode (Some d) (mode d) w = Some ((FL2K_SUCCESS, Some d), w))
  ∧ (∀ d' w',
     fl2k_set_mode (Some d) m w = Some ((FL2K_SUCCESS, d'), w') →
     fl2k_set_mode d' m w' = Some ((FL2K_SUCCESS, d'), w')).
Proof.
  split; [|split].
  - intros Hrun. unfold fl2k_set_mode. by rewrite decide_True.
  - intros Hrun. unfold fl2k_set_mode.
    rewrite decide_False by done. by rewrite decide_True.
  - intros d' w'. unfold fl2k_set_mode at 1.
    destruct (decide (async_status d = FL2K_RUNNING)) as [Hrun|Hrun];
      [intros [= ]|].
    destruct (decide (mode d = m)) as [Hm|Hm].
    { intros [= <- <-]. unfold fl2k_set_mode.
      rewrite decide_False by done. by rewrite decide_True. }
    unfold mbind at 1, M_bind at 1.
    destruct (fl2k_read_reg _ _ _ w) as [[[r reg] w1]|]; [|intros [= ]].
    destruct (decide (r < 0)); [intros [= ]|].
    unfold mbind at 1, M_bind at 1.
    match goal with |- context [match ?k w1 with _ => _ end] => destruct (k w1) as [[k' w2]|] end;
      [|intros [= ]].
    destruct k' as [reg'|]; [|intros [= ]].
    unfold mbind at 1, M_bind at 1.
    destruct (fl2k_write_reg _ _ _ w2) as [[r2 w3]|] eqn:Hw; [|intros [= ]].
    destruct (decide (r2 = 0)) as [->|Hr2].
    + intros [= <- <-]. unfold fl2k_set_mode. cbn.
      rewrite decide_False by done. by rewrite decide_True.
    + intros [= -> <- <-]. done.
Qed.

Lemma set_mode_guarded_idempotent_witness :
  fl2k_set_mode (Some (set_async_status FL2K_RUNNING opened_dev)) FL2K_MODE_SINGLECHAN
    (steady_world (CtrlReply 4 [0; 0; 0; 0]))
  = Some ((FL2K_ERROR_BUSY, Some (set_async_status FL2K_RUNNING opened_dev)),
          steady_world (CtrlReply 4 [0; 0; 0; 0]))
  ∧ fl2k_set_mode (Some opened_dev) FL2K_MODE_MULTICHAN
      (steady_world (CtrlReply 4 [0; 0; 0; 0]))
    = Some ((FL2K_SUCCESS, Some opened_dev), steady_world (CtrlReply 4 [0; 0; 0; 0])).
Proof.
  split.
  - apply (proj1 (set_mode_guarded_idempotent
                    (set_async_status FL2K_RUNNING opened_dev) FL2K_MODE_SINGLECHAN
                    (steady_world (CtrlReply 4 [0; 0; 0; 0])))).
    reflexivity.
  - apply (proj1 (proj2 (set_mode_guarded_idempotent opened_dev FL2K_MODE_MULTICHAN
                    (steady_world (CtrlReply 4 [0; 0; 0; 0]))))).
    discriminate.
Defined.

End Mode.

(** * Properties of the floating-point operations *)

Module Float.

Lemma rne_exact (a : Z) : rne a 1 = a.
Proof.
  unfold rne. rewrite Z.mod_1_r, Z.div_1_r. reflexivity.
Qed.

Lemma Qred_inject_Z (n : Z) : Qred (inject_Z n) = inject_Z n.
Proof. apply Qred_identity. cbn. apply Z.gcd_1_r. Qed.

Lemma dyadic_scaled (n e : Z) :
  e ≤ 0 → (dyadic (n * 2 ^ (- e)) e == inject_Z n)%Q.
Proof.
  intros He. unfold dyadic. destruct (decide (0 ≤ e)) as [H0|H0].
  - assert (e = 0) as -> by lia. cbn. rewrite !Z.mul_1_r. reflexivity.
  - unfold Qeq. cbn.
    assert (0 < 2 ^ (- e)) by (apply Z.pow_pos_nonneg; lia).
    rewrite Z2Pos.id by lia. lia.
Qed.

(** An integer of magnitude below [2 ^ prec] is a value of the format:
    rounding leaves it as it is. *)
Lemma fround_integer prec emin emax (x : Q) (n : Z) :
  0 < prec → emin ≤ 1 - prec → 0 < emax →
  (x == inject_Z n)%Q → Z.abs n < 2 ^ prec →
  ∃ q, fround prec emin emax x = Some q ∧ (q == inject_Z n)%Q.
Proof.
  intros Hprec Hemin Hemax Hx Hn. unfold fround.
  rewrite (Qred_complete _ _ Hx), Qred_inject_Z. cbn [Qnum Qden inject_Z].
  destruct (decide (n = 0)) as [->|Hn0]; [by exists 0%Q|].
  change (Z.log2 1) with 0. rewrite Z.sub_0_r.
  set (e0 := Z.log2 (Z.abs n) - (prec - 1)).
  assert (0 < Z.abs n) as Hpos by lia.
  pose proof (Z.log2_spec _ Hpos) as [Hlo Hhi].
  assert (Z.log2 (Z.abs n) < prec) as Hlog.
  { apply Z.log2_lt_pow2; lia. }
  pose proof (Z.log2_nonneg (Z.abs n)) as Hlog0.
  assert (e0 ≤ 0) as He0 by (unfold e0; lia).
  cbn [fst snd]. rewrite (Z.max_r 0 (- e0)), (Z.max_l 0 e0) by lia.
  rewrite Z.pow_0_r, !Z.mul_1_r.
  destruct (decide (Z.abs (n * 2 ^ (- e0)) < 2 ^ (prec - 1))) as [Hc|_].
  { exfalso. revert Hc.
    rewrite Z.abs_mul, (Z.abs_eq (2 ^ _)) by (apply Z.pow_nonneg; lia).
    assert (2 ^ (prec - 1) = 2 ^ Z.log2 (Z.abs n) * 2 ^ (- e0)) as ->.
    { rewrite <- Z.pow_add_r by lia. f_equal. unfold e0. lia. }
    assert (0 < 2 ^ (- e0)) by (apply Z.pow_pos_nonneg; lia).
    intros Hc. apply Z.mul_lt_mono_pos_r in Hc; lia. }
  rewrite (Z.max_r 0 (- e0)), (Z.max_l 0 e0) by lia.
  rewrite Z.pow_0_r, rne_exact.
  rewrite decide_True by (unfold e0; lia).
  eexists; split; [reflexivity|]. rewrite Qred_correct. by apply dyadic_scaled.
Qed.

(** Rounding depends on the number only, not on how it is written. *)
Lemma fround_proper prec emin emax (x y : Q) :
  (x == y)%Q → fround prec emin emax x = fround prec emin emax y.
Proof. intros Hxy. unfold fround. by rewrite (Qred_complete _ _ Hxy). Qed.

Lemma fround_integer_eq prec emin emax (x : Q) (n : Z) :
  0 < prec → emin ≤ 1 - prec → 0 < emax →
  (x == inject_Z n)%Q → Z.abs n < 2 ^ prec →
  fround prec emin emax x = Some (inject_Z n).
Proof.
  intros Hprec Hemin Hemax Hx Hn.
  destruct (fround_integer prec emin emax x n) as (q & Hq & Hqn); try done.
  rewrite Hq. f_equal.
  assert (q = Qred q) as ->.
  { revert Hq. unfold fround.
    destruct (decide _); [intros [= <-]; reflexivity|].
    destruct (decide (emin ≤ _ < emax)); [|done].
    intros [= <-]. by rewrite Qred_involutive. }
  rewrite (Qred_complete _ _ Hqn). apply Qred_inject_Z.
Qed.

(** A number within the normal range of the format has a rounding. *)
Lemma fround_some prec emin emax (x : Q) (k b : Z) :
  0 < prec → 0 ≤ k → 0 ≤ b →
  (1 <= inject_Z (2 ^ k) * x)%Q → (x < inject_Z (2 ^ b))%Q →
  emin ≤ - k - prec → b - prec + 1 < emax →
  is_Some (fround prec emin emax x).
Proof.
  intros Hprec Hk Hb Hlo Hhi Hemin Hemax.
  rewrite <- (Qred_correct x) in Hlo, Hhi.
  unfold fround. destruct (Qred x) as [n d]. cbn [Qnum Qden].
  unfold Qle, Qlt in Hlo, Hhi. cbn in Hlo, Hhi.
  assert (0 < 2 ^ k) by (apply Z.pow_pos_nonneg; lia).
  assert (0 < 2 ^ b) by (apply Z.pow_pos_nonneg; lia).
  assert (0 < n) as Hn by nia.
  destruct (decide (n = 0)); [lia|].
  rewrite (Z.abs_eq n) by lia.
  assert (Z.log2 (Z.pos d) ≤ k + Z.log2 n) as H1.
  { rewrite <- Z.log2_mul_pow2 by lia. apply Z.log2_le_mono. lia. }
  assert (Z.log2 n ≤ b + Z.log2 (Z.pos d)) as H2.
  { rewrite <- Z.log2_mul_pow2 by lia. apply Z.log2_le_mono. lia. }
  destruct (decide (Z.abs _ < _)); rewrite decide_True by lia; by eexists.
Qed.

Lemma b64_integer (x : Q) (n : Z) :
  (x == inject_Z n)%Q → Z.abs n < 2 ^ 53 →
  ∃ q, b64 x = Some q ∧ (q == inject_Z n)%Q.
Proof. intros. by apply fround_integer. Qed.

(** ** The rounding function against the machine's binary64

    [b64] is compared with the primitive floating-point numbers of the
    proof assistant, which are IEEE 754 binary64 with rounding to
    nearest even: the decoder written with primitive floats and the
    decoder above agree on the words listed below. *)

Definition Q_of_float (x : float) : option Q :=
  match Prim2SF x with
  | S754_zero _ => Some 0%Q
  | S754_finite s m e => Some (Qred (dyadic (if s then Z.neg m else Z.pos m) e))
  | _ => None
  end.

Definition float_of_uint (n : Z) : float := PrimFloat.of_uint63 (Uint63.of_Z n).

(** [(uint32_t)x] for a primitive float. *)
Definition uint32_of_float (x : float) : option Z :=
  match Prim2SF x with
  | S754_zero _ => Some 0
  | S754_finite false m e =>
      let t := if decide (0 ≤ e) then Z.pos m * 2 ^ e else Z.pos m / 2 ^ (- e) in
      if decide (t < 2 ^ 32) then Some t else None
  | _ => None
  end.

(** [fl2k_reg_to_freq] on primitive floats; the two single-precision
    operations are exact ([160000000 / 5.0f] is 32000000 and its product
    with [mult] is an integer below [2 ^ 24 * 2 ^ 11]). *)
Definition machine_reg_to_freq (reg : Z) : option Q :=
  let div := u8 (Z.land reg 0x3f) in
  let out_div := u8 (Z.land (Z.shiftr reg 8) 0xf) in
  let frac := u8 (Z.land (Z.shiftr reg 16) 0xf) in
  let mult := u8 (Z.land (Z.shiftr reg 20) 0xf) in
  if decide (div = 0) then None
  else
    let sample_clock := float_of_uint (u32 (160000000 * mult) / div) in
    let offs_div := (float_of_uint 32000000 * float_of_uint mult)%float in
    let offset := (sample_clock / (offs_div / 2) * 1000000)%float in
    offset_u ← uint32_of_float offset;
    let sample_clock := (sample_clock + float_of_uint (u32 (offset_u * frac)))%float in
    Q_of_float (sample_clock / float_of_uint out_div)%float.

Definition agrees (reg : Z) : bool :=
  match fl2k_reg_to_freq reg, machine_reg_to_freq reg with
  | Some x, Some y => bool_decide (Qnum x = Qnum y ∧ Qden x = Qden y)
  | _, _ => false
  end.

(** Every multiplier and input divider that is not zero, with output
    dividers 1 and 15. *)
Definition sample_words : list Z :=
  mult ← seqZ 1 15; div ← seqZ 1 63; out_div ← [1; 15];
  [pll_reg out_div mult div 1].

Lemma single_precision_exact :
  (pll_clock_f ← float_of_Z 160000000; b32_div pll_clock_f 5) = Some (inject_Z 32000000)
  ∧ forallb (λ mult,
       match m ← float_of_Z mult; b32_mul (inject_Z 32000000) m with
       | Some q => bool_decide (Qnum q = 32000000 * mult ∧ Qden q = 1%positive)
       | None => false
       end) (seqZ 0 16) = true.
Proof. split; vm_compute; reflexivity. Qed.

Lemma b64_agrees_with_machine : forallb agrees sample_words = true.
Proof. vm_compute. reflexivity. Qed.

End Float.

(** * Properties of the PLL *)

Module Pll.

(** ** Definitions *)

(** The decoded rate as the specification words it, in exact
    arithmetic: base = (160e6 x mult) / div,
    offset = (base / (160e6 x mult / 5)) x 1e6,
    f_decoded = (base + offset x frac) / out_div. *)
Definition spec_decoded (div out_div frac mult : Z) : Q :=
  let base := (160000000 * inject_Z mult / inject_Z div)%Q in
  let offset := (base / (160000000 * inject_Z mult / 5) * 1000000)%Q in
  ((base + offset * inject_Z frac) / inject_Z out_div)%Q.

(** What the code computes: the base clock is an integer quotient, and
    the fractional step divides by a tenth (not a fifth) of the
    multiplied reference clock. *)
Definition pll_base (mult div : Z) : Z := 160000000 * mult / div.
Definition pll_offset (mult div : Z) : Q :=
  (inject_Z (pll_base mult div) / (160000000 * inject_Z mult / 10) * 1000000)%Q.

(** The numerator of the decoded rate: with output divider 1, the
    decoded rate itself. *)
Definition decoded (reg : Z) : Z :=
  let div := Z.land reg 0x3f in
  let frac := Z.land (Z.shiftr reg 16) 0xf in
  let mult := Z.land (Z.shiftr reg 20) 0xf in
  pll_base mult div + Qfloor (pll_offset mult div) * frac.

(** The first half of [fl2k_reg_to_freq], up to the conversion of
    [offset] to [uint32_t]: it depends on [mult] and [div] only. *)
Definition pll_prefix (mult div : Z) : option (Q * Z) :=
  sample_clock ← (if decide (div = 0) then None
                  else double_of_Z (u32 (160000000 * mult) / div));
  pll_clock_f ← float_of_Z 160000000;
  fifth ← b32_div pll_clock_f 5;
  mult_f ← float_of_Z mult;
  offs_div ← b32_mul fifth mult_f;
  half ← b64_div offs_div 2;
  ratio ← b64_div sample_clock half;
  offset ← b64_mul ratio 1000000;
  offset_u ← uint32_of_double offset;
  Some (sample_clock, offset_u).

Definition prefix_ok (mult div : Z) : bool :=
  match pll_prefix mult div with
  | Some (sc, ou) =>
      bool_decide (Qnum sc = pll_base mult div ∧ Qden sc = 1%positive
                   ∧ ou = Qfloor (pll_offset mult div)
                   ∧ 0 < pll_base mult div ∧ 0 ≤ ou
                   ∧ pll_base mult div + ou * 15 < 2 ^ 32)
  | None => false
  end.



(** The words the loops of the code assemble, in iteration order. *)
Definition pll_candidates : list Z :=
  mult ← mult_range; div ← div_range; frac ← frac_range; [pll_reg 1 mult div frac].

Definition candidate_ok (reg : Z) : bool :=
  bool_decide (Z.land reg 0x3f ≠ 0 ∧ Z.land (Z.shiftr reg 8) 0xf = 1
               ∧ Z.land (Z.shiftr reg 20) 0xf ≠ 0).

(** [r] is the first element of [l] at which [E] is least. *)
Definition first_min (E : Z → Z) (l : list Z) (r : Z) : Prop :=
  ∃ la lb, l = la ++ r :: lb
    ∧ (∀ c, c ∈ la → E r < E c) ∧ (∀ c, c ∈ lb → E r ≤ E c).

(** The loop body and the search on the integers the candidates decode
    to; [last_error_0] is [1e20f]. *)
Definition int_try (t : Z) (st : Z * Q) (reg : Z) : Z * Q :=
  let e := inject_Z (Z.abs (decoded reg - t)) in
  if decide (e < st.2)%Q then (reg, e) else st.

Definition last_error_0 : Q := inject_Z 100000002004087734272.

Definition int_search (t : Z) : Z * Q :=
  fold_left (int_try t) pll_candidates (0, last_error_0).

(** The control transfer that writes [val] to register [reg]. *)
Definition write_request (reg val : Z) : ctrl_request :=
  CtrlRequest CTRL_OUT 0x41 0 reg
    [Z.land val 0xff; Z.land (Z.shiftr val 8) 0xff;
     Z.land (Z.shiftr val 16) 0xff; Z.land (Z.shiftr val 24) 0xff]
    4 CTRL_TIMEOUT.

(** What is left of [fl2k_set_sample_rate] once the search is done. *)
Definition finish_set_sample_rate (d : fl2k_dev) (t reg : Z) (f err : Q)
    : M (Z * option fl2k_dev) :=
  _ ← (if decide (1 < Qabs err)%Q
       then fprintf_stderr (RateNotPossible (s32 t) f err) else mret tt);
  r ← fl2k_write_reg (Some (set_rate f d)) 0x802c reg;
  mret (r, Some (set_rate f d)).

(** ** The decoder in closed form *)

Lemma prefix_table :
  forallb (λ m, forallb (prefix_ok m) (seqZ 1 63)) (seqZ 1 15) = true.
Proof. vm_compute. reflexivity. Qed.

Lemma pll_prefix_spec mult div :
  1 ≤ mult ≤ 15 → 1 ≤ div ≤ 63 →
  pll_prefix mult div
  = Some (inject_Z (pll_base mult div), Qfloor (pll_offset mult div))
  ∧ 0 < pll_base mult div
  ∧ 0 ≤ Qfloor (pll_offset mult div)
  ∧ pll_base mult div + Qfloor (pll_offset mult div) * 15 < 2 ^ 32.
Proof.
  intros Hm Hd.
  pose proof (proj1 (forallb_forall _ _) prefix_table mult) as H1.
  assert (In mult (seqZ 1 15)) as Hmi by (apply list_elem_of_In, elem_of_seqZ; lia).
  specialize (H1 Hmi).
  pose proof (proj1 (forallb_forall _ _) H1 div) as H2.
  assert (In div (seqZ 1 63)) as Hdi by (apply list_elem_of_In, elem_of_seqZ; lia).
  specialize (H2 Hdi). unfold prefix_ok in H2.
  destruct (pll_prefix mult div) as [[[n d] ou]|]; [|done].
  apply bool_decide_eq_true in H2. cbn [Qnum Qden] in H2.
  destruct H2 as (-> & -> & -> & Hb & Ho & Hs). done.
Qed.

Lemma reg_to_freq_prefix reg :
  fl2k_reg_to_freq reg
  = '(sample_clock, offset_u) ←
        pll_prefix (u8 (Z.land (Z.shiftr reg 20) 0xf)) (u8 (Z.land reg 0x3f));
    step ← double_of_Z (u32 (offset_u * u8 (Z.land (Z.shiftr reg 16) 0xf)));
    sample_clock ← b64_add sample_clock step;
    out_div_d ← double_of_Z (u8 (Z.land (Z.shiftr reg 8) 0xf));
    b64_div sample_clock out_div_d.
Proof.
  unfold fl2k_reg_to_freq, pll_prefix.
  repeat match goal with
  | |- (?m ≫= _) = _ => destruct m; cbn [mbind option_bind]; [|reflexivity]
  end.
  reflexivity.
Qed.

Lemma land_ones_bound (a n : Z) : 0 ≤ n → 0 ≤ Z.land a (Z.ones n) < 2 ^ n.
Proof. intros. rewrite Z.land_ones by done. apply Z.mod_pos_bound. by apply Z.pow_pos_nonneg. Qed.

(** The bounds of the four fields of a register word. *)
Lemma field_bounds reg :
  0 ≤ Z.land reg 0x3f < 64 ∧ 0 ≤ Z.land (Z.shiftr reg 8) 0xf < 16
  ∧ 0 ≤ Z.land (Z.shiftr reg 16) 0xf < 16 ∧ 0 ≤ Z.land (Z.shiftr reg 20) 0xf < 16.
Proof.
  pose proof (land_ones_bound reg 6 ltac:(lia)) as Bdiv.
  pose proof (land_ones_bound (Z.shiftr reg 8) 4 ltac:(lia)) as Bout.
  pose proof (land_ones_bound (Z.shiftr reg 16) 4 ltac:(lia)) as Bfrac.
  pose proof (land_ones_bound (Z.shiftr reg 20) 4 ltac:(lia)) as Bmult.
  change (Z.ones 6) with 0x3f in Bdiv. change (Z.ones 4) with 0xf in Bout, Bfrac, Bmult.
  change (2 ^ 6) with 64 in Bdiv. change (2 ^ 4) with 16 in Bout, Bfrac, Bmult.
  done.
Qed.

(** The second half of [fl2k_reg_to_freq]: the sum is an integer that a
    [double] holds exactly, so one rounding is left, that of the final
    division. *)
Lemma reg_to_freq_closed (reg : Z) :
  let div := Z.land reg 0x3f in
  let out_div := Z.land (Z.shiftr reg 8) 0xf in
  let frac := Z.land (Z.shiftr reg 16) 0xf in
  let mult := Z.land (Z.shiftr reg 20) 0xf in
  div ≠ 0 → out_div ≠ 0 → mult ≠ 0 →
  fl2k_reg_to_freq reg
  = b64 (inject_Z (pll_base mult div + Qfloor (pll_offset mult div) * frac)
         / inject_Z out_div).
Proof.
  intros div out_div frac mult Hdiv Hout Hmult.
  destruct (field_bounds reg) as (Bdiv & Bout & Bfrac & Bmult).
  fold div in Bdiv. fold out_div in Bout. fold frac in Bfrac. fold mult in Bmult.
  destruct (pll_prefix_spec mult div) as (Hpre & Hbase & Hoff & Hsum); [lia..|].
  set (base := pll_base mult div) in *.
  set (ou := Qfloor (pll_offset mult div)) in *.
  rewrite reg_to_freq_prefix. fold div out_div frac mult.
  unfold u8. rewrite !(Z.mod_small _ (2 ^ 8)) by lia.
  rewrite Hpre. cbn [mbind option_bind].
  unfold u32. rewrite (Z.mod_small (ou * frac)) by nia.
  unfold double_of_Z, b64_add, b64_div, b64.
  rewrite (Float.fround_integer_eq 53 _ _ (inject_Z (ou * frac)) (ou * frac));
    [|lia|lia|lia|reflexivity|nia].
  cbn [mbind option_bind].
  rewrite (Float.fround_integer_eq 53 _ _ (inject_Z base + inject_Z (ou * frac))
             (base + ou * frac)); [|lia|lia|lia| |nia].
  2:{ unfold Qeq. cbn. lia. }
  cbn [mbind option_bind].
  rewrite (Float.fround_integer_eq 53 _ _ (inject_Z out_div) out_div);
    [|lia|lia|lia|reflexivity|lia].
  cbn [mbind option_bind].
  rewrite decide_False by (cbn; lia). reflexivity.
Qed.

(** C2 (as amended).  For every register word whose [div], [mult] and
    [out_div] fields are not zero, the decoded rate is the [double]
    nearest to [(base + trunc(offset) * frac) / out_div], where
    [base] is the integer quotient of [160e6 * mult] by [div], and
    [offset = base / (160e6 * mult / 10) * 1e6]; the decoder does return
    a rate for such a word. *)
Theorem reg_to_freq_formula (reg : Z) :
  let div := Z.land reg 0x3f in
  let out_div := Z.land (Z.shiftr reg 8) 0xf in
  let frac := Z.land (Z.shiftr reg 16) 0xf in
  let mult := Z.land (Z.shiftr reg 20) 0xf in
  div ≠ 0 → out_div ≠ 0 → mult ≠ 0 →
  fl2k_reg_to_freq reg
  = b64 (inject_Z (pll_base mult div + Qfloor (pll_offset mult div) * frac)
         / inject_Z out_div)
  ∧ is_Some (fl2k_reg_to_freq reg).
Proof.
  intros div out_div frac mult Hdiv Hout Hmult.
  pose proof (reg_to_freq_closed reg Hdiv Hout Hmult) as Heq.
  fold div out_div frac mult in Heq.
  split; [exact Heq|]. rewrite Heq.
  destruct (field_bounds reg) as (Bdiv & Bout & Bfrac & Bmult).
  fold div in Bdiv. fold out_div in Bout. fold frac in Bfrac. fold mult in Bmult.
  destruct (pll_prefix_spec mult div) as (_ & Hbase & Hoff & Hsum); [lia..|].
  assert (1 ≤ pll_base mult div + Qfloor (pll_offset mult div) * frac < 2 ^ 33) as HS by nia.
  revert HS. generalize (pll_base mult div + Qfloor (pll_offset mult div) * frac). intros S HS.
  destruct out_div as [|od|od] eqn:Hod; [lia| |lia].
  apply (Float.fround_some 53 _ _ _ 4 34); try lia.
  - unfold Qle, Qdiv, Qmult, Qinv, inject_Z. cbn [Qnum Qden].
    rewrite ?Pos.mul_1_l, ?Z.mul_1_r, ?Z.mul_1_l. lia.
  - unfold Qlt, Qdiv, Qmult, Qinv, inject_Z. cbn [Qnum Qden].
    rewrite ?Pos.mul_1_l, ?Z.mul_1_r, ?Z.mul_1_l. lia.
Qed.

Lemma reg_to_freq_formula_witness :
  fl2k_reg_to_freq 0x00416f3f
  = b64 (inject_Z (pll_base 4 63 + Qfloor (pll_offset 4 63) * 1) / inject_Z 15)
  ∧ is_Some (fl2k_reg_to_freq 0x00416f3f).
Proof.
  apply (reg_to_freq_formula 0x00416f3f); vm_compute; discriminate.
Defined.

(** The word the initialisation sequence parks the PLL at decodes to
    10317460 / 15 Hz, rounded. *)
Example reg_to_freq_init_word :
  fl2k_reg_to_freq 0x00416f3f = b64 (Qmake 10317460 15)
  ∧ fl2k_reg_to_freq 0x00416f3f = Some (Qmake 5908420437038421 8589934592).
Proof. split; vm_compute; reflexivity. Qed.

(** C2 (as stated) fails: for mult 5, div 50, frac 1, out_div 1 every
    quotient in the specification's formula is exact and it gives
    16100000 Hz, while the code decodes the word to 16200000 Hz. *)
Lemma reg_to_freq_differs_from_spec :
  Z.land 0x516132 0x3f = 50 ∧ Z.land (Z.shiftr 0x516132 8) 0xf = 1
  ∧ Z.land (Z.shiftr 0x516132 16) 0xf = 1 ∧ Z.land (Z.shiftr 0x516132 20) 0xf = 5
  ∧ fl2k_reg_to_freq 0x516132 = Some (inject_Z 16200000)
  ∧ Qred (spec_decoded 50 1 1 5) = inject_Z 16100000
  ∧ fl2k_reg_to_freq 0x516132 ≠ Some (Qred (spec_decoded 50 1 1 5)).
Proof. vm_compute. repeat split; (reflexivity || discriminate). Qed.

Lemma decoded_bound reg :
  Z.land reg 0x3f ≠ 0 → Z.land (Z.shiftr reg 20) 0xf ≠ 0 →
  0 < decoded reg < 2 ^ 32.
Proof.
  intros Hdiv Hmult. unfold decoded.
  pose proof (land_ones_bound reg 6 ltac:(lia)) as Bdiv.
  pose proof (land_ones_bound (Z.shiftr reg 16) 4 ltac:(lia)) as Bfrac.
  pose proof (land_ones_bound (Z.shiftr reg 20) 4 ltac:(lia)) as Bmult.
  change (Z.ones 6) with 0x3f in Bdiv. change (Z.ones 4) with 0xf in Bfrac, Bmult.
  change (2 ^ 6) with 64 in Bdiv. change (2 ^ 4) with 16 in Bfrac, Bmult.
  destruct (pll_prefix_spec (Z.land (Z.shiftr reg 20) 0xf) (Z.land reg 0x3f))
    as (_ & Hbase & Hoff & Hsum); [lia..|].
  nia.
Qed.

(** ** The candidates *)

Lemma candidates_ok : forallb candidate_ok pll_candidates = true.
Proof. vm_compute. reflexivity. Qed.

Lemma pll_candidates_length : length pll_candidates = 3720%nat.
Proof. vm_compute. reflexivity. Qed.

(** Every candidate decodes to the fields it was assembled from, with
    output divider 1. *)
Lemma candidate_fields :
  forallb (λ m, forallb (λ d, forallb (λ f,
    let reg := pll_reg 1 m d f in
    bool_decide (Z.land reg 0x3f = d ∧ Z.land (Z.shiftr reg 8) 0xf = 1
                 ∧ Z.land (Z.shiftr reg 16) 0xf = f
                 ∧ Z.land (Z.shiftr reg 20) 0xf = m))
    frac_range) div_range) mult_range = true.
Proof. vm_compute. reflexivity. Qed.





(** Every candidate decodes to an integer below [2 ^ 32]. *)
Lemma candidate_decodes c :
  c ∈ pll_candidates →
  fl2k_reg_to_freq c = Some (inject_Z (decoded c)) ∧ 0 ≤ decoded c < 2 ^ 32.
Proof.
  intros Hc. apply list_elem_of_In in Hc.
  pose proof (proj1 (forallb_forall _ _) candidates_ok c Hc) as H.
  unfold candidate_ok in H. apply bool_decide_eq_true in H.
  destruct H as (Hdiv & Hout & Hmult).
  pose proof (decoded_bound c Hdiv Hmult) as Hrange.
  split; [|lia].
  rewrite (reg_to_freq_closed c) by (done || lia).
  rewrite Hout. fold (decoded c).
  apply Float.fround_integer_eq; try lia.
  unfold Qeq, Qdiv, Qmult, Qinv, inject_Z. cbn. lia.
Qed.

(** ** The search *)

Lemma fold_opt_app {A S} (f : S → A → option S) l1 l2 s :
  fold_opt f (l1 ++ l2) s = fold_opt f l1 s ≫= fold_opt f l2.
Proof.
  revert s. induction l1 as [|x l1 IH]; intros s; [done|].
  cbn. destruct (f s x) as [s'|]; cbn; [apply IH|done].
Qed.

Lemma fold_opt_ext {A S} (f g : S → A → option S) l s :
  (∀ s x, f s x = g s x) → fold_opt f l s = fold_opt g l s.
Proof.
  intros Hfg. revert s. induction l as [|x l IH]; intros s; [done|].
  cbn. rewrite Hfg. destruct (g s x); cbn; [apply IH|done].
Qed.

Lemma fold_opt_bind {A B S} (f : S → B → option S) (h : A → list B) l s :
  fold_opt f (l ≫= h) s = fold_opt (λ s x, fold_opt f (h x) s) l s.
Proof.
  revert s. induction l as [|x l IH]; intros s; [done|].
  rewrite bind_cons, fold_opt_app. cbn.
  destruct (fold_opt f (h x) s); cbn; [apply IH|done].
Qed.

Lemma fold_opt_singleton {A S} (f : S → A → option S) x s :
  fold_opt f [x] s = f s x.
Proof. cbn. by destruct (f s x). Qed.

(** The three nested loops are one pass over the candidates. *)
Lemma pll_search_flat t st :
  pll_search t st = fold_opt (pll_try t) pll_candidates st.
Proof.
  unfold pll_search, pll_candidates.
  rewrite fold_opt_bind. apply fold_opt_ext. intros s1 m.
  rewrite fold_opt_bind. apply fold_opt_ext. intros s2 d.
  rewrite fold_opt_bind. apply fold_opt_ext. intros s3 f.
  by rewrite fold_opt_singleton.
Qed.

Lemma double_of_uint32 t : 0 ≤ t < 2 ^ 32 → double_of_Z t = Some (inject_Z t).
Proof. intros. apply Float.fround_integer_eq; (lia || reflexivity). Qed.

Lemma b64_sub_integers a b :
  Z.abs (a - b) < 2 ^ 53 →
  b64_sub (inject_Z a) (inject_Z b) = Some (inject_Z (a - b)).
Proof.
  intros. apply Float.fround_integer_eq; try lia.
  unfold Qeq. cbn. lia.
Qed.

(** The loop body computes the error exactly. *)
Lemma pll_try_spec t c st :
  0 ≤ t < 2 ^ 32 → c ∈ pll_candidates →
  pll_try t st c = Some (int_try t st c).
Proof.
  intros Ht Hc. destruct (candidate_decodes c Hc) as [Hf Hrange].
  unfold pll_try, int_try. rewrite Hf. cbn [mbind option_bind].
  rewrite double_of_uint32 by done. cbn [mbind option_bind].
  rewrite b64_sub_integers by lia. cbn [mbind option_bind].
  change (Qabs (inject_Z (decoded c - t))) with (inject_Z (Z.abs (decoded c - t))).
  by destruct (decide _).
Qed.

Lemma fold_opt_pure t l st :
  0 ≤ t < 2 ^ 32 → (∀ c, c ∈ l → c ∈ pll_candidates) →
  fold_opt (pll_try t) l st = Some (fold_left (int_try t) l st).
Proof.
  intros Ht. revert st. induction l as [|c l IH]; intros st Hl; [done|].
  cbn [fold_opt fold_left]. rewrite pll_try_spec by (done || apply Hl; by left).
  cbn [mbind option_bind]. apply IH. intros c' Hc'. apply Hl. by right.
Qed.

Lemma last_error_init : b32 (inject_Z (10 ^ 20)) = Some last_error_0.
Proof. vm_compute. reflexivity. Qed.

(** The search in [fl2k_set_sample_rate] is the search on integers. *)
Lemma pll_search_int t :
  0 ≤ t < 2 ^ 32 → pll_search t (0, last_error_0) = Some (int_search t).
Proof. intros Ht. rewrite pll_search_flat. by apply fold_opt_pure. Qed.

(** A pass over [pre] with a strict comparison leaves the first element
    of least error, provided the first comparison succeeds. *)
Lemma int_fold_first_min t st0 pre :
  (∀ c, c ∈ pre → (inject_Z (Z.abs (decoded c - t)) < st0.2)%Q) →
  pre ≠ [] →
  (fold_left (int_try t) pre st0).2
  = inject_Z (Z.abs (decoded (fold_left (int_try t) pre st0).1 - t))
  ∧ first_min (λ c, Z.abs (decoded c - t)) pre (fold_left (int_try t) pre st0).1.
Proof.
  induction pre as [|x pre IH] using rev_ind; intros Habove Hne; [done|].
  rewrite fold_left_app. cbn [fold_left].
  set (st := fold_left (int_try t) pre st0) in *.
  unfold int_try.
  destruct (decide (pre = [])) as [->|Hpre].
  { cbn in st. subst st. rewrite decide_True by (apply Habove; by left).
    split; [done|]. exists [], []. split; [done|].
    split; intros c Hc; by apply elem_of_nil in Hc. }
  destruct IH as [Hbest (la & lb & Hsplit & Hla & Hlb)]; [|done|].
  { intros c Hc. apply Habove. rewrite elem_of_app. by left. }
  destruct (decide (_ < st.2)%Q) as [Hlt|Hge]; cbn [fst snd].
  - split; [done|]. rewrite Hbest, <- Zlt_Qlt in Hlt.
    exists pre, []. split; [done|].
    split; [|intros c Hc; by apply elem_of_nil in Hc].
    intros c Hc. rewrite Hsplit, elem_of_app, elem_of_cons in Hc.
    destruct Hc as [Hc|[->|Hc]]; [specialize (Hla c Hc)| |specialize (Hlb c Hc)]; lia.
  - split; [done|]. rewrite Hbest, <- Zlt_Qlt in Hge.
    exists la, (lb ++ [x]). split; [by rewrite Hsplit, <- app_assoc|].
    split; [done|].
    intros c Hc. rewrite elem_of_app, list_elem_of_singleton in Hc.
    destruct Hc as [Hc| ->]; [by apply Hlb|lia].
Qed.

Lemma int_search_first_min t :
  0 ≤ t < 2 ^ 32 →
  first_min (λ c, Z.abs (decoded c - t)) pll_candidates (int_search t).1
  ∧ (int_search t).1 ∈ pll_candidates.
Proof.
  intros Ht. unfold int_search.
  destruct (int_fold_first_min t (0, last_error_0) pll_candidates) as [_ Hmin].
  - intros c Hc. destruct (candidate_decodes c Hc) as [_ Hr].
    cbn [snd]. unfold last_error_0. rewrite <- Zlt_Qlt. lia.
  - intros Hnil. apply (f_equal length) in Hnil.
    rewrite pll_candidates_length in Hnil. discriminate Hnil.
  - split; [exact Hmin|].
    destruct Hmin as (la & lb & Hsplit & _).
    generalize dependent (fold_left (int_try t) pll_candidates (0, last_error_0)).
    intros st Hsplit. rewrite Hsplit, elem_of_app, elem_of_cons. auto.
Qed.

(** ** [fl2k_set_sample_rate] *)

(** The whole function, with the search and the floating-point
    arithmetic carried out on integers. *)
Lemma set_sample_rate_eq d t w :
  0 ≤ t < 2 ^ 32 →
  fl2k_set_sample_rate (Some d) t w
  = finish_set_sample_rate d t (int_search t).1
      (inject_Z (decoded (int_search t).1))
      (inject_Z (decoded (int_search t).1 - t)) w.
Proof.
  intros Ht. destruct (int_search_first_min t Ht) as [_ Hreg].
  destruct (candidate_decodes _ Hreg) as [Hf Hrange].
  unfold fl2k_set_sample_rate, finish_set_sample_rate.
  unfold mbind at 1, M_bind at 1, lift at 1. rewrite last_error_init. cbn [fmap option_fmap option_map].
  unfold mbind at 1, M_bind at 1, lift at 1. rewrite (pll_search_int t Ht).
  cbn [fmap option_fmap option_map]. destruct (int_search t) as [reg e] eqn:Hs. cbn [fst] in *.
  unfold mbind at 1, M_bind at 1, lift at 1. rewrite Hf. cbn [fmap option_fmap option_map].
  unfold mbind at 1, M_bind at 1, lift at 1. rewrite double_of_uint32 by done.
  cbn [fmap option_fmap option_map].
  unfold mbind at 1, M_bind at 1, lift at 1. rewrite b64_sub_integers by lia.
  cbn [fmap option_fmap option_map].
  reflexivity.
Qed.

Lemma write_reg_run d reg val w :
  ∃ r w', fl2k_write_reg (Some d) reg val w = Some (r, w')
    ∧ stderr w' = stderr w
    ∧ ctrl_log w' = write_request reg val :: ctrl_log w
    ∧ r = (if decide (u32 (ctrl_ret (bus w (length (ctrl_log w)) (write_request reg val))) ≠ 4)
           then FL2K_ERROR_OTHER else FL2K_SUCCESS).
Proof.
  unfold fl2k_write_reg, mbind, M_bind, libusb_control_transfer.
  fold (write_request reg val).
  destruct (decide _); eexists _, _; (split; [reflexivity|]); by cbn.
Qed.

Lemma finish_run d t reg f err w :
  ∃ r w', finish_set_sample_rate d t reg f err w = Some ((r, Some (set_rate f d)), w')
    ∧ stderr w' = (if decide (1 < Qabs err)%Q
                   then RateNotPossible (s32 t) f err :: stderr w else stderr w)
    ∧ ctrl_log w' = write_request 0x802c reg :: ctrl_log w
    ∧ r = (if decide (u32 (ctrl_ret (bus w (length (ctrl_log w)) (write_request 0x802c reg))) ≠ 4)
           then FL2K_ERROR_OTHER else FL2K_SUCCESS).
Proof.
  unfold finish_set_sample_rate.
  destruct (decide (1 < Qabs err)%Q).
  - pose (w1 := World (bus w) (ctrl_log w) (submit_ret w) (submit_log w)
                  (cond_signals w) (malloc_ok w) (dev_mem_alloc_ret w) (dev_mem_allocs w)
                  (pthread_create_ret w) (threads w)
                  (RateNotPossible (s32 t) f err :: stderr w)).
    destruct (write_reg_run (set_rate f d) 0x802c reg w1)
      as (r & w' & Hw & Hst & Hlog & Hr).
    exists r, w'. split; [|split; [exact Hst|split; [exact Hlog|exact Hr]]].
    unfold mbind, M_bind, fprintf_stderr. fold w1. by rewrite Hw.
  - unfold mbind at 1, M_bind at 1, mret at 1, M_ret at 1.
    destruct (write_reg_run (set_rate f d) 0x802c reg w) as (r & w' & Hw & Hst & Hlog & Hr).
    unfold mbind, M_bind. rewrite Hw. exists r, w'.
    split; [reflexivity|]. split; [exact Hst|]. split; [exact Hlog|]. exact Hr.
Qed.




(** The search at the two rates of the specification's scenarios. *)
Lemma int_search_100MHz : int_search 100000000 = (0x64610a, inject_Z 0).
Proof. vm_compute. reflexivity. Qed.

Lemma int_search_7MHz : int_search 7000000 = (0x31613f, inject_Z 777777).
Proof. vm_compute. reflexivity. Qed.

(** Scenario 2 of the specification: 100 MHz is met exactly, by mult 6,
    div 10, frac 4; nothing is printed. *)
Example set_sample_rate_100MHz :
  (λ x : Z * option fl2k_dev * world,
     (x.1.1, rate <$> x.1.2, stderr x.2, head (ctrl_log x.2)))
    <$> fl2k_set_sample_rate (Some opened_dev) 100000000
          (steady_world (CtrlReply 4 [0; 0; 0; 0]))
  = Some (FL2K_SUCCESS, Some (inject_Z 100000000), [],
          Some (write_request 0x802c 0x64610a)).
Proof.
  rewrite set_sample_rate_eq by lia. rewrite int_search_100MHz.
  vm_compute. reflexivity.
Qed.

(** Scenario 3: 7 MHz is out of reach; the nearest rate is 7777777 Hz
    (mult 3, div 63, frac 1) and the warning is printed. *)
Example set_sample_rate_7MHz :
  (λ x : Z * option fl2k_dev * world,
     (x.1.1, fl2k_get_sample_rate x.1.2, stderr x.2, head (ctrl_log x.2)))
    <$> fl2k_set_sample_rate (Some opened_dev) 7000000
          (steady_world (CtrlReply 4 [0; 0; 0; 0]))
  = Some (FL2K_SUCCESS, Some 7777777,
          [RateNotPossible 7000000 (inject_Z 7777777) (inject_Z 777777)],
          Some (write_request 0x802c 0x31613f)).
Proof.
  rewrite set_sample_rate_eq by lia. rewrite int_search_7MHz.
  vm_compute. reflexivity.
Qed.

(** C10. [fl2k_set_sample_rate] updates the rate of the handle before it
    writes the PLL register: when that write fails, the call returns the
    error, yet the handle holds the decoded rate [f] of the selected word,
    and [fl2k_get_sample_rate] reports it, truncated to an integer (and 0
    for a null handle). *)
Theorem set_sample_rate_failed_write_keeps_rate (d : fl2k_dev) (t : Z) (w : world) :
  0 ≤ t < 2 ^ 32 →
  (∀ req, u32 (ctrl_ret (bus w (length (ctrl_log w)) req)) ≠ 4) →
  ∃ reg f w',
    fl2k_set_sample_rate (Some d) t w = Some ((FL2K_ERROR_OTHER, Some (set_rate f d)), w')
    ∧ reg ∈ pll_candidates
    ∧ fl2k_reg_to_freq reg = Some f
    ∧ ctrl_log w' = write_request 0x802c reg :: ctrl_log w
    ∧ fl2k_get_sample_rate (Some (set_rate f d)) = Some (Qtrunc f)
    ∧ inject_Z (Qtrunc f) = f
    ∧ fl2k_get_sample_rate None = Some 0.
Proof.
  intros Ht Hfail.
  destruct (int_search_first_min t Ht) as [_ Hreg].
  pose proof (set_sample_rate_eq d t w Ht) as Hrun.
  revert Hreg Hrun. generalize (int_search t).1. intros reg Hreg Hrun.
  destruct (candidate_decodes reg Hreg) as [Hf Hrange].
  destruct (finish_run d t reg (inject_Z (decoded reg)) (inject_Z (decoded reg - t)) w)
    as (r & w' & Hfin & Hst & Hlog & Hr).
  rewrite decide_True in Hr by apply Hfail. subst r.
  assert (Qtrunc (inject_Z (decoded reg)) = decoded reg) as Htr.
  { unfold Qtrunc. cbn [Qnum inject_Z]. rewrite decide_True by lia. apply Qfloor_Z. }
  exists reg, (inject_Z (decoded reg)), w'.
  split; [by rewrite Hrun|]. split; [exact Hreg|]. split; [exact Hf|].
  split; [exact Hlog|]. rewrite Htr. split; [|split; reflexivity].
  unfold fl2k_get_sample_rate, uint32_of_double. cbn [rate set_rate].
  rewrite Htr. by rewrite decide_True by lia.
Qed.

Lemma set_sample_rate_failed_write_keeps_rate_witness :
  ∃ reg f w',
    fl2k_set_sample_rate (Some opened_dev) 100000000 (steady_world (CtrlReply (-7) [0; 0; 0; 0]))
    = Some ((FL2K_ERROR_OTHER, Some (set_rate f opened_dev)), w')
    ∧ reg ∈ pll_candidates
    ∧ fl2k_reg_to_freq reg = Some f
    ∧ ctrl_log w' = write_request 0x802c reg
                      :: ctrl_log (steady_world (CtrlReply (-7) [0; 0; 0; 0]))
    ∧ fl2k_get_sample_rate (Some (set_rate f opened_dev)) = Some (Qtrunc f)
    ∧ inject_Z (Qtrunc f) = f
    ∧ fl2k_get_sample_rate None = Some 0.
Proof.
  apply (set_sample_rate_failed_write_keeps_rate opened_dev 100000000
           (steady_world (CtrlReply (-7) [0; 0; 0; 0]))).
  - lia.
  - intros req. vm_compute. discriminate.
Defined.

(** The same at a concrete input: the write times out, the call returns
    FL2K_ERROR_OTHER, and the rate read back has changed from 0 to
    100000000. *)
Example set_sample_rate_failed_write_100MHz :
  fl2k_get_sample_rate (Some opened_dev) = Some 0
  ∧ (λ x : Z * option fl2k_dev * world, (x.1.1, fl2k_get_sample_rate x.1.2))
      <$> fl2k_set_sample_rate (Some opened_dev) 100000000
            (steady_world (CtrlReply (-7) [0; 0; 0; 0]))
    = Some (FL2K_ERROR_OTHER, Some 100000000).
Proof.
  split; [reflexivity|].
  rewrite set_sample_rate_eq by lia. rewrite int_search_100MHz.
  vm_compute. reflexivity.
Qed.

End Pll.

(** * Properties of the transfer pool *)

Module Pool.

(** [dev->xfer] holds [xfer_buf_num] transfers. *)
Definition pool_wf (d : fl2k_dev) : Prop :=
  Z.to_nat (xfer_buf_num d) = length (xfer d).

(** Transfer [j] is FILLED with sequence number [s]. *)
Definition filled (pool : list libusb_transfer) (j : nat) (s : Z) : Prop :=
  ∃ x, pool !! j = Some x ∧ user_data x = Some (XferInfo s BUF_FILLED).

Definition slot_state (pool : list libusb_transfer) (i : nat) : option fl2k_buf_state :=
  x ← pool !! i; state <$> user_data x.

Lemma filled_inv pool j s x info :
  filled pool j s → pool !! j = Some x → user_data x = Some info →
  state info = BUF_FILLED ∧ seqno info = s.
Proof.
  intros (y & Hy & Hu) Hx Hinfo. rewrite Hx in Hy. injection Hy as <-.
  rewrite Hinfo in Hu. injection Hu as ->. done.
Qed.

(** The scan for a FILLED transfer: it ends with the first transfer of
    least sequence number among the indices visited, unless a transfer
    found earlier ([next_buf]) has a sequence number that is no larger. *)
Lemma next_xfer_loop_filled pool idx next_buf next_seq :
  Forall (λ i, i < length pool)%nat idx →
  ∃ r, next_xfer_loop pool BUF_FILLED idx next_buf next_seq = Some r ∧
    match r with
    | None => next_buf < 0 ∧ ∀ i s, i ∈ idx → ¬ filled pool i s
    | Some j =>
        (j = Z.to_nat next_buf ∧ 0 ≤ next_buf
         ∧ ∀ i s, i ∈ idx → filled pool i s → next_seq ≤ s)
        ∨ (j ∈ idx ∧ ∃ s, filled pool j s ∧ (next_buf < 0 ∨ s < next_seq)
           ∧ ∀ i s', i ∈ idx → filled pool i s' → s ≤ s')
    end.
Proof.
  revert next_buf next_seq.
  induction idx as [|i idx IH]; intros nb ns Hidx.
  { cbn. eexists; split; [reflexivity|].
    destruct (decide (_ ∧ 0 ≤ nb)) as [[_ H]|H].
    - left. split; [done|]. split; [done|]. intros i s Hi. by apply elem_of_nil in Hi.
    - split; [|intros i s Hi; by apply elem_of_nil in Hi].
      destruct (decide (0 ≤ nb)); [|lia]. exfalso. by apply H. }
  apply Forall_cons in Hidx as [Hi Hidx].
  destruct (lookup_lt_is_Some_2 pool i Hi) as [x Hx].
  cbn [next_xfer_loop]. rewrite Hx. cbn [mbind option_bind].
  assert (∀ r nb' ns',
    match r with
    | None => nb' < 0 ∧ ∀ i s, i ∈ idx → ¬ filled pool i s
    | Some j =>
        (j = Z.to_nat nb' ∧ 0 ≤ nb' ∧ ∀ i s, i ∈ idx → filled pool i s → ns' ≤ s)
        ∨ (j ∈ idx ∧ ∃ s, filled pool j s ∧ (nb' < 0 ∨ s < ns')
           ∧ ∀ i s', i ∈ idx → filled pool i s' → s ≤ s')
    end →
    nb' = nb → ns' = ns → (∀ s, ¬ filled pool i s) →
    match r with
    | None => nb < 0 ∧ ∀ i0 s, i0 ∈ i :: idx → ¬ filled pool i0 s
    | Some j =>
        (j = Z.to_nat nb ∧ 0 ≤ nb ∧ ∀ i0 s, i0 ∈ i :: idx → filled pool i0 s → ns ≤ s)
        ∨ (j ∈ i :: idx ∧ ∃ s, filled pool j s ∧ (nb < 0 ∨ s < ns)
           ∧ ∀ i0 s', i0 ∈ i :: idx → filled pool i0 s' → s ≤ s')
    end) as Hskip.
  { intros r nb' ns' Hr -> -> Hnot. destruct r as [j|].
    - destruct Hr as [(-> & H0 & Hmin)|(Hj & s & Hs & Hlt & Hmin)].
      + left. split; [done|]. split; [done|].
        intros i0 s0 [->|Hi0]%elem_of_cons Hf; [by apply Hnot in Hf|by eapply Hmin].
      + right. split; [by apply elem_of_cons; right|]. exists s.
        split; [done|]. split; [done|].
        intros i0 s0 [->|Hi0]%elem_of_cons Hf; [by apply Hnot in Hf|by eapply Hmin].
    - destruct Hr as [H0 Hnone]. split; [done|].
      intros i0 s0 [->|Hi0]%elem_of_cons; [apply Hnot|by apply Hnone]. }
  destruct (user_data x) as [info|] eqn:Hinfo.
  2:{ destruct (IH nb ns Hidx) as (r & Hr & Hspec). exists r. split; [done|].
      apply (Hskip r nb ns); try done.
      intros s (y & Hy & Hu). rewrite Hx in Hy. injection Hy as <-. congruence. }
  destruct (decide (state info = BUF_FILLED)) as [Hst|Hst].
  2:{ destruct (IH nb ns Hidx) as (r & Hr & Hspec). exists r. split; [done|].
      apply (Hskip r nb ns); try done.
      intros s Hf. destruct (filled_inv _ _ _ _ _ Hf Hx Hinfo) as [? _]. done. }
  rewrite decide_False by done.
  assert (filled pool i (seqno info)) as Hfi.
  { exists x. split; [done|]. rewrite Hinfo. destruct info as [sq st]. cbn in *. by subst. }
  assert (∀ s, filled pool i s → s = seqno info) as Huniq.
  { intros s Hf. by destruct (filled_inv _ _ _ _ _ Hf Hx Hinfo) as [_ <-]. }
  destruct (decide (seqno info < ns ∨ nb < 0)) as [Hbetter|Hworse].
  - destruct (IH (Z.of_nat i) (seqno info) Hidx) as (r & Hr & Hspec).
    exists r. split; [done|]. destruct r as [j|]; [|lia].
    right. destruct Hspec as [(-> & _ & Hmin)|(Hj & s & Hs & Hlt & Hmin)].
    + rewrite Nat2Z.id. split; [apply elem_of_cons; by left|].
      exists (seqno info). split; [done|]. split; [lia|].
      intros i0 s0 [->|Hi0]%elem_of_cons Hf; [rewrite (Huniq _ Hf); lia|by eapply Hmin].
    + split; [by apply elem_of_cons; right|]. exists s.
      split; [done|]. split; [lia|].
      intros i0 s0 [->|Hi0]%elem_of_cons Hf; [rewrite (Huniq _ Hf); lia|by eapply Hmin].
  - destruct (IH nb ns Hidx) as (r & Hr & Hspec).
    exists r. split; [done|]. destruct r as [j|]; [|lia].
    destruct Hspec as [(-> & H0 & Hmin)|(Hj & s & Hs & Hlt & Hmin)].
    + left. split; [done|]. split; [done|].
      intros i0 s0 [->|Hi0]%elem_of_cons Hf; [rewrite (Huniq _ Hf); lia|by eapply Hmin].
    + right. split; [by apply elem_of_cons; right|]. exists s.
      split; [done|]. split; [lia|].
      intros i0 s0 [->|Hi0]%elem_of_cons Hf; [rewrite (Huniq _ Hf); lia|by eapply Hmin].
Qed.

(** [fl2k_get_next_xfer(dev, BUF_FILLED)] returns the FILLED transfer of
    least sequence number, and NULL only if no transfer is FILLED. *)
Lemma get_next_filled d :
  pool_wf d →
  ∃ r, fl2k_get_next_xfer d BUF_FILLED = Some r ∧
    match r with
    | None => ∀ i s, ¬ filled (xfer d) i s
    | Some j => ∃ s, filled (xfer d) j s ∧ ∀ i s', filled (xfer d) i s' → s ≤ s'
    end.
Proof.
  intros Hwf. unfold fl2k_get_next_xfer.
  destruct (next_xfer_loop_filled (xfer d) (seq 0 (Z.to_nat (xfer_buf_num d))) (-1) 0)
    as (r & Hr & Hspec).
  { apply Forall_forall. intros i Hi%elem_of_seq. rewrite <- Hwf. lia. }
  assert (∀ i s, filled (xfer d) i s → i ∈ seq 0 (Z.to_nat (xfer_buf_num d))) as Hin.
  { intros i s (x & Hx & _). apply lookup_lt_Some in Hx.
    apply elem_of_seq. rewrite Hwf. lia. }
  exists r. split; [done|]. destruct r as [j|].
  - destruct Hspec as [(_ & H0 & _)|(Hj & s & Hs & _ & Hmin)]; [lia|].
    exists s. split; [done|]. intros i s' Hf. eapply Hmin; [|done]. by eapply Hin.
  - destruct Hspec as [_ Hnone]. intros i s Hf. eapply Hnone; [|done]. by eapply Hin.
Qed.

(** The scan for an EMPTY transfer returns an EMPTY one. *)
Lemma next_xfer_loop_empty pool idx next_buf next_seq i :
  next_xfer_loop pool BUF_EMPTY idx next_buf next_seq = Some (Some i) →
  slot_state pool i = Some BUF_EMPTY.
Proof.
  revert next_buf next_seq. induction idx as [|i0 idx IH]; intros nb ns.
  { cbn. rewrite decide_False by (intros [? _]; done). done. }
  cbn [next_xfer_loop]. destruct (pool !! i0) as [x|] eqn:Hx; [|done].
  cbn [mbind option_bind]. destruct (user_data x) as [info|] eqn:Hinfo; [|apply IH].
  destruct (decide (state info = BUF_EMPTY)) as [Hst|Hst]; [|apply IH].
  rewrite decide_True by done. intros [= <-].
  unfold slot_state. rewrite Hx. cbn. rewrite Hinfo. cbn. by rewrite Hst.
Qed.

(** ** Underrun *)

Lemma stop_tx_keeps d :
  ∃ d', (fl2k_stop_tx (Some d)).2 = Some d'
        ∧ xfer d' = xfer d ∧ underflow_cnt d' = underflow_cnt d.
Proof.
  unfold fl2k_stop_tx.
  destruct (decide (async_status d = FL2K_RUNNING)); [by eexists|].
  destruct (decide (async_status d ≠ FL2K_INACTIVE)); by eexists.
Qed.

(** The calls of [libusb_submit_transfer] that libusb accepted, in the
    order they were made: the [n]-th call is accepted when it did not
    return an error.  These are the transfers that went on the wire. *)
Definition accepted (w : world) : list (nat * list Z) :=
  snd <$> filter (λ p : nat * (nat * list Z), 0 ≤ submit_ret w p.1)
            (imap pair (reverse (submit_log w))).

Lemma accepted_submit w w' e :
  submit_ret w' = submit_ret w → submit_log w' = e :: submit_log w →
  accepted w'
  = accepted w ++ (if decide (0 ≤ submit_ret w (length (submit_log w))) then [e] else []).
Proof.
  intros Hret Hlog. unfold accepted. rewrite Hret, Hlog, reverse_cons, imap_app.
  rewrite filter_app, fmap_app. f_equal.
  cbn [imap]. rewrite filter_cons, filter_nil, length_reverse, Nat.add_0_r. cbn [fst].
  by destruct (decide _).
Qed.

(** C5 (as amended).  When a transfer completes with status COMPLETED
    while the engine is RUNNING and no transfer of the pool is FILLED,
    the callback calls [libusb_submit_transfer] once, on that same
    transfer, its buffer (like the rest of the pool) untouched, and adds
    one to the underflow counter (a [uint32_t]).  The transfer is on the
    wire again only if libusb accepts the call.  If libusb refuses it,
    nothing is submitted and the callback does not try again: when the
    error is LIBUSB_ERROR_NO_DEVICE the device is marked lost and the
    engine goes to CANCELING, and for every other result the engine
    stays RUNNING. *)
Theorem underrun_resubmits (d : fl2k_dev) (k : nat) (x : libusb_transfer) (w : world) :
  pool_wf d →
  xfer d !! k = Some x → is_Some (user_data x) →
  status x = LIBUSB_TRANSFER_COMPLETED →
  async_status d = FL2K_RUNNING →
  (∀ j s, ¬ filled (xfer d) j s) →
  ∃ d' w',
    _libusb_callback d k w = Some (d', w')
    ∧ submit_log w' = (k, xfer_buffer x) :: submit_log w
    ∧ accepted w'
      = accepted w ++ (if decide (0 ≤ submit_ret w (length (submit_log w)))
                       then [(k, xfer_buffer x)] else [])
    ∧ xfer d' = xfer d
    ∧ underflow_cnt d' = u32 (underflow_cnt d + 1)
    ∧ (0 ≤ underflow_cnt d < 2 ^ 32 - 1 → underflow_cnt d' = underflow_cnt d + 1)
    ∧ (submit_ret w (length (submit_log w)) ≠ LIBUSB_ERROR_NO_DEVICE →
         async_status d' = FL2K_RUNNING ∧ dev_lost d' = dev_lost d)
    ∧ (submit_ret w (length (submit_log w)) = LIBUSB_ERROR_NO_DEVICE →
         async_status d' = FL2K_CANCELING ∧ async_cancel d' = 1 ∧ dev_lost d' = 1).
Proof.
  intros Hwf Hx [info Hinfo] Hst Hrun Hnone.
  destruct (get_next_filled d Hwf) as ([j|] & Hnext & Hspec).
  { destruct Hspec as (s & Hf & _). by apply Hnone in Hf. }
  unfold _libusb_callback.
  unfold mbind at 1, M_bind at 1, lift at 1. rewrite Hx. cbn [fmap option_fmap option_map].
  unfold mbind at 1, M_bind at 1, lift at 1. rewrite Hinfo. cbn [fmap option_fmap option_map].
  rewrite (decide_True (P := status x = _)) by done.
  rewrite (decide_True (P := async_status d = _)) by done.
  unfold mbind at 1, M_bind at 1.
  unfold mbind at 1, M_bind at 1, lift at 1. rewrite Hnext. cbn [fmap option_fmap option_map].
  unfold mbind at 1, M_bind at 1, libusb_submit_transfer at 1.
  unfold mbind at 1, M_bind at 1, pthread_cond_signal at 1.
  unfold mbind at 1, M_bind at 1, fprintf_stderr at 1.
  unfold mret at 1, M_ret at 1.
  set (r := submit_ret w (length (submit_log w))).
  destruct (decide (_ ∨ r = LIBUSB_ERROR_NO_DEVICE)) as [Hlost|Hok].
  - destruct (stop_tx_keeps (set_dev_lost 1 (set_underflow_cnt (u32 (underflow_cnt d + 1)) d)))
      as (d' & Hd' & Hxf & Hcnt).
    assert (r = LIBUSB_ERROR_NO_DEVICE) as Hr
      by (destruct Hlost as [[_ H]|H]; [by exfalso; apply H|done]).
    pose proof Hd' as Hstop. unfold fl2k_stop_tx in Hstop.
    cbn [async_status set_dev_lost set_underflow_cnt] in Hstop.
    rewrite decide_True in Hstop by done. cbn [snd] in Hstop. injection Hstop as Hstop.
    rewrite Hd'. eexists _, _. split; [reflexivity|]. cbn [default from_option id].
    split; [done|]. split; [by apply accepted_submit|].
    split; [by rewrite Hxf|]. split; [by rewrite Hcnt|].
    split. { intros ?. rewrite Hcnt. cbn. unfold u32. rewrite Z.mod_small; lia. }
    split. { intros Hne. done. }
    intros _. by rewrite <- Hstop.
  - eexists _, _. split; [reflexivity|].
    split; [done|]. split; [by apply accepted_submit|].
    cbn. split; [done|]. split; [done|].
    split. { intros ?. unfold u32. rewrite Z.mod_small; lia. }
    split; [done|]. intros Hr. exfalso. apply Hok. by right.
Qed.

(** ** Sequence numbers and playback order *)

(** The streaming engine as a transition system.  A state is the handle,
    the sample worker's counter [buf_cnt], and the environment.  The
    producer and the event pump interleave at the granularity of these
    steps; the callback never writes a sequence number or the counter. *)
Definition sys : Type := fl2k_dev * Z * world.

Inductive label :=
  | LFill (i : nat) (s : Z)
  | LSkip
  | LCallback (k : nat) (st : libusb_transfer_status)
  | LStop.

(** libusb records the outcome of transfer [k] before it runs the
    callback. *)
Definition set_status (k : nat) (st : libusb_transfer_status) (d : fl2k_dev) : fl2k_dev :=
  set_xfer (alter (λ x, Transfer st (xfer_buffer x) (user_data x)) k (xfer d)) d.

Inductive step : sys → label → sys → Prop :=
  | step_fill d c w i data_info d' c' :
      async_status d = FL2K_RUNNING →
      fl2k_get_next_xfer d BUF_EMPTY = Some (Some i) →
      sample_worker_fill d c i data_info = Some (d', c') →
      step (d, c, w) (LFill i c) (d', c', w)
  | step_skip d c w :
      async_status d = FL2K_RUNNING →
      fl2k_get_next_xfer d BUF_EMPTY = Some None →
      step (d, c, w) LSkip (d, c, w)
  | step_callback d c w k st d' w' :
      _libusb_callback (set_status k st d) k w = Some (d', w') →
      step (d, c, w) (LCallback k st) (d', c, w')
  | step_stop d c w d' :
      (fl2k_stop_tx (Some d)).2 = Some d' →
      step (d, c, w) LStop (d', c, w).

Inductive run : sys → list label → sys → Prop :=
  | run_nil σ : run σ [] σ
  | run_cons σ l σ' tr σ'' : step σ l σ' → run σ' tr σ'' → run σ (l :: tr) σ''.

(** The sequence numbers handed out along a run, in order. *)
Definition fill_seqs (tr : list label) : list Z :=
  omap (λ l, match l with LFill _ s => Some s | _ => None end) tr.

Lemma sample_worker_fill_inv d c i data_info d' c' :
  sample_worker_fill d c i data_info = Some (d', c') →
  c' = u64 (c + 1) ∧ filled (xfer d') i c.
Proof.
  unfold sample_worker_fill.
  destruct (xfer d !! i) as [x|] eqn:Hx; [|done]. cbn [mbind option_bind].
  destruct (user_data x); [|done]. cbn [mbind option_bind].
  match goal with |- (?m ≫= _) = _ → _ => destruct m as [out|]; [|done] end.
  cbn [mbind option_bind]. intros [= <- <-]. split; [done|].
  eexists. split; [cbn [xfer set_xfer]; apply list_lookup_insert_eq;
                   by apply lookup_lt_Some in Hx|reflexivity].
Qed.

Lemma run_fill_seqs σ tr σ' :
  run σ tr σ' →
  0 ≤ σ.1.2 → σ.1.2 + Z.of_nat (length (fill_seqs tr)) ≤ 2 ^ 64 →
  fill_seqs tr = seqZ σ.1.2 (Z.of_nat (length (fill_seqs tr))).
Proof.
  induction 1 as [σ|σ l σ' tr σ'' Hstep Hrun IH]; intros Hc Hlen; [done|].
  destruct Hstep as [d c w i data_info d' c' _ _ Hfill|d c w _ _|d c w k st d' w' _|d c w d' _];
    cbn [fst snd] in *.
  - apply sample_worker_fill_inv in Hfill as [-> _].
    change (fill_seqs (LFill i c :: tr)) with (c :: fill_seqs tr) in *.
    cbn [length] in *. rewrite seqZ_cons by lia. f_equal.
    replace (Z.pred (Z.of_nat (S (length (fill_seqs tr)))))
      with (Z.of_nat (length (fill_seqs tr))) by lia.
    destruct (decide (c + 1 < 2 ^ 64)) as [Hsmall|Hbig].
    + unfold u64 in IH. rewrite Z.mod_small in IH by lia. apply IH; lia.
    + assert (length (fill_seqs tr) = 0%nat) as Hnil by lia.
      rewrite Hnil. apply length_zero_iff_nil in Hnil. by rewrite Hnil.
  - apply IH; done.
  - apply IH; done.
  - apply IH; done.
Qed.

(** C6. (1) Along any run of the engine that starts with the sample
    worker's counter at 0 and fills fewer than 2^64 buffers, the
    sequence numbers given out at the successive EMPTY-to-FILLED
    transitions are strictly increasing.  (2) Each such transition takes
    a transfer that is EMPTY to FILLED with that number.  (3) Whenever a
    transfer completes (status COMPLETED, engine RUNNING) and some
    transfer is FILLED, the callback submits the FILLED transfer whose
    sequence number is least, and marks it SUBMITTED. *)
Theorem fifo_order :
  (∀ d w tr d' c' w' (m n : nat) sm sn,
     run (d, 0, w) tr (d', c', w') →
     Z.of_nat (length (fill_seqs tr)) ≤ 2 ^ 64 →
     (m < n)%nat → fill_seqs tr !! m = Some sm → fill_seqs tr !! n = Some sn →
     sm < sn)
  ∧ (∀ d c w i s d' c' w',
     step (d, c, w) (LFill i s) (d', c', w') →
     slot_state (xfer d) i = Some BUF_EMPTY ∧ filled (xfer d') i s)
  ∧ (∀ d k x w j0 s0,
     pool_wf d →
     xfer d !! k = Some x → is_Some (user_data x) →
     status x = LIBUSB_TRANSFER_COMPLETED →
     async_status d = FL2K_RUNNING →
     filled (xfer d) j0 s0 →
     ∃ j s y d' w',
       filled (xfer d) j s
       ∧ (∀ j' s', filled (xfer d) j' s' → s ≤ s')
       ∧ xfer d !! j = Some y
       ∧ _libusb_callback d k w = Some (d', w')
       ∧ submit_log w' = (j, xfer_buffer y) :: submit_log w
       ∧ (j ≠ k → slot_state (xfer d') j = Some BUF_SUBMITTED)).
Proof.
  split; [|split].
  - intros d w tr d' c' w' m n sm sn Hrun Hlen Hmn Hm Hn.
    pose proof (run_fill_seqs _ _ _ Hrun) as Hseq. cbn [fst snd] in Hseq.
    rewrite Hseq in Hm, Hn by lia.
    apply lookup_seqZ in Hm as [-> _]. apply lookup_seqZ in Hn as [-> _]. lia.
  - intros d c w i s d' c' w' Hstep. inversion Hstep as [? ? ? ? ? ? ? _ Hget Hfill| | |]; subst.
    split.
    + unfold fl2k_get_next_xfer in Hget. by eapply next_xfer_loop_empty.
    + by apply sample_worker_fill_inv in Hfill as [_ ?].
  - intros d k x w j0 s0 Hwf Hx [info Hinfo] Hst Hrun Hf0.
    destruct (get_next_filled d Hwf) as ([j|] & Hnext & Hspec).
    2:{ by apply Hspec in Hf0. }
    destruct Hspec as (s & Hf & Hmin). destruct Hf as (y & Hy & Hu).
    exists j, s, y.
    unfold _libusb_callback.
    unfold mbind at 1, M_bind at 1, lift at 1. rewrite Hx. cbn [fmap option_fmap option_map].
    unfold mbind at 1, M_bind at 1, lift at 1. rewrite Hinfo. cbn [fmap option_fmap option_map].
    rewrite (decide_True (P := status x = _)) by done.
    rewrite (decide_True (P := async_status d = _)) by done.
    unfold mbind at 1, M_bind at 1.
    unfold mbind at 1, M_bind at 1, lift at 1. rewrite Hnext. cbn [fmap option_fmap option_map].
    unfold mbind at 1, M_bind at 1, lift at 1. rewrite Hy. cbn [fmap option_fmap option_map].
    unfold mbind at 1, M_bind at 1, lift at 1. rewrite Hu. cbn [fmap option_fmap option_map].
    unfold mbind at 1, M_bind at 1, libusb_submit_transfer at 1.
    unfold mbind at 1, M_bind at 1, pthread_cond_signal at 1.
    unfold mret at 1, M_ret at 1.
    set (r := submit_ret w (length (submit_log w))).
    set (d1 := set_state k BUF_EMPTY (set_state j BUF_SUBMITTED d)).
    assert (j ≠ k → slot_state (xfer d1) j = Some BUF_SUBMITTED) as Hsub.
    { intros Hjk. unfold d1, set_state, slot_state. cbn [xfer set_xfer].
      rewrite list_lookup_alter_ne by done. rewrite list_lookup_alter_eq, Hy. cbn.
      by rewrite Hu. }
    destruct (decide (_ ∨ r = LIBUSB_ERROR_NO_DEVICE)) as [Hlost|Hok].
    + destruct (stop_tx_keeps (set_dev_lost 1 d1)) as (d' & Hd' & Hxf & _).
      rewrite Hd'. eexists _, _.
      split; [by exists y|]. split; [exact Hmin|]. split; [reflexivity|].
      split; [reflexivity|]. split; [done|].
      intros Hjk. cbn [from_option id]. rewrite Hxf. by apply Hsub.
    + eexists _, _.
      split; [by exists y|]. split; [exact Hmin|]. split; [reflexivity|].
      split; [reflexivity|]. split; [done|]. exact Hsub.
Qed.

(** ** Examples on a small pool *)

(** A running engine with one transfer on the wire and two spare ones,
    24 bytes each, in multichannel mode. *)
Definition small_pool (s0 s1 s2 : fl2k_xfer_info) : list libusb_transfer :=
  [Transfer LIBUSB_TRANSFER_COMPLETED (replicate 24 0) (Some s0);
   Transfer LIBUSB_TRANSFER_COMPLETED (replicate 24 0) (Some s1);
   Transfer LIBUSB_TRANSFER_COMPLETED (replicate 24 0) (Some s2)].

Definition small_dev (s0 s1 s2 : fl2k_xfer_info) : fl2k_dev :=
  Dev 1 3 24 (small_pool s0 s1 s2) true FL2K_RUNNING 0 FL2K_MODE_MULTICHAN 0 0%Q 0 0.

Definition quiet : world := steady_world (CtrlReply 4 [0; 0; 0; 0]).

Definition ramp : list fl2k_data_info :=
  [DataInfo 0 (Some [0; 1; 2; 3; 4; 5; 6; 7]) (Some [8; 9; 10; 11; 12; 13; 14; 15])
     (Some [16; 17; 18; 19; 20; 21; 22; 23])].

Lemma underrun_resubmits_witness :
  ∃ d' w',
    _libusb_callback
      (small_dev (XferInfo 0 BUF_SUBMITTED) (XferInfo 0 BUF_EMPTY) (XferInfo 0 BUF_EMPTY))
      0 quiet = Some (d', w')
    ∧ submit_log w' = (0%nat, replicate 24 0) :: submit_log quiet
    ∧ accepted w'
      = accepted quiet ++ (if decide (0 ≤ submit_ret quiet (length (submit_log quiet)))
                           then [(0%nat, replicate 24 0)] else [])
    ∧ xfer d' = small_pool (XferInfo 0 BUF_SUBMITTED) (XferInfo 0 BUF_EMPTY) (XferInfo 0 BUF_EMPTY)
    ∧ underflow_cnt d' = u32 (0 + 1)
    ∧ (0 ≤ 0 < 2 ^ 32 - 1 → underflow_cnt d' = 0 + 1)
    ∧ (submit_ret quiet (length (submit_log quiet)) ≠ LIBUSB_ERROR_NO_DEVICE →
         async_status d' = FL2K_RUNNING ∧ dev_lost d' = 0)
    ∧ (submit_ret quiet (length (submit_log quiet)) = LIBUSB_ERROR_NO_DEVICE →
         async_status d' = FL2K_CANCELING ∧ async_cancel d' = 1 ∧ dev_lost d' = 1).
Proof.
  apply (underrun_resubmits
           (small_dev (XferInfo 0 BUF_SUBMITTED) (XferInfo 0 BUF_EMPTY) (XferInfo 0 BUF_EMPTY))
           0 (Transfer LIBUSB_TRANSFER_COMPLETED (replicate 24 0)
                (Some (XferInfo 0 BUF_SUBMITTED))) quiet).
  - reflexivity.
  - reflexivity.
  - eexists; reflexivity.
  - reflexivity.
  - reflexivity.
  - intros j s (y & Hy & Hu).
    destruct j as [|[|[|j]]]; cbn in Hy; [| | |discriminate Hy];
      injection Hy as <-; discriminate Hu.
Defined.

(** An environment like [quiet] in which libusb refuses every
    submission with LIBUSB_ERROR_IO (-1). *)
Definition refusing : world :=
  World (λ _ _, CtrlReply 4 [0; 0; 0; 0]) [] (λ _, -1) [] 0 true (λ _, None) 0 (λ _, 0) [] [].

(** C5 (as stated) fails.  Transfer 0, the only one SUBMITTED, completes
    while the engine is RUNNING and nothing is FILLED; libusb refuses
    the resubmission.  The callback has counted the underrun, yet no
    transfer has been accepted: the endpoint is left without a
    submitted transfer, while the engine is still RUNNING, the device
    not marked lost, and transfer 0 still marked SUBMITTED. *)
Lemma underrun_refused_leaves_endpoint_idle :
  slot_state (small_pool (XferInfo 0 BUF_SUBMITTED) (XferInfo 0 BUF_EMPTY)
                (XferInfo 0 BUF_EMPTY)) <$> [0; 1; 2]%nat
  = [Some BUF_SUBMITTED; Some BUF_EMPTY; Some BUF_EMPTY]
  ∧ (λ x : fl2k_dev * world,
       (accepted x.2, submit_log x.2, submit_ret x.2 0%nat, underflow_cnt x.1,
        async_status x.1, dev_lost x.1, slot_state (xfer x.1) <$> [0; 1; 2]%nat))
      <$> _libusb_callback
            (small_dev (XferInfo 0 BUF_SUBMITTED) (XferInfo 0 BUF_EMPTY) (XferInfo 0 BUF_EMPTY))
            0 refusing
    = Some ([], [(0%nat, replicate 24 0)], -1, 1, FL2K_RUNNING, 0,
            [Some BUF_SUBMITTED; Some BUF_EMPTY; Some BUF_EMPTY]).
Proof. split; vm_compute; reflexivity. Qed.

Example underrun_evaluated :
  (λ x : fl2k_dev * world,
     (underflow_cnt x.1, async_status x.1, submit_log x.2, stderr x.2, cond_signals x.2))
    <$> _libusb_callback
          (small_dev (XferInfo 0 BUF_SUBMITTED) (XferInfo 0 BUF_EMPTY) (XferInfo 0 BUF_EMPTY))
          0 quiet
  = Some (1, FL2K_RUNNING, [(0%nat, replicate 24 0)], [Resubmitted], 1%nat).
Proof. vm_compute. reflexivity. Qed.

(** Two transfers are FILLED, the later slot with the older data: the
    callback submits slot 2 (sequence number 3), not slot 1 (5). *)
Example callback_takes_oldest :
  (λ x : fl2k_dev * world,
     (slot_state (xfer x.1) 0, slot_state (xfer x.1) 1, slot_state (xfer x.1) 2,
      fst <$> submit_log x.2))
    <$> _libusb_callback
          (small_dev (XferInfo 0 BUF_SUBMITTED) (XferInfo 5 BUF_FILLED) (XferInfo 3 BUF_FILLED))
          0 quiet
  = Some (Some BUF_EMPTY, Some BUF_FILLED, Some BUF_SUBMITTED, [2%nat]).
Proof. vm_compute. reflexivity. Qed.

Lemma two_fills :
  ∃ σ, run (small_dev (XferInfo 0 BUF_SUBMITTED) (XferInfo 0 BUF_EMPTY) (XferInfo 0 BUF_EMPTY),
            0, quiet)
           [LFill 1 0; LFill 2 1] σ.
Proof.
  eexists. eapply run_cons.
  { eapply (step_fill _ _ _ _ ramp); [reflexivity|reflexivity|]. vm_compute. reflexivity. }
  eapply run_cons.
  { eapply (step_fill _ _ _ _ ramp); [reflexivity|reflexivity|]. vm_compute. reflexivity. }
  apply run_nil.
Defined.

Lemma fifo_order_witness :
  0 < 1
  ∧ ∃ j s y d' w',
      filled (small_pool (XferInfo 0 BUF_SUBMITTED) (XferInfo 5 BUF_FILLED) (XferInfo 3 BUF_FILLED)) j s
      ∧ (∀ j' s',
           filled (small_pool (XferInfo 0 BUF_SUBMITTED) (XferInfo 5 BUF_FILLED)
                     (XferInfo 3 BUF_FILLED)) j' s' → s ≤ s')
      ∧ small_pool (XferInfo 0 BUF_SUBMITTED) (XferInfo 5 BUF_FILLED) (XferInfo 3 BUF_FILLED) !! j
        = Some y
      ∧ _libusb_callback
          (small_dev (XferInfo 0 BUF_SUBMITTED) (XferInfo 5 BUF_FILLED) (XferInfo 3 BUF_FILLED))
          0 quiet = Some (d', w')
      ∧ submit_log w' = (j, xfer_buffer y) :: submit_log quiet
      ∧ (j ≠ 0%nat → slot_state (xfer d') j = Some BUF_SUBMITTED).
Proof.
  split.
  - destruct two_fills as [[[d' c'] w'] Hrun].
    apply (proj1 fifo_order _ _ _ d' c' w' 0%nat 1%nat 0 1 Hrun).
    + vm_compute. discriminate.
    + lia.
    + reflexivity.
    + reflexivity.
  - apply (proj2 (proj2 fifo_order)
             (small_dev (XferInfo 0 BUF_SUBMITTED) (XferInfo 5 BUF_FILLED) (XferInfo 3 BUF_FILLED))
             0%nat (Transfer LIBUSB_TRANSFER_COMPLETED (replicate 24 0)
                      (Some (XferInfo 0 BUF_SUBMITTED))) quiet 1%nat 5).
    + reflexivity.
    + reflexivity.
    + eexists; reflexivity.
    + reflexivity.
    + reflexivity.
    + eexists. split; reflexivity.
Defined.

(** ** Starting a session *)

(** [fl2k_start_tx] does not read the status it overwrites: whatever the
    status of the handle, the call does the same. *)
Lemma start_tx_ignores_status d s buf_num w :
  fl2k_start_tx (Some (set_async_status s d)) true buf_num w
  = fl2k_start_tx (Some d) true buf_num w.
Proof. reflexivity. Qed.

(** C4 (the code departs from the claim).  On a handle that is already
    RUNNING (here: right after a first successful [fl2k_start_tx]), a
    second [fl2k_start_tx] returns 0 rather than FL2K_ERROR_BUSY, and it
    does start a session: it submits four more transfers from a fresh
    pool and creates both worker threads again.  The same happens on a
    handle that is CANCELING. *)
Theorem start_tx_while_running :
  (λ x : Z * option fl2k_dev * world,
     (x.1.1, async_status <$> x.1.2, threads x.2, length (submit_log x.2)))
    <$> fl2k_start_tx (Some opened_dev) true 0 quiet
  = Some (0, Some FL2K_RUNNING, [fl2k_sample_worker; fl2k_usb_worker], 4%nat)
  ∧ (λ x : Z * option fl2k_dev * world,
       (x.1.1, async_status <$> x.1.2, threads x.2, length (submit_log x.2)))
      <$> (x ← fl2k_start_tx (Some opened_dev) true 0;
           fl2k_start_tx x.2 true 0) quiet
    = Some (0, Some FL2K_RUNNING,
            [fl2k_sample_worker; fl2k_usb_worker; fl2k_sample_worker; fl2k_usb_worker],
            8%nat)
  ∧ (λ x : Z * option fl2k_dev * world, (x.1.1, threads x.2, length (submit_log x.2)))
      <$> fl2k_start_tx (Some (set_async_status FL2K_CANCELING opened_dev)) true 0 quiet
    = Some (0, [fl2k_sample_worker; fl2k_usb_worker], 4%nat).
Proof. repeat split; reflexivity. Qed.

End Pool.

(** * Mode control, evaluated *)

Module ModeExamples.

(** Switching an idle handle to single-channel mode: one read of
    register 0x8004, 256 palette writes, 256 verifications (a write of
    the read pointer and a read each), and the write of 0x8004 with bits
    25 and 26 set; the handle then holds the new mode. *)
Example set_mode_singlechan :
  (λ x : Z * option fl2k_dev * world,
     (x.1.1, mode <$> x.1.2, length (ctrl_log x.2), head (ctrl_log x.2)))
    <$> fl2k_set_mode (Some opened_dev) FL2K_MODE_SINGLECHAN
          (steady_world (CtrlReply 4 [0; 0; 0; 0]))
  = Some (FL2K_SUCCESS, Some FL2K_MODE_SINGLECHAN, 770%nat,
          Some (Pll.write_request 0x8004 0x06000000)).
Proof. vm_compute. reflexivity. Qed.

(** The same request while streaming touches nothing. *)
Example set_mode_while_running :
  (λ x : Z * option fl2k_dev * world,
     (x.1.1, mode <$> x.1.2, length (ctrl_log x.2)))
    <$> fl2k_set_mode (Some (set_async_status FL2K_RUNNING opened_dev)) FL2K_MODE_SINGLECHAN
          (steady_world (CtrlReply 4 [0; 0; 0; 0]))
  = Some (FL2K_ERROR_BUSY, Some FL2K_MODE_MULTICHAN, 0%nat).
Proof. vm_compute. reflexivity. Qed.

End ModeExamples.

(** * Control transfers, in general *)

Module Ctrl.

(** The world after the control transfers [reqs] and the messages
    [msgs] (both most recent first). *)
Definition sent (reqs : list ctrl_request) (msgs : list diag) (w : world) : world :=
  World (bus w) (reqs ++ ctrl_log w) (submit_ret w) (submit_log w) (cond_signals w)
        (malloc_ok w) (dev_mem_alloc_ret w) (dev_mem_allocs w) (pthread_create_ret w) (threads w)
        (msgs ++ stderr w).

(** The request of a register read, and the nth outcome of it. *)
Definition read_request (reg : Z) : ctrl_request :=
  CtrlRequest CTRL_IN 0x40 0 reg [] 4 CTRL_TIMEOUT.

(** The word [fl2k_read_reg] assembles from the data buffer. *)
Definition le32 (data : list Z) : Z :=
  u32 (Z.lor (Z.lor (Z.lor (Z.shiftl (u8 (data !!! 3%nat)) 24)
                           (Z.shiftl (u8 (data !!! 2%nat)) 16))
                    (Z.shiftl (u8 (data !!! 1%nat)) 8))
             (u8 (data !!! 0%nat))).

Lemma sent_nil w : sent [] [] w = w.
Proof. by destruct w. Qed.

Lemma sent_sent l2 m2 l1 m1 w :
  sent l2 m2 (sent l1 m1 w) = sent (l2 ++ l1) (m2 ++ m1) w.
Proof. unfold sent. cbn. by rewrite !app_assoc. Qed.

Lemma bus_sent l m w : bus (sent l m w) = bus w.
Proof. reflexivity. Qed.

Lemma ctrl_log_sent l m w : ctrl_log (sent l m w) = l ++ ctrl_log w.
Proof. reflexivity. Qed.

Lemma bind_run {A B} (m : M A) (f : A → M B) w :
  (m ≫= f) w = match m w with Some (a, w') => f a w' | None => None end.
Proof. reflexivity. Qed.

Lemma ret_run {A} (a : A) w : (mret a : M A) w = Some (a, w).
Proof. reflexivity. Qed.

Lemma lift_run {A} (a : A) w : lift (Some a) w = Some (a, w).
Proof. reflexivity. Qed.

Lemma write_reg_sent d reg val w :
  fl2k_write_reg (Some d) reg val w
  = Some (if decide (u32 (ctrl_ret (bus w (length (ctrl_log w)) (Pll.write_request reg val))) ≠ 4)
          then FL2K_ERROR_OTHER else FL2K_SUCCESS,
          sent [Pll.write_request reg val] [] w).
Proof.
  unfold fl2k_write_reg. rewrite bind_run. unfold libusb_control_transfer.
  fold (Pll.write_request reg val).
  by destruct (decide _).
Qed.

Lemma read_reg_sent d reg v w :
  fl2k_read_reg (Some d) reg (Some v) w
  = Some (let rep := bus w (length (ctrl_log w)) (read_request reg) in
          if decide (u32 (ctrl_ret rep) < 4)
          then ((FL2K_ERROR_OTHER, Some v), sent [read_request reg] [ShortRead] w)
          else ((FL2K_SUCCESS, Some (le32 (data_in rep))), sent [read_request reg] [] w)).
Proof.
  unfold fl2k_read_reg. rewrite bind_run. unfold libusb_control_transfer.
  fold (read_request reg). cbv zeta.
  by destruct (decide _).
Qed.

End Ctrl.

(** * Bytes and bits of register words *)

Module Bits.

Import Ctrl.

Lemma u8_land_ff x : u8 (Z.land x 0xff) = Z.land x 0xff.
Proof.
  unfold u8. change 0xff with (Z.ones 8). rewrite Z.land_ones by lia.
  by rewrite Z.mod_mod.
Qed.

Lemma testbit_ff n : 0 ≤ n → Z.testbit 0xff n = bool_decide (n < 8).
Proof.
  intros. change 0xff with (Z.ones 8). rewrite Z.testbit_ones_nonneg by lia.
  case_bool_decide; lia.
Qed.

(** Bit [n] of the byte of [x] at bit position [k], put back in place. *)
Lemma testbit_byte_at x k n :
  0 ≤ k → 0 ≤ n →
  Z.testbit (Z.shiftl (Z.land (Z.shiftr x k) 0xff) k) n
  = Z.testbit x n && bool_decide (k ≤ n < k + 8).
Proof.
  intros Hk Hn. rewrite Z.shiftl_spec by done.
  destruct (decide (k ≤ n)) as [Hkn|Hkn].
  - rewrite Z.land_spec, Z.shiftr_spec, testbit_ff by lia.
    replace (n - k + k) with n by lia.
    f_equal. repeat case_bool_decide; lia.
  - rewrite Z.testbit_neg_r by lia.
    rewrite bool_decide_eq_false_2 by lia. by rewrite andb_false_r.
Qed.

Lemma le32_write_data reg val :
  le32 (data_out (Pll.write_request reg val)) = u32 val.
Proof.
  unfold le32, Pll.write_request. cbn [data_out lookup_total list_lookup_total].
  rewrite !u8_land_ff.
  set (x := Z.lor _ _).
  assert (x = val mod 2 ^ 32) as ->; [|unfold u32; by rewrite Z.mod_mod].
  subst x. rewrite <- Z.land_ones by lia.
  apply Z.bits_inj'. intros n Hn.
  rewrite !Z.lor_spec, !testbit_byte_at by lia.
  rewrite !Z.land_spec, testbit_ff, Z.testbit_ones_nonneg by lia.
  destruct (Z.testbit val n); cbn [andb orb];
    repeat case_bool_decide; destruct (Z.ltb_spec n 32); (reflexivity || lia).
Qed.

End Bits.

Module RegRoundTrip.

Import Ctrl Bits.

(** X1. Round trip of a register value.  [fl2k_write_reg] sends a 32-bit
    value as four bytes, least significant first; if the device returns
    these four bytes to the read that follows, [fl2k_read_reg] yields the
    value that was written, and both calls succeed. *)
Theorem write_then_read_reg (d : fl2k_dev) (reg val v0 : Z) (w : world) :
  0 ≤ val < 2 ^ 32 →
  ctrl_ret (bus w (length (ctrl_log w)) (Pll.write_request reg val)) = 4 →
  bus w (S (length (ctrl_log w))) (read_request reg)
  = CtrlReply 4 (data_out (Pll.write_request reg val)) →
  (r ← fl2k_write_reg (Some d) reg val;
   x ← fl2k_read_reg (Some d) reg (Some v0);
   mret (r, x)) w
  = Some ((FL2K_SUCCESS, (FL2K_SUCCESS, Some val)),
          sent [read_request reg; Pll.write_request reg val] [] w).
Proof.
  intros Hval Hw Hr.
  rewrite bind_run, write_reg_sent, Hw.
  rewrite bind_run, read_reg_sent. cbv zeta.
  rewrite bus_sent, ctrl_log_sent. cbn [app length].
  rewrite Hr. cbn [ctrl_ret data_in].
  rewrite le32_write_data.
  replace (u32 val) with val by (unfold u32; rewrite Z.mod_small; lia).
  rewrite sent_sent. reflexivity.
Qed.

(** A device that answers every transfer with the four bytes last
    written to the register. *)
Definition echoing (reg val : Z) : world :=
  steady_world (CtrlReply 4 (data_out (Pll.write_request reg val))).

Lemma write_then_read_reg_witness :
  (r ← fl2k_write_reg (Some opened_dev) 0x8004 0x12345678;
   x ← fl2k_read_reg (Some opened_dev) 0x8004 (Some 0);
   mret (r, x)) (echoing 0x8004 0x12345678)
  = Some ((FL2K_SUCCESS, (FL2K_SUCCESS, Some 0x12345678)),
          sent [read_request 0x8004; Pll.write_request 0x8004 0x12345678] []
               (echoing 0x8004 0x12345678)).
Proof.
  apply (write_then_read_reg opened_dev 0x8004 0x12345678 0 (echoing 0x8004 0x12345678)).
  - lia.
  - reflexivity.
  - reflexivity.
Defined.

End RegRoundTrip.

Module I2c.

Import Ctrl Bits.

Definition status_reg : Z := 0x8020.

(** The word the [i]-th control transfer from now delivers when it is
    a read of the I2C status register. *)
Definition status_at (w : world) (i : nat) : Z :=
  le32 (data_in (bus w (length (ctrl_log w) + i)%nat (read_request 0x8020))).

Definition done (v : Z) : Prop := Z.land v (Z.shiftl 1 31) ≠ 0.

Global Instance done_dec v : Decision (done v).
Proof. unfold done. apply _. Defined.

Lemma list_find_cons {A} (P : A → Prop) `{∀ x, Decision (P x)} x l :
  list_find P (x :: l)
  = if decide (P x) then Some (0%nat, x) else prod_map S id <$> list_find P l.
Proof. reflexivity. Qed.

Lemma i2c_poll_find d n reg w :
  (∀ k req, ctrl_ret (bus w k req) = 4) →
  ∃ p w' k,
    i2c_poll (Some d) n reg w = Some (p, w')
    ∧ w' = sent (replicate k (read_request 0x8020)) [] w
    ∧ match list_find done (status_at w <$> seq 0 n) with
      | Some (i, v) => p = inr (0, v) ∧ k = S i
      | None => (∃ reg', p = inr (1, reg')) ∧ k = n
      end.
Proof.
  intros Hbus. revert reg w Hbus. induction n as [|n IH]; intros reg w Hbus.
  { exists (inr (1, reg)), w, 0%nat. cbn. rewrite sent_nil. eauto. }
  cbn [i2c_poll]. rewrite bind_run, read_reg_sent. cbv zeta.
  rewrite Hbus. rewrite decide_False by (vm_compute; discriminate).
  cbn [default from_option id]. rewrite decide_False by (vm_compute; discriminate).
  cbn [seq fmap list_fmap]. rewrite list_find_cons.
  replace (status_at w 0) with (le32 (data_in (bus w (length (ctrl_log w)) (read_request 32800))))
    by (unfold status_at; by rewrite Nat.add_0_r).
  set (v := le32 _).
  fold (done v). destruct (decide (done v)) as [Hd|Hd].
  - eexists _, _, 1%nat. split; [reflexivity|]. split; [reflexivity|]. done.
  - destruct (IH v (sent [read_request 0x8020] [] w)) as (p & w' & k & Hrun & Hw' & Hspec).
    { intros ??. rewrite bus_sent. apply Hbus. }
    exists p, w', (S k). split; [exact Hrun|]. split.
    { subst w'. rewrite sent_sent. cbn [replicate].
      by rewrite <- replicate_cons_app. }
    rewrite <- fmap_S_seq, <- list_fmap_compose.
    rewrite (list_fmap_ext (status_at w ∘ S) (status_at (sent [read_request 32800] [] w))).
    2:{ intros _ i _. unfold status_at, compose.
        rewrite bus_sent, ctrl_log_sent. cbn [app length]. do 3 f_equal. lia. }
    destruct (list_find done _) as [[i v']|]; cbn.
    + destruct Hspec as [-> ->]. done.
    + destruct Hspec as [Hp ->]. done.
Qed.

Lemma status_at_sent l m w (j n : nat) :
  status_at (sent l m w) <$> seq j n = status_at w <$> seq (length l + j) n.
Proof.
  rewrite <- fmap_add_seq, <- list_fmap_compose. apply list_fmap_ext.
  intros _ i _. unfold status_at, compose. rewrite bus_sent, ctrl_log_sent, length_app.
  do 3 f_equal. lia.
Qed.

(** X2. [fl2k_i2c_write], while its control transfers complete: it sends the
    data, reads the status register, writes the command, then polls the
    status register at most 10 times.  It returns FL2K_ERROR_TIMEOUT when no
    poll shows bit 31, FL2K_ERROR_NOT_FOUND when the first poll that shows
    it also shows one of the bits 24 to 27, and FL2K_SUCCESS otherwise; it
    issues 3 transfers and one per poll, and prints nothing. *)
Theorem i2c_write_outcome (d : fl2k_dev) (i2c_addr reg_addr : Z) (data : list Z) (w : world) :
  (∀ k req, ctrl_ret (bus w k req) = 4) →
  ∃ w',
    fl2k_i2c_write (Some d) i2c_addr reg_addr data w
    = Some (match list_find done (status_at w <$> seq 3 10) with
            | None => FL2K_ERROR_TIMEOUT
            | Some (_, v) =>
                if decide (Z.land v (Z.shiftl 0x0f 24) ≠ 0)
                then FL2K_ERROR_NOT_FOUND else FL2K_SUCCESS
            end, w')
    ∧ length (ctrl_log w')
      = (length (ctrl_log w) + 3
         + match list_find done (status_at w <$> seq 3 10) with
           | None => 10
           | Some (i, _) => S i
           end)%nat
    ∧ stderr w' = stderr w.
Proof.
  intros Hbus. unfold fl2k_i2c_write.
  rewrite bind_run. unfold libusb_control_transfer at 1.
  set (q0 := CtrlRequest CTRL_OUT 65 0 32808 data 4 CTRL_TIMEOUT).
  change (World _ _ _ _ _ _ _ _ _ _ _) with (sent [q0] [] w).
  rewrite Hbus. rewrite decide_False by lia.
  rewrite bind_run, read_reg_sent. cbv zeta. rewrite bus_sent, Hbus.
  rewrite decide_False by (vm_compute; discriminate).
  rewrite decide_False by (vm_compute; discriminate).
  cbn [default from_option id]. rewrite sent_sent.
  rewrite bind_run, write_reg_sent, bus_sent, Hbus.
  rewrite (decide_False (P := u32 4 ≠ 4)) by (intros H; apply H; reflexivity).
  rewrite decide_False by (vm_compute; discriminate).
  rewrite sent_sent. cbn [app]. rewrite bind_run.
  match goal with |- context [i2c_poll _ _ ?reg ?w3] =>
    destruct (i2c_poll_find d 10 reg w3) as (p & w' & k & Hrun & Hw' & Hspec);
      [intros ??; rewrite bus_sent; apply Hbus|];
    rewrite status_at_sent in Hspec; cbn [length Nat.add] in Hspec
  end.
  rewrite Hrun. exists w'.
  assert (length (ctrl_log w') = (length (ctrl_log w) + 3 + k)%nat ∧ stderr w' = stderr w)
    as [Hlen Herr].
  { subst w'. rewrite !ctrl_log_sent, !length_app, length_replicate. cbn [length]. split; [lia|done]. }
  rewrite Hlen.
  destruct (list_find done _) as [[i v]|].
  - destruct Hspec as [-> ->]. rewrite (decide_False (P := 0 ≠ 0)) by (intros H; apply H; reflexivity).
    split; [|done]. by destruct (decide _).
  - destruct Hspec as [[reg' ->] ->].
    rewrite decide_True by done. done.
Qed.

(** A device whose every register reads 0x80000000: operation
    completed, no error bits. *)
Definition completed : world := steady_world (CtrlReply 4 [0; 0; 0; 0x80]).

Lemma i2c_write_outcome_witness :
  ∃ w',
    fl2k_i2c_write (Some opened_dev) 0x50 0 [1; 2; 3; 4]
      completed
    = Some (match list_find done (status_at completed <$> seq 3 10) with
            | None => FL2K_ERROR_TIMEOUT
            | Some (_, v) =>
                if decide (Z.land v (Z.shiftl 0x0f 24) ≠ 0)
                then FL2K_ERROR_NOT_FOUND else FL2K_SUCCESS
            end, w')
    ∧ length (ctrl_log w')
      = (length (ctrl_log completed) + 3
         + match list_find done (status_at completed <$> seq 3 10) with
           | None => 10
           | Some (i, _) => S i
           end)%nat
    ∧ stderr w' = stderr completed.
Proof.
  apply (i2c_write_outcome opened_dev 0x50 0 [1; 2; 3; 4]
           completed).
  intros k req. reflexivity.
Defined.

(** X3. [fl2k_i2c_read], while its control transfers complete: FL2K_ERROR_TIMEOUT
    when none of the 10 polls shows bit 31, FL2K_ERROR_NOT_FOUND when the
    first poll that shows it also shows one of the bits 24 to 27; in both
    cases the caller's buffer is untouched.  Otherwise it reads register
    0x8024 into the first four bytes of the buffer and returns the byte
    count of that transfer, 4, not FL2K_SUCCESS. *)
Theorem i2c_read_outcome (d : fl2k_dev) (i2c_addr reg_addr : Z) (data : list Z) (w : world) :
  (∀ k req, ctrl_ret (bus w k req) = 4) →
  ∃ w',
    fl2k_i2c_read (Some d) i2c_addr reg_addr data w
    = Some (match list_find done (status_at w <$> seq 2 10) with
            | None => (FL2K_ERROR_TIMEOUT, data)
            | Some (i, v) =>
                if decide (Z.land v (Z.shiftl 0x0f 24) ≠ 0)
                then (FL2K_ERROR_NOT_FOUND, data)
                else (4, take 4 (data_in (bus w (length (ctrl_log w) + 3 + i)%nat
                                            (read_request 0x8024)))
                         ++ drop 4 data)
            end, w')
    ∧ stderr w' = stderr w.
Proof.
  intros Hbus. unfold fl2k_i2c_read.
  rewrite bind_run, read_reg_sent. cbv zeta. rewrite Hbus.
  rewrite decide_False by (vm_compute; discriminate).
  rewrite decide_False by (vm_compute; discriminate).
  cbn [default from_option id].
  rewrite bind_run, write_reg_sent, bus_sent, Hbus.
  rewrite (decide_False (P := u32 4 ≠ 4)) by (intros H; apply H; reflexivity).
  rewrite decide_False by (vm_compute; discriminate).
  rewrite sent_sent. cbn [app]. rewrite bind_run.
  match goal with |- context [i2c_poll _ _ ?reg ?w3] =>
    destruct (i2c_poll_find d 10 reg w3) as (p & w' & k & Hrun & Hw' & Hspec);
      [intros ??; rewrite bus_sent; apply Hbus|];
    rewrite status_at_sent in Hspec; cbn [length Nat.add] in Hspec
  end.
  rewrite Hrun.
  destruct (list_find done _) as [[i v]|].
  - destruct Hspec as [-> ->]. rewrite (decide_False (P := 0 ≠ 0)) by (intros H; apply H; reflexivity).
    destruct (decide (Z.land v _ ≠ 0)).
    + eexists. split; [reflexivity|]. by subst w'.
    + rewrite bind_run. unfold libusb_control_transfer.
      fold (read_request 0x8024). subst w'.
      rewrite !sent_sent, bus_sent, ctrl_log_sent, !length_app, length_replicate.
      cbn [length]. rewrite ret_run, Hbus. change (Z.to_nat 4) with 4%nat.
      match goal with |- ∃ _, Some (_, ?W) = _ ∧ _ => exists W end.
      split; [|reflexivity]. do 7 f_equal. lia.
  - destruct Hspec as [[reg' ->] ->].
    rewrite decide_True by done. eexists. split; [reflexivity|]. by subst w'.
Qed.

Lemma i2c_read_outcome_witness :
  ∃ w',
    fl2k_i2c_read (Some opened_dev) 0x50 0 [9; 9; 9; 9; 9] completed
    = Some (match list_find done (status_at completed <$> seq 2 10) with
            | None => (FL2K_ERROR_TIMEOUT, [9; 9; 9; 9; 9])
            | Some (i, v) =>
                if decide (Z.land v (Z.shiftl 0x0f 24) ≠ 0)
                then (FL2K_ERROR_NOT_FOUND, [9; 9; 9; 9; 9])
                else (4, take 4 (data_in (bus completed
                                            (length (ctrl_log completed) + 3 + i)%nat
                                            (read_request 0x8024)))
                         ++ drop 4 [9; 9; 9; 9; 9])
            end, w')
    ∧ stderr w' = stderr completed.
Proof.
  apply (i2c_read_outcome opened_dev 0x50 0 [9; 9; 9; 9; 9] completed).
  intros k req. reflexivity.
Defined.

(** On such a device the read succeeds at the first poll, returns 4
    and overwrites the first four bytes of the caller's buffer; a
    status register that stays 0 gives a timeout. *)
Example i2c_read_completed :
  fst <$> fl2k_i2c_read (Some opened_dev) 0x50 0 [9; 9; 9; 9; 9] completed
  = Some (4, [0; 0; 0; 0x80; 9])
  ∧ fst <$> fl2k_i2c_read (Some opened_dev) 0x50 0 [9; 9; 9; 9; 9] Pool.quiet
    = Some (FL2K_ERROR_TIMEOUT, [9; 9; 9; 9; 9]).
Proof. split; vm_compute; reflexivity. Qed.

End I2c.

Module I2cWord.

Import Ctrl Bits.

(** The command words the two operations write to register 0x8020, [v]
    being the value read from it before. *)
Definition read_command (v reg_addr i2c_addr : Z) : Z :=
  Z.lor (Z.land v 0x3ffc0000)
        (Z.lor (Z.lor (Z.lor (Z.shiftl 1 28) (Z.shiftl reg_addr 8)) (Z.shiftl 1 7))
               (Z.land i2c_addr 0x7f)).

Definition write_command (v reg_addr i2c_addr : Z) : Z :=
  Z.lor (Z.land v 0x3ffc0000)
        (Z.lor (Z.lor (Z.shiftl 1 28) (Z.shiftl reg_addr 8)) (Z.land i2c_addr 0x7f)).

Lemma testbit_below (x k n : Z) :
  0 ≤ x < 2 ^ k → 0 ≤ k ≤ n → Z.testbit x n = false.
Proof.
  intros Hx Hk. rewrite <- (Z.mod_small x (2 ^ k)) by done.
  apply Z.mod_pow2_bits_high. lia.
Qed.

Lemma testbit_pow2 (k n : Z) : 0 ≤ k → Z.testbit (Z.shiftl 1 k) n = bool_decide (n = k).
Proof.
  intros Hk. rewrite Z.shiftl_1_l, Z.pow2_bits_eqb by done.
  case_bool_decide; [apply Z.eqb_eq|apply Z.eqb_neq]; lia.
Qed.

Lemma testbit_mask (n : Z) : 0 ≤ n → Z.testbit 0x3ffc0000 n = bool_decide (18 ≤ n < 30).
Proof.
  intros Hn. change 0x3ffc0000 with (Z.shiftl (Z.ones 12) 18).
  rewrite Z.shiftl_spec by done.
  destruct (decide (18 ≤ n)).
  - rewrite Z.testbit_ones_nonneg by lia. case_bool_decide; lia.
  - rewrite Z.testbit_neg_r by lia. by rewrite bool_decide_eq_false_2 by lia.
Qed.

Lemma testbit_7f (n : Z) : 0 ≤ n → Z.testbit 0x7f n = bool_decide (n < 7).
Proof.
  intros. change 0x7f with (Z.ones 7). rewrite Z.testbit_ones_nonneg by lia.
  case_bool_decide; lia.
Qed.

Lemma testbit_reg_addr (reg_addr n : Z) :
  0 ≤ reg_addr < 256 → 0 ≤ n →
  Z.testbit (Z.shiftl reg_addr 8) n
  = bool_decide (8 ≤ n < 16) && Z.testbit reg_addr (n - 8).
Proof.
  intros Hr Hn. rewrite Z.shiftl_spec by done.
  destruct (decide (8 ≤ n)); [destruct (decide (n < 16))|].
  - by rewrite bool_decide_eq_true_2 by lia.
  - rewrite (testbit_below reg_addr 8) by lia.
    by rewrite bool_decide_eq_false_2 by lia.
  - rewrite Z.testbit_neg_r by lia. by rewrite bool_decide_eq_false_2 by lia.
Qed.

Lemma testbit_read_command v reg_addr i2c_addr n :
  0 ≤ reg_addr < 256 → 0 ≤ n →
  Z.testbit (read_command v reg_addr i2c_addr) n
  = (Z.testbit v n && bool_decide (18 ≤ n < 30))
    || (bool_decide (n = 28) || (bool_decide (8 ≤ n < 16) && Z.testbit reg_addr (n - 8))
        || bool_decide (n = 7))
    || (Z.testbit i2c_addr n && bool_decide (n < 7)).
Proof.
  intros Hr Hn. unfold read_command.
  rewrite !Z.lor_spec, !Z.land_spec, !testbit_pow2, testbit_mask, testbit_7f,
    testbit_reg_addr by lia.
  by rewrite <- !orb_assoc.
Qed.

Lemma testbit_write_command v reg_addr i2c_addr n :
  0 ≤ reg_addr < 256 → 0 ≤ n →
  Z.testbit (write_command v reg_addr i2c_addr) n
  = (Z.testbit v n && bool_decide (18 ≤ n < 30))
    || (bool_decide (n = 28) || (bool_decide (8 ≤ n < 16) && Z.testbit reg_addr (n - 8)))
    || (Z.testbit i2c_addr n && bool_decide (n < 7)).
Proof.
  intros Hr Hn. unfold write_command.
  rewrite !Z.lor_spec, !Z.land_spec, !testbit_pow2, testbit_mask, testbit_7f,
    testbit_reg_addr by lia.
  by rewrite <- !orb_assoc.
Qed.

Ltac bool_cases :=
  repeat case_bool_decide; try lia;
  rewrite ?andb_true_r, ?andb_false_r, ?orb_false_r, ?orb_false_l, ?orb_true_r,
    ?andb_true_l, ?andb_false_l;
  try reflexivity.

(** The fields of a command word. *)
Definition command_fields (cmd v reg_addr i2c_addr : Z) (read : bool) : Prop :=
  Z.land cmd 0x7f = Z.land i2c_addr 0x7f
  ∧ Z.testbit cmd 7 = read
  ∧ Z.land (Z.shiftr cmd 8) 0xff = reg_addr
  ∧ Z.testbit cmd 16 = false ∧ Z.testbit cmd 17 = false
  ∧ Z.testbit cmd 28 = true
  ∧ Z.testbit cmd 30 = false ∧ Z.testbit cmd 31 = false
  ∧ (∀ n, 18 ≤ n < 30 → n ≠ 28 → Z.testbit cmd n = Z.testbit v n)
  ∧ 0 ≤ cmd < 2 ^ 30.

Lemma nonneg_bounded (x k : Z) :
  0 ≤ k → (∀ n, k ≤ n → Z.testbit x n = false) → 0 ≤ x < 2 ^ k.
Proof.
  intros Hk Hbits.
  assert (x = x mod 2 ^ k) as ->; [|apply Z.mod_pos_bound; by apply Z.pow_pos_nonneg].
  apply Z.bits_inj'. intros n Hn.
  destruct (decide (n < k)).
  - by rewrite Z.mod_pow2_bits_low.
  - rewrite Z.mod_pow2_bits_high by lia. apply Hbits. lia.
Qed.

Lemma read_command_fields v reg_addr i2c_addr :
  0 ≤ reg_addr < 256 →
  command_fields (read_command v reg_addr i2c_addr) v reg_addr i2c_addr true.
Proof.
  intros Hr. unfold command_fields.
  split; [|split; [|split; [|split; [|split; [|split; [|split; [|split; [|split]]]]]]]].
  - apply Z.bits_inj'. intros n Hn.
    rewrite !Z.land_spec, testbit_read_command, testbit_7f by lia.
    destruct (Z.testbit v n), (Z.testbit i2c_addr n); bool_cases.
  - rewrite testbit_read_command by lia. bool_cases.
  - apply Z.bits_inj'. intros n Hn.
    rewrite Z.land_spec, Z.shiftr_spec, testbit_read_command, testbit_ff by lia.
    replace (n + 8 - 8) with n by lia.
    destruct (decide (n < 8)).
    + destruct (Z.testbit v (n + 8)), (Z.testbit i2c_addr (n + 8)); bool_cases.
    + rewrite (testbit_below reg_addr 8 n) by lia.
      rewrite (bool_decide_eq_false_2 (n < 8)) by lia. by rewrite andb_false_r.
  - rewrite testbit_read_command by lia. bool_cases.
  - rewrite testbit_read_command by lia. bool_cases.
  - rewrite testbit_read_command by lia. bool_cases.
  - rewrite testbit_read_command by lia. bool_cases.
  - rewrite testbit_read_command by lia. bool_cases.
  - intros n Hn Hn28. rewrite testbit_read_command by lia. bool_cases.
  - apply nonneg_bounded; [lia|]. intros n Hn.
    rewrite testbit_read_command by lia. bool_cases.
Qed.

Lemma write_command_fields v reg_addr i2c_addr :
  0 ≤ reg_addr < 256 →
  command_fields (write_command v reg_addr i2c_addr) v reg_addr i2c_addr false.
Proof.
  intros Hr. unfold command_fields.
  split; [|split; [|split; [|split; [|split; [|split; [|split; [|split; [|split]]]]]]]].
  - apply Z.bits_inj'. intros n Hn.
    rewrite !Z.land_spec, testbit_write_command, testbit_7f by lia.
    destruct (Z.testbit v n), (Z.testbit i2c_addr n); bool_cases.
  - rewrite testbit_write_command by lia. bool_cases.
  - apply Z.bits_inj'. intros n Hn.
    rewrite Z.land_spec, Z.shiftr_spec, testbit_write_command, testbit_ff by lia.
    replace (n + 8 - 8) with n by lia.
    destruct (decide (n < 8)).
    + destruct (Z.testbit v (n + 8)), (Z.testbit i2c_addr (n + 8)); bool_cases.
    + rewrite (testbit_below reg_addr 8 n) by lia.
      rewrite (bool_decide_eq_false_2 (n < 8)) by lia. by rewrite andb_false_r.
  - rewrite testbit_write_command by lia. bool_cases.
  - rewrite testbit_write_command by lia. bool_cases.
  - rewrite testbit_write_command by lia. bool_cases.
  - rewrite testbit_write_command by lia. bool_cases.
  - rewrite testbit_write_command by lia. bool_cases.
  - intros n Hn Hn28. rewrite testbit_write_command by lia. bool_cases.
  - apply nonneg_bounded; [lia|]. intros n Hn.
    rewrite testbit_write_command by lia. bool_cases.
Qed.

Lemma i2c_poll_total d n reg w :
  ∃ p k msgs,
    i2c_poll (Some d) n reg w = Some (p, sent (replicate k (read_request 0x8020)) msgs w).
Proof.
  revert reg w. induction n as [|n IH]; intros reg w.
  { exists (inr (1, reg)), 0%nat, []. cbn. by rewrite sent_nil. }
  cbn [i2c_poll]. rewrite bind_run, read_reg_sent. cbv zeta.
  destruct (decide (u32 _ < 4)).
  { rewrite decide_True by (vm_compute; reflexivity).
    by exists (inl FL2K_ERROR_OTHER), 1%nat, [ShortRead]. }
  rewrite decide_False by (vm_compute; discriminate).
  cbn [default from_option id].
  destruct (decide (Z.land _ _ ≠ 0)).
  { by eexists _, 1%nat, []. }
  match goal with |- context [i2c_poll _ _ ?r ?w1] =>
    destruct (IH r w1) as (p & k & msgs & ->) end.
  exists p, (S k), msgs. rewrite sent_sent, app_nil_r, replicate_S_end. done.
Qed.

(** X4. Both I2C operations, once the status register has been read, write
    a command word to it whose fields are as follows: the 7-bit slave
    address in bits 0 to 6, the read flag in bit 7 (set by
    [fl2k_i2c_read], clear for [fl2k_i2c_write]), the register address in
    bits 8 to 15, bit 28 set, bits 16, 17, 30 and 31 clear, and bits 18
    to 29 (other than 28) as they were read. *)
Theorem i2c_command_word (d : fl2k_dev) (i2c_addr reg_addr : Z) (data : list Z) (w : world) :
  0 ≤ reg_addr < 256 →
  (let rep := bus w (length (ctrl_log w)) (read_request 0x8020) in
   4 ≤ u32 (ctrl_ret rep) →
   ∃ res w' cmd later,
     fl2k_i2c_read (Some d) i2c_addr reg_addr data w = Some (res, w')
     ∧ ctrl_log w'
       = later ++ [Pll.write_request 0x8020 cmd; read_request 0x8020] ++ ctrl_log w
     ∧ command_fields cmd (le32 (data_in rep)) reg_addr i2c_addr true)
  ∧ (let rep := bus w (S (length (ctrl_log w))) (read_request 0x8020) in
     0 ≤ ctrl_ret (bus w (length (ctrl_log w))
                     (CtrlRequest CTRL_OUT 0x41 0 0x8028 data 4 CTRL_TIMEOUT)) →
     4 ≤ u32 (ctrl_ret rep) →
     ∃ res w' cmd later,
       fl2k_i2c_write (Some d) i2c_addr reg_addr data w = Some (res, w')
       ∧ ctrl_log w'
         = later ++ [Pll.write_request 0x8020 cmd; read_request 0x8020;
                     CtrlRequest CTRL_OUT 0x41 0 0x8028 data 4 CTRL_TIMEOUT] ++ ctrl_log w
       ∧ command_fields cmd (le32 (data_in rep)) reg_addr i2c_addr false).
Proof.
  intros Hr. split.
  - intros rep Hrep. unfold fl2k_i2c_read.
    rewrite bind_run, read_reg_sent. cbv zeta. fold rep.
    rewrite decide_False by lia.
    rewrite decide_False by (vm_compute; discriminate).
    cbn [default from_option id].
    fold (read_command (le32 (data_in rep)) reg_addr i2c_addr).
    set (cmd := read_command _ _ _).
    rewrite bind_run, write_reg_sent, sent_sent. cbn [app].
    assert (command_fields cmd (le32 (data_in rep)) reg_addr i2c_addr true) as Hf
      by (by apply read_command_fields).
    destruct (decide (u32 _ ≠ 4)).
    { rewrite decide_True by (vm_compute; reflexivity).
      eexists _, _, cmd, []. split; [reflexivity|]. done. }
    rewrite decide_False by (vm_compute; discriminate).
    rewrite bind_run.
    match goal with |- context [i2c_poll _ _ ?r ?w1] =>
      destruct (i2c_poll_total d 10 r w1) as (p & k & msgs & ->) end.
    rewrite sent_sent.
    destruct p as [r|[t reg]].
    { eexists _, _, cmd, _. split; [reflexivity|].
      split; [rewrite ctrl_log_sent, <- app_assoc; reflexivity|done]. }
    destruct (decide (t ≠ 0)).
    { eexists _, _, cmd, _. split; [reflexivity|].
      split; [rewrite ctrl_log_sent, <- app_assoc; reflexivity|done]. }
    destruct (decide (Z.land reg _ ≠ 0)).
    { eexists _, _, cmd, _. split; [reflexivity|].
      split; [rewrite ctrl_log_sent, <- app_assoc; reflexivity|done]. }
    rewrite bind_run. unfold libusb_control_transfer. rewrite ret_run.
    eexists _, _, cmd, (_ :: _). split; [reflexivity|].
    split; [cbn [ctrl_log]; rewrite ctrl_log_sent, <- app_assoc; reflexivity|done].
  - intros rep Hdata Hrep. unfold fl2k_i2c_write.
    rewrite bind_run. unfold libusb_control_transfer at 1.
    set (q0 := CtrlRequest CTRL_OUT 65 0 32808 data 4 CTRL_TIMEOUT) in *.
    change (World _ _ _ _ _ _ _ _ _ _ _) with (sent [q0] [] w).
    rewrite decide_False by lia.
    rewrite bind_run, read_reg_sent. cbv zeta. rewrite bus_sent, ctrl_log_sent.
    cbn [app length]. fold rep.
    rewrite decide_False by lia.
    rewrite decide_False by (vm_compute; discriminate).
    cbn [default from_option id]. rewrite sent_sent. cbn [app].
    fold (write_command (le32 (data_in rep)) reg_addr i2c_addr).
    set (cmd := write_command _ _ _).
    rewrite bind_run, write_reg_sent, sent_sent. cbn [app].
    assert (command_fields cmd (le32 (data_in rep)) reg_addr i2c_addr false) as Hf
      by (by apply write_command_fields).
    destruct (decide (u32 _ ≠ 4)).
    { rewrite decide_True by (vm_compute; reflexivity).
      eexists _, _, cmd, []. split; [reflexivity|]. done. }
    rewrite decide_False by (vm_compute; discriminate).
    rewrite bind_run.
    match goal with |- context [i2c_poll _ _ ?r ?w1] =>
      destruct (i2c_poll_total d 10 r w1) as (p & k & msgs & ->) end.
    rewrite sent_sent.
    destruct p as [r|[t reg]].
    { eexists _, _, cmd, _. split; [reflexivity|].
      split; [rewrite ctrl_log_sent, <- app_assoc; reflexivity|done]. }
    destruct (decide (t ≠ 0)).
    { eexists _, _, cmd, _. split; [reflexivity|].
      split; [rewrite ctrl_log_sent, <- app_assoc; reflexivity|done]. }
    destruct (decide (Z.land reg _ ≠ 0)).
    { eexists _, _, cmd, _. split; [reflexivity|].
      split; [rewrite ctrl_log_sent, <- app_assoc; reflexivity|done]. }
    eexists _, _, cmd, _. split; [reflexivity|].
    split; [rewrite ctrl_log_sent, <- app_assoc; reflexivity|done].
Qed.

Lemma i2c_command_word_witness :
  (∃ res w' cmd later,
     fl2k_i2c_read (Some opened_dev) 0x50 0x12 [0; 0; 0; 0] I2c.completed = Some (res, w')
     ∧ ctrl_log w'
       = later ++ [Pll.write_request 0x8020 cmd; read_request 0x8020] ++ ctrl_log I2c.completed
     ∧ command_fields cmd (le32 [0; 0; 0; 0x80]) 0x12 0x50 true)
  ∧ (∃ res w' cmd later,
       fl2k_i2c_write (Some opened_dev) 0x50 0x12 [1; 2; 3; 4] I2c.completed = Some (res, w')
       ∧ ctrl_log w'
         = later ++ [Pll.write_request 0x8020 cmd; read_request 0x8020;
                     CtrlRequest CTRL_OUT 0x41 0 0x8028 [1; 2; 3; 4] 4 CTRL_TIMEOUT]
                 ++ ctrl_log I2c.completed
       ∧ command_fields cmd (le32 [0; 0; 0; 0x80]) 0x12 0x50 false).
Proof.
  split.
  - apply (i2c_command_word opened_dev 0x50 0x12 [0; 0; 0; 0] I2c.completed); [lia|].
    vm_compute. discriminate.
  - apply (i2c_command_word opened_dev 0x50 0x12 [1; 2; 3; 4] I2c.completed); [lia| |].
    + vm_compute. discriminate.
    + vm_compute. discriminate.
Defined.

End I2cWord.

Module Enumerate.

Import Ctrl Bits.

(** A device the table [known_devices] lists. *)
Definition known (dd : libusb_device_descriptor) : Prop :=
  idVendor dd = 0x1d5c ∧ idProduct dd = 0x2000.

Global Instance known_dec dd : Decision (known dd).
Proof. unfold known. apply _. Defined.

(** The number of known devices in a list. *)
Definition count_known (l : list libusb_device_descriptor) : Z :=
  Z.of_nat (length (filter known l)).

Lemma find_known_device_known dd :
  find_known_device (idVendor dd) (idProduct dd)
  = if decide (known dd) then Some (Dongle 0x1d5c 0x2000 FL2000DX_OEM) else None.
Proof.
  unfold find_known_device, known_devices, known. cbn [List.find vid pid].
  destruct (decide _) as [[-> ->]|Hn].
  - by rewrite bool_decide_eq_true_2.
  - rewrite bool_decide_eq_false_2; [done|]. intros [??]. apply Hn. done.
Qed.

Lemma count_known_cons dd l :
  count_known (dd :: l) = (if decide (known dd) then 1 else 0) + count_known l.
Proof.
  unfold count_known. rewrite filter_cons.
  destruct (decide (known dd)); cbn [length]; lia.
Qed.

Lemma count_known_bounds l : 0 ≤ count_known l ≤ Z.of_nat (length l).
Proof.
  unfold count_known. pose proof (length_filter known l). lia.
Qed.

Lemma count_loop l c :
  0 ≤ c → c + Z.of_nat (length l) < 2 ^ 32 →
  foldl (λ device_count dd,
           match find_known_device (idVendor dd) (idProduct dd) with
           | Some _ => u32 (device_count + 1)
           | None => device_count
           end) c l = c + count_known l.
Proof.
  revert c. induction l as [|dd l IH]; intros c Hc Hlen.
  { unfold count_known. cbn. lia. }
  cbn [foldl length] in *. rewrite find_known_device_known, count_known_cons.
  destruct (decide (known dd)).
  - unfold u32. rewrite Z.mod_small by lia. rewrite IH by lia. lia.
  - rewrite IH by lia. lia.
Qed.

(** X5. [fl2k_get_device_count] is the number of devices on the bus that the
    table lists, and 0 when libusb cannot be initialised. *)
Theorem device_count_counts (h : usb_host) (l : list libusb_device_descriptor) :
  device_list h = Some l → Z.of_nat (length l) < 2 ^ 32 →
  fl2k_get_device_count h
  = Some (if decide (libusb_init_ret h < 0) then 0 else count_known l).
Proof.
  intros Hl Hlen. unfold fl2k_get_device_count. rewrite Hl.
  destruct (decide (libusb_init_ret h < 0)); [done|]. cbn [mbind option_bind].
  rewrite count_loop by lia. done.
Qed.

Lemma device_count_counts_witness :
  fl2k_get_device_count
    (UsbHost true 0 (Some [Descriptor 0x1d6b 3; Descriptor 0x1d5c 0x2000;
                           Descriptor 0x1d5c 0x2000]) (λ _, 0) 0 0 (λ _, 0) 0)
  = Some (if decide (0 < 0) then 0
          else count_known [Descriptor 0x1d6b 3; Descriptor 0x1d5c 0x2000;
                            Descriptor 0x1d5c 0x2000]).
Proof.
  apply (device_count_counts
           (UsbHost true 0 (Some [Descriptor 0x1d6b 3; Descriptor 0x1d5c 0x2000;
                                  Descriptor 0x1d5c 0x2000]) (λ _, 0) 0 0 (λ _, 0) 0)).
  - reflexivity.
  - vm_compute. reflexivity.
Defined.

Lemma open_loop_step index dd l i c :
  0 ≤ c ≤ index → index < 2 ^ 32 - 1 →
  open_loop index (dd :: l) i c
  = if decide (known dd) then
      if decide (index = c) then Some i else open_loop index l (S i) (c + 1)
    else open_loop index l (S i) c.
Proof.
  intros Hc Hi. cbn [open_loop]. rewrite find_known_device_known.
  destruct (decide (known dd)).
  - unfold u32. rewrite (Z.mod_small (c + 1)) by lia.
    replace (c + 1 - 1) with c by lia. rewrite (Z.mod_small c) by lia. done.
  - rewrite decide_False; [done|]. unfold u32.
    destruct (decide (c = 0)) as [->|];
      [change ((0 - 1) mod 2 ^ 32) with 4294967295; lia|].
    rewrite Z.mod_small by lia. lia.
Qed.

(** The loop of [fl2k_open], [c] known devices having been seen: it stops
    at the known device that has exactly [index - c] known ones before
    it, and ends with NULL if there is none. *)
Lemma open_loop_Some index l i c j :
  0 ≤ c ≤ index → index < 2 ^ 32 - 1 →
  open_loop index l i c = Some j
  ↔ ∃ p dd, j = (i + p)%nat ∧ l !! p = Some dd ∧ known dd
            ∧ c + count_known (take p l) = index.
Proof.
  revert i c. induction l as [|dd l IH]; intros i c Hc Hi.
  { cbn. split; [done|]. by intros (p & dd & _ & Hp & _). }
  rewrite open_loop_step by done.
  destruct (decide (known dd)) as [Hk|Hk]; [destruct (decide (index = c)) as [->|Hne]|].
  - split.
    + intros [= <-]. exists 0%nat, dd. rewrite Nat.add_0_r. unfold count_known. cbn.
      split; [done|]. split; [done|]. split; [done|]. lia.
    + intros (p & dd' & -> & Hp & Hk' & Hcount). destruct p as [|p].
      * by rewrite Nat.add_0_r.
      * cbn [take] in Hcount. rewrite count_known_cons, decide_True in Hcount by done.
        pose proof (count_known_bounds (take p l)). lia.
  - rewrite IH by lia. split.
    + intros (p & dd' & -> & Hp & Hk' & Hcount). exists (S p), dd'.
      cbn [take]. rewrite count_known_cons, decide_True by done.
      split; [lia|]. split; [done|]. split; [done|]. lia.
    + intros (p & dd' & -> & Hp & Hk' & Hcount). destruct p as [|p].
      * unfold count_known in Hcount. cbn in Hcount. lia.
      * exists p, dd'. cbn [take] in Hcount.
        rewrite count_known_cons, decide_True in Hcount by done.
        split; [lia|]. split; [done|]. split; [done|]. lia.
  - rewrite IH by lia. split.
    + intros (p & dd' & -> & Hp & Hk' & Hcount). exists (S p), dd'.
      cbn [take]. rewrite count_known_cons, decide_False by done.
      split; [lia|]. split; [done|]. split; [done|]. lia.
    + intros (p & dd' & -> & Hp & Hk' & Hcount). destruct p as [|p].
      * cbn in Hp. injection Hp as <-. done.
      * exists p, dd'. cbn [take] in Hcount.
        rewrite count_known_cons, decide_False in Hcount by done.
        split; [lia|]. split; [done|]. split; [done|]. lia.
Qed.

Lemma open_loop_None index l i c :
  0 ≤ c ≤ index → index < 2 ^ 32 - 1 →
  open_loop index l i c = None ↔ c + count_known l ≤ index.
Proof.
  revert i c. induction l as [|dd l IH]; intros i c Hc Hi.
  { unfold count_known. cbn. split; [lia|done]. }
  rewrite open_loop_step, count_known_cons by done.
  pose proof (count_known_bounds l).
  destruct (decide (known dd)) as [Hk|Hk]; [destruct (decide (index = c)) as [->|Hne]|].
  - split; [done|lia].
  - rewrite IH by lia. lia.
  - rewrite IH by lia. lia.
Qed.

(** X6. [fl2k_open] gets past the selection of a device exactly for the
    indices below [fl2k_get_device_count]: the device it picks is a known
    one with [index] known devices before it, and there is none when
    [index] is not below the count. *)
Theorem open_selects_known (h : usb_host) (l : list libusb_device_descriptor) (index : Z) :
  device_list h = Some l → Z.of_nat (length l) < 2 ^ 32 → 0 ≤ libusb_init_ret h →
  0 ≤ index < 2 ^ 32 - 1 →
  ∃ n, fl2k_get_device_count h = Some n
    ∧ (index < n ↔ is_Some (open_loop index l 0 0))
    ∧ (∀ i, open_loop index l 0 0 = Some i →
         ∃ dd, l !! i = Some dd ∧ known dd ∧ count_known (take i l) = index).
Proof.
  intros Hl Hlen Hinit Hindex. exists (count_known l).
  split; [|split].
  - unfold fl2k_get_device_count. rewrite Hl, decide_False by lia.
    cbn [mbind option_bind]. by rewrite count_loop by lia.
  - pose proof (open_loop_None index l 0 0 ltac:(lia) ltac:(lia)) as HN.
    destruct (open_loop index l 0 0) as [i|].
    + split; [by eexists|]. intros _.
      destruct (decide (index < count_known l)); [done|].
      assert (Some i = None) as [=]. apply HN. lia.
    + split; [|by intros [? [=]]]. intros Hlt.
      assert (0 + count_known l ≤ index) by (by apply HN). lia.
  - intros i Hi. apply open_loop_Some in Hi as (p & dd & -> & Hp & Hk & Hc); [|lia..].
    exists dd. cbn [Nat.add]. split; [done|]. split; [done|]. lia.
Qed.

Lemma open_selects_known_witness :
  ∃ n, fl2k_get_device_count
         (UsbHost true 0 (Some [Descriptor 0x1d6b 3; Descriptor 0x1d5c 0x2000])
                  (λ _, 0) 0 0 (λ _, 0) 0) = Some n
    ∧ (0 < n ↔ is_Some (open_loop 0 [Descriptor 0x1d6b 3; Descriptor 0x1d5c 0x2000] 0 0))
    ∧ (∀ i, open_loop 0 [Descriptor 0x1d6b 3; Descriptor 0x1d5c 0x2000] 0 0 = Some i →
         ∃ dd, [Descriptor 0x1d6b 3; Descriptor 0x1d5c 0x2000] !! i = Some dd ∧ known dd
               ∧ count_known (take i [Descriptor 0x1d6b 3; Descriptor 0x1d5c 0x2000]) = 0).
Proof.
  apply (open_selects_known
           (UsbHost true 0 (Some [Descriptor 0x1d6b 3; Descriptor 0x1d5c 0x2000])
                    (λ _, 0) 0 0 (λ _, 0) 0)
           [Descriptor 0x1d6b 3; Descriptor 0x1d5c 0x2000] 0).
  - reflexivity.
  - vm_compute. reflexivity.
  - cbn. lia.
  - lia.
Defined.

Example open_loop_second : open_loop 0 [Descriptor 0x1d6b 3; Descriptor 0x1d5c 0x2000] 0 0 = Some 1%nat.
Proof. reflexivity. Qed.

(** ** Device names *)

Definition the_dongle : fl2k_dongle := Dongle 0x1d5c 0x2000 FL2000DX_OEM.

Lemma device_name_loop_step index dd l dev c :
  0 ≤ c ≤ index → index < 2 ^ 32 →
  device_name_loop index (dd :: l) dev c
  = if decide (known dd) then
      if decide (index = c) then Some the_dongle
      else device_name_loop index l (Some the_dongle) (c + 1)
    else device_name_loop index l None c.
Proof.
  intros Hc Hi. cbn [device_name_loop]. rewrite find_known_device_known.
  destruct (decide (known dd)); [|done].
  assert (u32 (u32 (c + 1) - 1) = c) as ->.
  { unfold u32. rewrite Zminus_mod_idemp_l.
    replace (c + 1 - 1) with c by lia. apply Z.mod_small. lia. }
  destruct (decide (index = c)); [done|].
  unfold u32. by rewrite Z.mod_small by lia.
Qed.

Lemma device_name_loop_spec index l dev c :
  0 ≤ c ≤ index → index < 2 ^ 32 →
  device_name_loop index l dev c
  = if decide (index < c + count_known l) then Some the_dongle
    else match last l with
         | Some dd => if decide (known dd) then Some the_dongle else None
         | None => dev
         end.
Proof.
  revert dev c. induction l as [|dd l IH]; intros dev c Hc Hi.
  { unfold count_known. cbn. by rewrite decide_False by lia. }
  rewrite device_name_loop_step, count_known_cons, last_cons by done.
  pose proof (count_known_bounds l).
  destruct (decide (known dd)) as [Hk|Hk]; [destruct (decide (index = c)) as [->|Hne]|].
  - by rewrite decide_True by lia.
  - rewrite IH by lia.
    destruct (decide (index < c + 1 + count_known l)).
    + by rewrite decide_True by lia.
    + rewrite decide_False by lia. destruct (last l); [done|].
      by rewrite decide_True.
  - rewrite IH by lia. replace (c + (0 + count_known l)) with (c + count_known l) by lia.
    destruct (decide _); [done|]. destruct (last l); [done|].
    by rewrite decide_False.
Qed.

(** Whether the last device of the list is a known one. *)
Definition last_known (l : list libusb_device_descriptor) : bool :=
  match last l with
  | Some dd => bool_decide (known dd)
  | None => false
  end.

(** X7. [fl2k_get_device_name] returns the name of the device for an index
    below the number of known devices.  For an index that is not, it
    returns the empty string only if the last device on the bus is not a
    known one: otherwise it returns the name of that device. *)
Theorem device_name_result (h : usb_host) (l : list libusb_device_descriptor) (index : Z) :
  device_list h = Some l → 0 ≤ libusb_init_ret h → 0 ≤ index < 2 ^ 32 →
  fl2k_get_device_name h index
  = Some (if decide (index < count_known l) then FL2000DX_OEM
          else if last_known l then FL2000DX_OEM else empty_name).
Proof.
  intros Hl Hinit Hindex. unfold fl2k_get_device_name.
  rewrite decide_False by lia. rewrite Hl. cbn [mbind option_bind].
  rewrite device_name_loop_spec by lia. rewrite Z.add_0_l.
  destruct (decide _); [done|]. unfold last_known.
  destruct (last l) as [dd|]; [|done].
  by destruct (decide (known dd)); [rewrite bool_decide_eq_true_2|rewrite bool_decide_eq_false_2].
Qed.

Lemma device_name_result_witness :
  fl2k_get_device_name
    (UsbHost true 0 (Some [Descriptor 0x1d6b 3; Descriptor 0x1d5c 0x2000]) (λ _, 0) 0 0 (λ _, 0) 0)
    7
  = Some (if decide (7 < count_known [Descriptor 0x1d6b 3; Descriptor 0x1d5c 0x2000])
          then FL2000DX_OEM
          else if last_known [Descriptor 0x1d6b 3; Descriptor 0x1d5c 0x2000]
               then FL2000DX_OEM else empty_name).
Proof.
  apply (device_name_result
           (UsbHost true 0 (Some [Descriptor 0x1d6b 3; Descriptor 0x1d5c 0x2000])
                    (λ _, 0) 0 0 (λ _, 0) 0)
           [Descriptor 0x1d6b 3; Descriptor 0x1d5c 0x2000] 7).
  - reflexivity.
  - cbn. lia.
  - lia.
Defined.

(** With one adapter on the bus, behind a hub, index 7 still yields its
    name, while with the hub enumerated last it yields the empty
    string. *)
Example device_name_out_of_range :
  fl2k_get_device_name
    (UsbHost true 0 (Some [Descriptor 0x1d6b 3; Descriptor 0x1d5c 0x2000]) (λ _, 0) 0 0 (λ _, 0) 0)
    7 = Some FL2000DX_OEM
  ∧ fl2k_get_device_name
      (UsbHost true 0 (Some [Descriptor 0x1d5c 0x2000; Descriptor 0x1d6b 3]) (λ _, 0) 0 0 (λ _, 0) 0)
      7 = Some empty_name.
Proof. split; reflexivity. Qed.

End Enumerate.

Module Open.

Import Ctrl Bits.

(** The registers [fl2k_init_device] writes and their values, in
    program order. *)
Definition init_sequence : list (Z * Z) :=
  [(0x8020, 0xdf0000cc); (0x802c, 0x00416f3f); (0x8048, 0x7ffb8004);
   (0x803c, 0xd701004d); (0x8004, 0x0000031c); (0x8004, 0x0010039d);
   (0x8008, 0x07800898); (0x801c, 0x00000000); (0x0070, 0x04186085);
   (0x8008, 0xfeff0780); (0x800c, 0x0000f001); (0x8010, 0x0400042a);
   (0x8014, 0x0010002d); (0x8004, 0x00000002)].

Definition init_requests : list ctrl_request :=
  reverse ((λ p, Pll.write_request p.1 p.2) <$> init_sequence).

Lemma init_device_run d w :
  fl2k_init_device (Some d) w = Some (0, sent init_requests [] w).
Proof.
  unfold fl2k_init_device.
  repeat (rewrite bind_run, write_reg_sent, ?sent_sent; cbn [app]).
  reflexivity.
Qed.

(** X8. [fl2k_init_device] returns 0 on every handle that is not NULL,
    whatever the outcome of its control transfers: it issues its 14
    register writes and looks at none of the results. *)
Theorem init_device_ignores_errors (d : fl2k_dev) (w : world) :
  fl2k_init_device (Some d) w = Some (0, sent init_requests [] w)
  ∧ length init_requests = 14%nat
  ∧ fl2k_init_device None w = Some (FL2K_ERROR_INVALID_PARAM, w).
Proof. split; [apply init_device_run|split; reflexivity]. Qed.

(** What [fl2k_open] needs to succeed: memory, libusb, a device at the
    index, and three libusb calls. *)
Definition open_ok (h : usb_host) (index : Z) : Prop :=
  dev_malloc_ok h = true ∧ 0 ≤ libusb_init_ret h
  ∧ ∃ i, open_loop index (default [] (device_list h)) 0 0 = Some i
         ∧ 0 ≤ libusb_open_ret h i
         ∧ (libusb_kernel_driver_active_ret h = 1 → 0 ≤ libusb_detach_kernel_driver_ret h)
         ∧ 0 ≤ libusb_claim_interface_ret h 0.

(** X9. [fl2k_open] always returns, with 0 or a negative value.  It returns
    0 exactly when memory, libusb, the device, [libusb_open], the
    detaching of a kernel driver (if one is attached) and the claim of
    interface 0 all work: neither a failure to select the alternate
    setting nor failing register writes make it fail.  On success
    [*out_dev] is a zeroed handle that is not lost, and the 14
    initialisation writes have been issued; on failure [*out_dev] is
    untouched and no control transfer has been issued. *)
Theorem open_result (h : usb_host) (out_dev : option fl2k_dev) (index : Z) (w : world) :
  ∃ r out' log w',
    fl2k_open h out_dev index w = Some ((r, out', log), w')
    ∧ r ≤ 0
    ∧ (r = 0 ↔ open_ok h index)
    ∧ (r = 0 → out' = Some opened_dev ∧ w' = sent init_requests [] w)
    ∧ (r < 0 → out' = out_dev ∧ w' = w).
Proof.
  unfold fl2k_open, open_ok.
  destruct (dev_malloc_ok h) eqn:Hm; cbn [negb].
  2:{ eexists _, _, _, _. split; [reflexivity|]. unfold ENOMEM.
      split; [lia|]. split; [|split; [lia|done]].
      split; [lia|]. by intros [? _]. }
  destruct (decide (libusb_init_ret h < 0)) as [Hi|Hi].
  { eexists _, _, _, _. split; [reflexivity|].
    split; [lia|]. split; [|split; [lia|done]].
    split; [lia|]. intros (_ & ? & _). lia. }
  destruct (open_loop index _ 0 0) as [i|] eqn:Hsel.
  2:{ eexists _, _, _, _. split; [reflexivity|].
      split; [lia|]. split; [|split; [lia|done]].
      split; [lia|]. by intros (_ & _ & ? & ? & _). }
  destruct (decide (libusb_open_ret h i < 0)) as [Ho|Ho].
  { eexists _, _, _, _. split; [reflexivity|].
    split; [lia|]. split; [|split; [lia|done]].
    split; [lia|]. intros (_ & _ & ? & [= <-] & ? & _). lia. }
  destruct (decide (libusb_kernel_driver_active_ret h = 1)) as [Ha|Ha];
    [rewrite (bool_decide_eq_true_2 _ Ha)|rewrite (bool_decide_eq_false_2 _ Ha)];
    cbn [andb].
  - destruct (decide (libusb_detach_kernel_driver_ret h < 0)) as [Hd|Hd];
      [rewrite (bool_decide_eq_true_2 _ Hd)|rewrite (bool_decide_eq_false_2 _ Hd)].
    { eexists _, _, _, _. split; [reflexivity|].
      split; [lia|]. split; [|split; [lia|done]].
      split; [lia|]. intros (_ & _ & ? & [= <-] & _ & Hd' & _). specialize (Hd' Ha). lia. }
    destruct (decide (libusb_claim_interface_ret h 0 < 0)) as [Hc|Hc].
    { eexists _, _, _, _. split; [reflexivity|].
      split; [lia|]. split; [|split; [lia|done]].
      split; [lia|]. intros (_ & _ & ? & [= <-] & _ & _ & ?). lia. }
    rewrite bind_run, init_device_run. rewrite decide_False by lia.
    eexists _, _, _, _. split; [reflexivity|].
    split; [lia|]. split; [|split; [intros _; split; reflexivity|lia]].
    split; [|done]. intros _. split; [done|]. split; [lia|].
    exists i. split; [done|]. split; [lia|]. split; [lia|lia].
  - destruct (decide (libusb_claim_interface_ret h 0 < 0)) as [Hc|Hc].
    { eexists _, _, _, _. split; [reflexivity|].
      split; [lia|]. split; [|split; [lia|done]].
      split; [lia|]. intros (_ & _ & ? & [= <-] & _ & _ & ?). lia. }
    rewrite bind_run, init_device_run. rewrite decide_False by lia.
    eexists _, _, _, _. split; [reflexivity|].
    split; [lia|]. split; [|split; [intros _; split; reflexivity|lia]].
    split; [|done]. intros _. split; [done|]. split; [lia|].
    exists i. split; [done|]. split; [lia|]. split; [done|lia].
Qed.

(** X10. For the index 2^32 - 1, [device_count - 1] wraps around while no
    known device has been seen: if the first device on the bus is not a
    known one, it is the device [fl2k_open] opens and initialises. *)
Theorem open_index_wraps (h : usb_host) (dd : libusb_device_descriptor)
    (l : list libusb_device_descriptor) (out_dev : option fl2k_dev) (w : world) :
  device_list h = Some (dd :: l) → ¬ Enumerate.known dd →
  open_loop (2 ^ 32 - 1) (dd :: l) 0 0 = Some 0%nat
  ∧ (dev_malloc_ok h = true → 0 ≤ libusb_init_ret h → libusb_open_ret h 0 = 0 →
     libusb_kernel_driver_active_ret h = 0 → libusb_claim_interface_ret h 0 = 0 →
     libusb_set_interface_alt_setting_ret h = 0 →
     fl2k_open h out_dev (2 ^ 32 - 1) w
     = Some ((0, Some opened_dev, []), sent init_requests [] w)).
Proof.
  intros Hl Hk.
  assert (open_loop (2 ^ 32 - 1) (dd :: l) 0 0 = Some 0%nat) as Hsel.
  { cbn [open_loop]. rewrite Enumerate.find_known_device_known.
    rewrite (decide_False (P := Enumerate.known dd)) by done.
    by rewrite decide_True by reflexivity. }
  split; [exact Hsel|].
  intros Hm Hi Ho Ha Hc Hs. unfold fl2k_open.
  rewrite Hm, Hl. cbn [negb default from_option id].
  rewrite decide_False by lia. rewrite Hsel, Ho, Ha, Hc, Hs.
  rewrite !(decide_False (P := 0 < 0)) by lia.
  rewrite !(bool_decide_eq_false_2 (0 = 1)) by lia. cbn [andb].
  rewrite bind_run, init_device_run. rewrite (decide_False (P := 0 < 0)) by lia.
  reflexivity.
Qed.

Lemma open_index_wraps_witness :
  open_loop (2 ^ 32 - 1) [Descriptor 0x1d6b 3; Descriptor 0x1d5c 0x2000] 0 0 = Some 0%nat
  ∧ fl2k_open
      (UsbHost true 0 (Some [Descriptor 0x1d6b 3; Descriptor 0x1d5c 0x2000])
               (λ _, 0) 0 0 (λ _, 0) 0)
      None (2 ^ 32 - 1) Pool.quiet
    = Some ((0, Some opened_dev, []), sent init_requests [] Pool.quiet).
Proof.
  destruct (open_index_wraps
              (UsbHost true 0 (Some [Descriptor 0x1d6b 3; Descriptor 0x1d5c 0x2000])
                       (λ _, 0) 0 0 (λ _, 0) 0)
              (Descriptor 0x1d6b 3) [Descriptor 0x1d5c 0x2000] None Pool.quiet)
    as [Hsel Hopen].
  - reflexivity.
  - intros [Hv _]. discriminate Hv.
  - split; [exact Hsel|]. apply Hopen; (reflexivity || (cbn; lia)).
Defined.

End Open.

Module Palette.

Import Ctrl Bits.

(** A computation that returns, and whose only effects are control
    transfers and messages. *)
Definition ctrl_only {A} (m : M A) : Prop :=
  ∀ w, ∃ a reqs msgs, m w = Some (a, sent reqs msgs w).

Lemma ctrl_only_ret {A} (a : A) : ctrl_only (mret a).
Proof. intros w. exists a, [], []. by rewrite sent_nil. Qed.

Lemma ctrl_only_bind {A B} (m : M A) (f : A → M B) :
  ctrl_only m → (∀ a, ctrl_only (f a)) → ctrl_only (m ≫= f).
Proof.
  intros Hm Hf w. destruct (Hm w) as (a & l1 & m1 & H1).
  destruct (Hf a (sent l1 m1 w)) as (b & l2 & m2 & H2).
  exists b, (l2 ++ l1), (m2 ++ m1). by rewrite bind_run, H1, H2, sent_sent.
Qed.

Lemma ctrl_only_write_reg d reg val : ctrl_only (fl2k_write_reg (Some d) reg val).
Proof. intros w. rewrite write_reg_sent. by eexists _, _, _. Qed.

Lemma ctrl_only_read_reg d reg v : ctrl_only (fl2k_read_reg (Some d) reg (Some v)).
Proof.
  intros w. rewrite read_reg_sent. cbv zeta. destruct (decide _); by eexists _, _, _.
Qed.

Lemma ctrl_only_fprintf msg : ctrl_only (fprintf_stderr msg).
Proof. intros w. by exists tt, [], [msg]. Qed.

Lemma ctrl_only_lift {A} (a : A) : ctrl_only (lift (Some a)).
Proof. intros w. exists a, [], []. by rewrite sent_nil. Qed.

Lemma ctrl_only_for_each {A S R} (l : list A) (s : S) (body : A → S → M (S + R)) :
  (∀ x s, x ∈ l → ctrl_only (body x s)) → ctrl_only (for_each l s body).
Proof.
  revert s. induction l as [|x l IH]; intros s Hbody; [apply ctrl_only_ret|].
  cbn [for_each]. apply ctrl_only_bind; [apply Hbody; by left|].
  intros [s'|r]; [|apply ctrl_only_ret].
  apply IH. intros y s'' Hy. apply Hbody. by right.
Qed.

Lemma load_in_range (palette : list Z) (i : Z) :
  0 ≤ i < Z.of_nat (length palette) → load palette i = Some (palette !!! Z.to_nat i).
Proof.
  intros Hi. unfold load. rewrite decide_True by lia.
  apply list_lookup_lookup_total_lt. lia.
Qed.

Lemma ctrl_only_load_palette d palette :
  length palette = 256%nat → ctrl_only (fl2k_load_custom_palette (Some d) palette).
Proof.
  intros Hlen. unfold fl2k_load_custom_palette.
  apply ctrl_only_bind.
  - apply ctrl_only_for_each. intros i [] Hi%elem_of_seqZ.
    rewrite load_in_range by (rewrite Hlen; unfold FL2K_PALETTE_SIZE in Hi; lia).
    apply ctrl_only_bind; [apply ctrl_only_lift|]. intros p.
    apply ctrl_only_bind; [apply ctrl_only_write_reg|]. intros r.
    apply ctrl_only_bind; [|intros; apply ctrl_only_ret].
    destruct (decide _); [apply ctrl_only_fprintf|apply ctrl_only_ret].
  - intros [[]|r]; [|apply ctrl_only_ret].
    apply ctrl_only_bind.
    + apply ctrl_only_for_each. intros i reg Hi%elem_of_seqZ.
      apply ctrl_only_bind; [apply ctrl_only_write_reg|]. intros r.
      apply ctrl_only_bind; [apply ctrl_only_read_reg|]. intros [r' reg'].
      destruct (decide _); [apply ctrl_only_ret|].
      rewrite load_in_range by (rewrite Hlen; unfold FL2K_PALETTE_SIZE in Hi; lia).
      apply ctrl_only_bind; [apply ctrl_only_lift|]. intros p.
      apply ctrl_only_bind; [|intros; apply ctrl_only_ret].
      destruct (decide _); [apply ctrl_only_fprintf|apply ctrl_only_ret].
    + intros [reg|r]; apply ctrl_only_ret.
Qed.

Lemma ctrl_only_set_enabled_channels d chan_mask :
  ctrl_only (fl2k_set_enabled_channels (Some d) chan_mask).
Proof.
  unfold fl2k_set_enabled_channels. apply ctrl_only_load_palette.
  by rewrite length_fmap, length_seqZ.
Qed.

(** ** The traffic of a palette load *)

Definition palette_word (palette : list Z) (i : Z) : Z :=
  u32 (Z.lor (Z.shiftl (palette !!! Z.to_nat i) 8) (Z.land i 0xff)).

(** The two phases, in program order. *)
Definition palette_writes (palette : list Z) : list ctrl_request :=
  (λ i, Pll.write_request 0x805c (palette_word palette i)) <$> seqZ 0 256.

Definition palette_verifies : list ctrl_request :=
  seqZ 0 256 ≫= λ i, [Pll.write_request 0x8060 (Z.land (i + 1) 0xff); read_request 0x805c].

Lemma palette_traffic_length palette :
  length (palette_writes palette ++ palette_verifies) = 768%nat.
Proof.
  rewrite length_app. unfold palette_writes. rewrite length_fmap, length_seqZ.
  reflexivity.
Qed.

(** The bodies of the two loops of [fl2k_load_custom_palette]. *)
Definition write_body (d : fl2k_dev) (palette : list Z) (i : Z) (_ : unit) : M (unit + Z) :=
  p ← lift (load palette i);
  r ← fl2k_write_reg (Some d) 0x805c (u32 (Z.lor (Z.shiftl p 8) (Z.land i 0xff)));
  _ ← (if decide (r < 0) then fprintf_stderr (PaletteWriteError i) else mret tt);
  mret (inl tt : unit + Z).

Definition verify_body (d : fl2k_dev) (palette : list Z) (i reg : Z) : M (Z + Z) :=
  r ← fl2k_write_reg (Some d) 0x8060 (Z.land (i + 1) 0xff);
  '(r', reg') ← fl2k_read_reg (Some d) 0x805c (Some reg);
  let r := Z.lor r r' in
  let reg := default reg reg' in
  if decide (r < 0) then mret (inr FL2K_ERROR_OTHER)
  else
    p ← lift (load palette i);
    _ ← (if decide (reg ≠ p)
         then fprintf_stderr (PaletteMismatch i reg p) else mret tt);
    mret (inl reg).

Lemma load_custom_palette_loops d palette :
  fl2k_load_custom_palette (Some d) palette
  = (w ← for_each (seqZ 0 FL2K_PALETTE_SIZE) tt (write_body d palette);
     match w with
     | inr r => mret r
     | inl _ =>
         v ← for_each (seqZ 0 FL2K_PALETTE_SIZE) 0 (verify_body d palette);
         match v with
         | inr r => mret r
         | inl _ => mret FL2K_SUCCESS
         end
     end).
Proof. reflexivity. Qed.

Lemma write_body_run d palette i w :
  0 ≤ i < Z.of_nat (length palette) →
  ∃ m1, write_body d palette i tt w
        = Some (inl tt, sent [Pll.write_request 0x805c (palette_word palette i)] m1 w).
Proof.
  intros Hi. unfold write_body. rewrite load_in_range by done.
  rewrite bind_run, lift_run, bind_run, write_reg_sent, bind_run.
  fold (palette_word palette i).
  destruct (decide (_ < 0)).
  - by exists [PaletteWriteError i].
  - by exists [].
Qed.

Lemma write_loop_run d palette l w :
  (∀ i, i ∈ l → 0 ≤ i < Z.of_nat (length palette)) →
  ∃ msgs,
    for_each l tt (write_body d palette) w
    = Some (inl tt,
            sent (reverse ((λ i, Pll.write_request 0x805c (palette_word palette i)) <$> l))
                 msgs w).
Proof.
  revert w. induction l as [|i l IH]; intros w Hl.
  { exists []. cbn. by rewrite sent_nil. }
  cbn [for_each]. rewrite bind_run.
  destruct (write_body_run d palette i w) as [m1 ->]; [apply Hl; by left|].
  destruct (IH (sent [Pll.write_request 0x805c (palette_word palette i)] m1 w))
    as [msgs ->]; [intros j Hj; apply Hl; by right|].
  exists (msgs ++ m1). rewrite sent_sent, fmap_cons, reverse_cons. done.
Qed.

(** One pass of the verification when both its transfers complete. *)
Lemma verify_body_run d palette i reg w :
  0 ≤ i < Z.of_nat (length palette) →
  (∀ k req, (length (ctrl_log w) ≤ k < length (ctrl_log w) + 2)%nat →
            ctrl_ret (bus w k req) = 4) →
  ∃ reg' m1,
    verify_body d palette i reg w
    = Some (inl reg',
            sent [read_request 0x805c; Pll.write_request 0x8060 (Z.land (i + 1) 0xff)] m1 w).
Proof.
  intros Hi Hbus. unfold verify_body.
  rewrite !bind_run, write_reg_sent, Hbus by lia.
  rewrite (decide_False (P := u32 4 ≠ 4)) by (intros H; by apply H).
  rewrite bind_run, read_reg_sent. cbv zeta.
  rewrite bus_sent, ctrl_log_sent, Hbus by (cbn; lia).
  rewrite (decide_False (P := u32 4 < 4)) by (vm_compute; discriminate).
  rewrite sent_sent. cbn [app default from_option id].
  rewrite (decide_False (P := Z.lor FL2K_SUCCESS FL2K_SUCCESS < 0)) by (vm_compute; discriminate).
  rewrite load_in_range by done.
  rewrite bind_run, lift_run, bind_run.
  destruct (decide (_ ≠ _)).
  - by eexists _, [_].
  - by eexists _, [].
Qed.

Lemma verify_loop_run d palette l reg w :
  (∀ i, i ∈ l → 0 ≤ i < Z.of_nat (length palette)) →
  (∀ k req, (length (ctrl_log w) ≤ k < length (ctrl_log w) + 2 * length l)%nat →
            ctrl_ret (bus w k req) = 4) →
  ∃ reg' msgs,
    for_each l reg (verify_body d palette) w
    = Some (inl reg',
            sent (reverse (l ≫= λ i, [Pll.write_request 0x8060 (Z.land (i + 1) 0xff);
                                      read_request 0x805c]))
                 msgs w).
Proof.
  revert reg w. induction l as [|i l IH]; intros reg w Hl Hbus.
  { exists reg, []. cbn. by rewrite sent_nil. }
  cbn [for_each]. rewrite bind_run.
  destruct (verify_body_run d palette i reg w) as (r1 & m1 & ->);
    [apply Hl; by left|intros k req Hk; apply Hbus; cbn [length]; lia|].
  match goal with |- context [for_each l ?r _ ?w3] =>
    destruct (IH r w3) as (reg' & msgs & ->)
  end.
  { intros j Hj. apply Hl. by right. }
  { intros k req Hk. rewrite bus_sent. apply Hbus. rewrite ctrl_log_sent in Hk.
    rewrite length_app in Hk. cbn [length] in *. lia. }
  exists reg', (msgs ++ m1). rewrite sent_sent, bind_cons, reverse_app. done.
Qed.

(** X11. [fl2k_load_custom_palette] writes the 256 entries, entry [i] as the word
    [palette[i] << 8 | i] to register 0x805c, then reads each back
    through the pointer register 0x8060.  Provided the transfers of the
    second phase complete, it returns FL2K_SUCCESS after exactly these 768
    control transfers, whatever the transfers of the first phase return
    and whatever values are read back: failed writes and mismatches are
    only reported on stderr. *)
Theorem load_palette_traffic (d : fl2k_dev) (palette : list Z) (w : world) :
  length palette = 256%nat →
  (∀ k req, (length (ctrl_log w) + 256 ≤ k)%nat → ctrl_ret (bus w k req) = 4) →
  ∃ msgs,
    fl2k_load_custom_palette (Some d) palette w
    = Some (FL2K_SUCCESS,
            sent (reverse (palette_writes palette ++ palette_verifies)) msgs w).
Proof.
  intros Hlen Hbus. rewrite load_custom_palette_loops.
  assert (∀ i, i ∈ seqZ 0 FL2K_PALETTE_SIZE → 0 ≤ i < Z.of_nat (length palette)) as Hidx.
  { intros i Hi%elem_of_seqZ. rewrite Hlen. unfold FL2K_PALETTE_SIZE in Hi. lia. }
  rewrite bind_run.
  destruct (write_loop_run d palette (seqZ 0 FL2K_PALETTE_SIZE) w Hidx) as [m1 ->].
  rewrite bind_run.
  match goal with |- context [for_each _ 0 _ ?w1] =>
    destruct (verify_loop_run d palette (seqZ 0 FL2K_PALETTE_SIZE) 0 w1 Hidx)
      as (reg' & m2 & ->)
  end.
  { intros k req Hk. rewrite bus_sent. apply Hbus.
    rewrite ctrl_log_sent, length_app, length_reverse, length_fmap, length_seqZ in Hk.
    unfold FL2K_PALETTE_SIZE in Hk. lia. }
  exists (m2 ++ m1). rewrite ret_run, sent_sent, reverse_app. done.
Qed.

Lemma load_palette_traffic_witness :
  ∃ msgs,
    fl2k_load_custom_palette (Some opened_dev) (replicate 256 0) Pool.quiet
    = Some (FL2K_SUCCESS,
            sent (reverse (palette_writes (replicate 256 0) ++ palette_verifies)) msgs Pool.quiet).
Proof.
  apply (load_palette_traffic opened_dev (replicate 256 0) Pool.quiet).
  - reflexivity.
  - intros k req _. reflexivity.
Defined.

Lemma for_each_app {A S R} (l1 l2 : list A) (s : S) (body : A → S → M (S + R)) w :
  for_each (l1 ++ l2) s body w
  = match for_each l1 s body w with
    | Some (inl s', w') => for_each l2 s' body w'
    | other => other
    end.
Proof.
  revert s w. induction l1 as [|x l1 IH]; intros s w; [done|].
  cbn [app for_each]. rewrite !bind_run.
  destruct (body x s w) as [[[s'|r] w']|]; [apply IH|done..].
Qed.

(** One pass of the verification when one of its transfers fails. *)
Lemma verify_body_fails d palette i reg w :
  u32 (ctrl_ret (bus w (length (ctrl_log w))
                   (Pll.write_request 0x8060 (Z.land (i + 1) 0xff)))) ≠ 4
  ∨ u32 (ctrl_ret (bus w (S (length (ctrl_log w))) (read_request 0x805c))) < 4 →
  ∃ m1,
    verify_body d palette i reg w
    = Some (inr FL2K_ERROR_OTHER,
            sent [read_request 0x805c; Pll.write_request 0x8060 (Z.land (i + 1) 0xff)] m1 w).
Proof.
  intros Hfail. unfold verify_body.
  rewrite !bind_run, write_reg_sent.
  rewrite bind_run, read_reg_sent. cbv zeta.
  rewrite bus_sent, ctrl_log_sent. cbn [app length].
  destruct Hfail as [Hw|Hr].
  - rewrite (decide_True _ _ Hw).
    destruct (decide (u32 _ < 4)); cbn [default from_option id];
      (match goal with |- context [decide (Z.lor ?a ?b < 0)] =>
         rewrite (decide_True (P := Z.lor a b < 0)) by (vm_compute; reflexivity) end);
      rewrite ?sent_sent; by eexists.
  - rewrite (decide_True _ _ Hr).
    destruct (decide (u32 _ ≠ 4)); cbn [default from_option id];
      (match goal with |- context [decide (Z.lor ?a ?b < 0)] =>
         rewrite (decide_True (P := Z.lor a b < 0)) by (vm_compute; reflexivity) end);
      rewrite ?sent_sent; by eexists.
Qed.

(** X12. The verification stops at the first pass in which a transfer fails:
    if the passes before entry [j] complete and, in the pass of entry [j],
    the write of the read pointer does not transfer 4 bytes or the read
    falls short, [fl2k_load_custom_palette] returns FL2K_ERROR_OTHER right
    after that pass. *)
Theorem load_palette_verify_stops (d : fl2k_dev) (palette : list Z) (w : world) (j : nat) :
  length palette = 256%nat → (j < 256)%nat →
  (∀ k req, (length (ctrl_log w) + 256 ≤ k < length (ctrl_log w) + 256 + 2 * j)%nat →
            ctrl_ret (bus w k req) = 4) →
  u32 (ctrl_ret (bus w (length (ctrl_log w) + 256 + 2 * j)%nat
                   (Pll.write_request 0x8060 (Z.land (Z.of_nat j + 1) 0xff)))) ≠ 4
  ∨ u32 (ctrl_ret (bus w (length (ctrl_log w) + 256 + 2 * j + 1)%nat
                     (read_request 0x805c))) < 4 →
  ∃ w',
    fl2k_load_custom_palette (Some d) palette w = Some (FL2K_ERROR_OTHER, w')
    ∧ length (ctrl_log w') = (length (ctrl_log w) + 256 + 2 * j + 2)%nat.
Proof.
  intros Hlen Hj Hbus Hfail. rewrite load_custom_palette_loops.
  assert (∀ i, i ∈ seqZ 0 FL2K_PALETTE_SIZE → 0 ≤ i < Z.of_nat (length palette)) as Hidx.
  { intros i Hi%elem_of_seqZ. rewrite Hlen. unfold FL2K_PALETTE_SIZE in Hi. lia. }
  rewrite bind_run.
  destruct (write_loop_run d palette (seqZ 0 FL2K_PALETTE_SIZE) w Hidx) as [m1 ->].
  set (w1 := sent _ m1 w).
  assert (length (ctrl_log w1) = (length (ctrl_log w) + 256)%nat) as Hw1.
  { unfold w1. rewrite ctrl_log_sent, length_app, length_reverse, length_fmap, length_seqZ.
    unfold FL2K_PALETTE_SIZE. lia. }
  assert (seqZ 0 FL2K_PALETTE_SIZE
          = seqZ 0 (Z.of_nat j) ++ Z.of_nat j :: seqZ (Z.of_nat j + 1) (255 - Z.of_nat j))
    as Hsplit.
  { unfold FL2K_PALETTE_SIZE.
    replace 256 with (Z.of_nat j + (256 - Z.of_nat j)) at 1 by lia.
    rewrite seqZ_app by lia. f_equal. rewrite seqZ_cons by lia.
    replace (Z.succ (0 + Z.of_nat j)) with (Z.of_nat j + 1) by lia.
    replace (Z.pred (256 - Z.of_nat j)) with (255 - Z.of_nat j) by lia.
    done. }
  rewrite bind_run, Hsplit, for_each_app.
  destruct (verify_loop_run d palette (seqZ 0 (Z.of_nat j)) 0 w1) as (reg' & m2 & ->).
  { intros i Hi. apply Hidx. rewrite Hsplit, elem_of_app. by left. }
  { intros k req Hk. unfold w1 at 1. rewrite bus_sent. apply Hbus.
    rewrite length_seqZ, Hw1 in Hk. lia. }
  set (w2 := sent _ m2 w1).
  assert (length (ctrl_log w2) = (length (ctrl_log w) + 256 + 2 * j)%nat) as Hw2.
  { unfold w2. rewrite ctrl_log_sent, length_app, length_reverse, Hw1.
    assert (∀ l : list Z,
              length (l ≫= λ i, [Pll.write_request 0x8060 (Z.land (i + 1) 0xff);
                                 read_request 0x805c]) = (2 * length l)%nat) as Hb.
    { clear. intros l. induction l as [|x l IH]; [done|].
      rewrite bind_cons, length_app, IH. cbn [length]. lia. }
    rewrite Hb, length_seqZ. lia. }
  cbn [for_each]. rewrite bind_run.
  destruct (verify_body_fails d palette (Z.of_nat j) reg' w2) as [m3 ->].
  { rewrite Hw2. unfold w2, w1. rewrite !bus_sent.
    replace (S (length (ctrl_log w) + 256 + 2 * j))
      with (length (ctrl_log w) + 256 + 2 * j + 1)%nat by lia.
    exact Hfail. }
  rewrite !ret_run. eexists. split; [reflexivity|].
  rewrite ctrl_log_sent, length_app, Hw2. cbn [length]. lia.
Qed.

(** A bus on which every control transfer moves three bytes only. *)
Definition short_bus : world := steady_world (CtrlReply 3 [0; 0; 0; 0]).

Lemma load_palette_verify_stops_witness :
  ∃ w',
    fl2k_load_custom_palette (Some opened_dev) (replicate 256 0) short_bus
    = Some (FL2K_ERROR_OTHER, w')
    ∧ length (ctrl_log w') = (length (ctrl_log short_bus) + 256 + 2 * 0 + 2)%nat.
Proof.
  apply (load_palette_verify_stops opened_dev (replicate 256 0) short_bus 0).
  - reflexivity.
  - lia.
  - intros k req Hk. lia.
  - left. vm_compute. discriminate.
Defined.

End Palette.

Module ModeSwitch.

Import Ctrl Bits.

Import Palette.

Lemma le32_range data : 0 ≤ le32 data < 2 ^ 32.
Proof. unfold le32, u32. apply Z.mod_pos_bound. lia. Qed.

(** The palette [fl2k_set_enabled_channels] generates: entry [i] holds
    [i] in the byte of every enabled channel. *)
Definition linear_palette (chan_mask : Z) : list Z :=
  (λ i, (if decide (Z.land chan_mask R_EN ≠ 0) then i * 65536 else 0)
        + (if decide (Z.land chan_mask G_EN ≠ 0) then i * 256 else 0)
        + (if decide (Z.land chan_mask B_EN ≠ 0) then i else 0)) <$> seqZ 0 256.

Lemma lor_channels (r g b : bool) (i : Z) :
  0 ≤ i < 256 →
  Z.lor (Z.lor (if r then Z.shiftl i 16 else 0) (if g then Z.shiftl i 8 else 0))
        (if b then i else 0)
  = (if r then i * 65536 else 0) + (if g then i * 256 else 0) + (if b then i else 0).
Proof.
  intros Hi.
  assert (Forall (λ i,
            Z.lor (Z.lor (if r then Z.shiftl i 16 else 0) (if g then Z.shiftl i 8 else 0))
                  (if b then i else 0)
            = (if r then i * 65536 else 0) + (if g then i * 256 else 0)
              + (if b then i else 0)) (seqZ 0 256)) as Hall.
  { destruct r, g, b; apply (bool_decide_unpack _); vm_compute; exact I. }
  apply (proj1 (Forall_forall _ _) Hall). apply elem_of_seqZ. lia.
Qed.

(** X13. [fl2k_set_enabled_channels] loads the palette whose entry [i] is [i] in
    the byte of each channel its mask enables (R: bits 16 to 23, G: bits
    8 to 15, B: bits 0 to 7) and 0 in the others: 256 entries of 24
    bits. *)
Theorem set_enabled_channels_linear (d : fl2k_dev) (chan_mask : Z) (w : world) :
  fl2k_set_enabled_channels (Some d) chan_mask w
  = fl2k_load_custom_palette (Some d) (linear_palette chan_mask) w
  ∧ length (linear_palette chan_mask) = 256%nat
  ∧ Forall (λ p, 0 ≤ p < 2 ^ 24) (linear_palette chan_mask).
Proof.
  split; [|split].
  - unfold fl2k_set_enabled_channels, linear_palette. f_equal.
    apply list_fmap_ext. intros _ i Hi%list_elem_of_lookup_2%elem_of_seqZ.
    unfold FL2K_PALETTE_SIZE in Hi.
    pose proof (lor_channels (bool_decide (Z.land chan_mask R_EN ≠ 0))
                  (bool_decide (Z.land chan_mask G_EN ≠ 0))
                  (bool_decide (Z.land chan_mask B_EN ≠ 0)) i ltac:(lia)) as H.
    repeat case_bool_decide; repeat destruct (decide _); try done.
  - unfold linear_palette. by rewrite length_fmap, length_seqZ.
  - unfold linear_palette. apply Forall_fmap, Forall_forall.
    intros i Hi%elem_of_seqZ. cbn. repeat destruct (decide _); lia.
Qed.

(** X14. [fl2k_set_mode] always returns, with 0 or a negative value; its
    only effects are control transfers and messages.  After a call that
    returned 0 the handle holds the requested mode; after a call that
    failed the handle is as it was.  No field other than the mode ever
    changes. *)
Theorem set_mode_outcome (d : fl2k_dev) (m : Z) (w : world) :
  ∃ r d' reqs msgs,
    fl2k_set_mode (Some d) m w = Some ((r, Some d'), sent reqs msgs w)
    ∧ r ≤ 0
    ∧ (r = 0 → fl2k_get_mode (Some d') = Some m)
    ∧ (r < 0 → d' = d)
    ∧ d' = set_mode (mode d') d.
Proof.
  assert (d = set_mode (mode d) d) as Heta by (by destruct d).
  unfold fl2k_set_mode.
  destruct (decide (async_status d = FL2K_RUNNING)).
  { exists FL2K_ERROR_BUSY, d, [], []. rewrite sent_nil. split; [done|].
    split; [done|]. split; [done|]. done. }
  destruct (decide (mode d = m)) as [<-|Hm].
  { exists FL2K_SUCCESS, d, [], []. rewrite sent_nil. split; [done|].
    split; [done|]. split; [done|]. done. }
  rewrite bind_run, read_reg_sent. cbv zeta.
  destruct (decide (u32 _ < 4)).
  { rewrite decide_True by (vm_compute; reflexivity).
    eexists _, d, _, _. split; [reflexivity|]. split; [done|]. split; [done|]. done. }
  rewrite decide_False by (vm_compute; discriminate).
  cbn [default from_option id]. rewrite bind_run.
  set (w1 := sent _ _ w).
  match goal with |- context [?k w1] =>
    lazymatch type of k with M (option Z) =>
      assert (∃ a reqs msgs, k w1 = Some (a, sent reqs msgs w)) as (a & reqs & msgs & ->)
    end
  end.
  { destruct (decide (m = FL2K_MODE_SINGLECHAN)).
    - rewrite bind_run.
      destruct (ctrl_only_set_enabled_channels d R_EN w1) as (r' & l1 & m1 & ->).
      unfold w1. rewrite sent_sent, ret_run. by eexists _, _, _.
    - destruct (decide (m = FL2K_MODE_MULTICHAN)); rewrite ret_run; by eexists _, _, _. }
  destruct a as [reg|].
  2:{ rewrite ret_run. eexists _, d, _, _. split; [reflexivity|].
      split; [done|]. split; [done|]. done. }
  rewrite bind_run, write_reg_sent, sent_sent.
  destruct (decide (u32 _ ≠ 4)).
  - rewrite decide_False by (vm_compute; discriminate).
    rewrite ret_run. eexists _, d, _, _. split; [reflexivity|].
    split; [done|]. split; [done|]. done.
  - rewrite decide_True by reflexivity.
    rewrite ret_run. eexists _, (set_mode m d), _, _. split; [reflexivity|].
    split; [done|]. split; [done|]. split; [done|]. reflexivity.
Qed.

Lemma testbit_palette_bits n :
  0 ≤ n → Z.testbit (Z.lor (Z.shiftl 1 25) (Z.shiftl 1 26)) n = bool_decide (n = 25 ∨ n = 26).
Proof.
  intros Hn. rewrite Z.lor_spec, !I2cWord.testbit_pow2 by lia.
  repeat case_bool_decide; (done || lia).
Qed.

Lemma testbit_clear_mask n :
  0 ≤ n →
  Z.testbit (u32 (Z.lnot (Z.lor (Z.shiftl 1 25) (Z.shiftl 1 26)))) n
  = bool_decide (n < 32 ∧ n ≠ 25 ∧ n ≠ 26).
Proof.
  intros Hn. unfold u32. destruct (decide (n < 32)).
  - rewrite Z.mod_pow2_bits_low, Z.lnot_spec, testbit_palette_bits by lia.
    repeat case_bool_decide; (done || lia).
  - rewrite Z.mod_pow2_bits_high by lia. by rewrite bool_decide_eq_false_2 by lia.
Qed.

(** X15. A mode switch that is carried out reads register 0x8004 and writes
    it back with bits 25 and 26 set (single-channel mode) or cleared
    (multi-channel mode) and every other bit as read; for multi-channel
    mode these are its only two transfers.  The call returns 0 and the
    handle takes the mode exactly when that write transfers 4 bytes; a
    failure to load the palette does not make the call fail. *)
Theorem set_mode_register (d : fl2k_dev) (m : Z) (w : world) :
  async_status d ≠ FL2K_RUNNING → mode d ≠ m →
  m = FL2K_MODE_SINGLECHAN ∨ m = FL2K_MODE_MULTICHAN →
  4 ≤ u32 (ctrl_ret (bus w (length (ctrl_log w)) (read_request 0x8004))) →
  ∃ r d' v' between msgs,
    fl2k_set_mode (Some d) m w
    = Some ((r, Some d'),
            sent (Pll.write_request 0x8004 v' :: between ++ [read_request 0x8004]) msgs w)
    ∧ Z.testbit v' 25 = bool_decide (m = FL2K_MODE_SINGLECHAN)
    ∧ Z.testbit v' 26 = bool_decide (m = FL2K_MODE_SINGLECHAN)
    ∧ (∀ n, 0 ≤ n → n ≠ 25 → n ≠ 26 →
         Z.testbit v' n
         = Z.testbit (le32 (data_in (bus w (length (ctrl_log w)) (read_request 0x8004)))) n)
    ∧ (m = FL2K_MODE_MULTICHAN → between = [])
    ∧ (if decide (u32 (ctrl_ret (bus w (length between + 1 + length (ctrl_log w))%nat
                                   (Pll.write_request 0x8004 v'))) = 4)
       then r = 0 ∧ d' = set_mode m d
       else r = FL2K_ERROR_OTHER ∧ d' = d).
Proof.
  intros Hrun Hm Hmode Hread. unfold fl2k_set_mode.
  rewrite decide_False by done. rewrite decide_False by done.
  rewrite bind_run, read_reg_sent. cbv zeta.
  rewrite decide_False by lia.
  rewrite decide_False by (vm_compute; discriminate).
  cbn [default from_option id]. rewrite bind_run.
  set (v := le32 _). set (w1 := sent _ _ w).
  pose proof (le32_range (data_in (bus w (length (ctrl_log w)) (read_request 0x8004)))) as Hv.
  fold v in Hv.
  destruct Hmode as [->| ->].
  - rewrite decide_True by done. rewrite bind_run.
    destruct (ctrl_only_set_enabled_channels d R_EN w1) as (r' & l1 & m1 & ->).
    unfold w1. rewrite sent_sent, ret_run, bind_run, write_reg_sent, sent_sent.
    rewrite bus_sent, ctrl_log_sent, length_app. cbn [app length].
    set (v' := Z.lor v _).
    replace (length (l1 ++ [read_request 32772]) + length (ctrl_log w))%nat
      with (length l1 + 1 + length (ctrl_log w))%nat
      by (rewrite length_app; cbn [length]; lia).
    exists (if decide (u32 (ctrl_ret (bus w (length l1 + 1 + length (ctrl_log w))%nat
                                        (Pll.write_request 0x8004 v'))) ≠ 4)
            then FL2K_ERROR_OTHER else FL2K_SUCCESS),
           (if decide (u32 (ctrl_ret (bus w (length l1 + 1 + length (ctrl_log w))%nat
                                        (Pll.write_request 0x8004 v'))) ≠ 4)
            then d else set_mode FL2K_MODE_SINGLECHAN d),
           v', l1, (m1 ++ []).
    split; [|split; [|split; [|split; [|split]]]].
    + destruct (decide (u32 _ ≠ 4)).
      * rewrite decide_False by (vm_compute; discriminate). reflexivity.
      * rewrite decide_True by reflexivity. reflexivity.
    + unfold v'. rewrite Z.lor_spec, testbit_palette_bits by lia.
      rewrite (bool_decide_eq_true_2 (25 = 25 ∨ _)) by lia. by rewrite orb_true_r.
    + unfold v'. rewrite Z.lor_spec, testbit_palette_bits by lia.
      rewrite (bool_decide_eq_true_2 (26 = 25 ∨ _)) by lia. by rewrite orb_true_r.
    + intros n Hn H25 H26. unfold v'. rewrite Z.lor_spec, testbit_palette_bits by lia.
      rewrite bool_decide_eq_false_2 by lia. by rewrite orb_false_r.
    + intros [=].
    + destruct (decide (u32 _ ≠ 4)).
      * by rewrite decide_False by done.
      * destruct (decide (u32 _ = 4)) as [He|He]; [done|by exfalso].
  - rewrite decide_False by (vm_compute; discriminate).
    rewrite decide_True by done.
    rewrite ret_run, bind_run, write_reg_sent. unfold w1.
    rewrite sent_sent, bus_sent, ctrl_log_sent. cbn [app length].
    set (v' := Z.land v _).
    exists (if decide (u32 (ctrl_ret (bus w (S (length (ctrl_log w)))
                                        (Pll.write_request 0x8004 v'))) ≠ 4)
            then FL2K_ERROR_OTHER else FL2K_SUCCESS),
           (if decide (u32 (ctrl_ret (bus w (S (length (ctrl_log w)))
                                        (Pll.write_request 0x8004 v'))) ≠ 4)
            then d else set_mode FL2K_MODE_MULTICHAN d),
           v', [], [].
    split; [|split; [|split; [|split; [|split]]]].
    + destruct (decide (u32 _ ≠ 4)).
      * rewrite decide_False by (vm_compute; discriminate). reflexivity.
      * rewrite decide_True by reflexivity. reflexivity.
    + unfold v'. rewrite Z.land_spec, testbit_clear_mask by lia.
      rewrite (bool_decide_eq_false_2 (25 < 32 ∧ _)) by lia. by rewrite andb_false_r.
    + unfold v'. rewrite Z.land_spec, testbit_clear_mask by lia.
      rewrite (bool_decide_eq_false_2 (26 < 32 ∧ _)) by lia. by rewrite andb_false_r.
    + intros n Hn H25 H26. unfold v'. rewrite Z.land_spec, testbit_clear_mask by lia.
      destruct (decide (n < 32)).
      * rewrite bool_decide_eq_true_2 by lia. by rewrite andb_true_r.
      * rewrite (I2cWord.testbit_below v 32 n) by lia. done.
    + done.
    + cbn [length Nat.add].
      destruct (decide (u32 _ ≠ 4)).
      * by rewrite decide_False by done.
      * destruct (decide (u32 _ = 4)) as [He|He]; [done|by exfalso].
Qed.

Lemma set_mode_register_witness :
  ∃ r d' v' between msgs,
    fl2k_set_mode (Some opened_dev) FL2K_MODE_SINGLECHAN Pool.quiet
    = Some ((r, Some d'),
            sent (Pll.write_request 0x8004 v' :: between ++ [read_request 0x8004]) msgs Pool.quiet)
    ∧ Z.testbit v' 25 = bool_decide (FL2K_MODE_SINGLECHAN = FL2K_MODE_SINGLECHAN)
    ∧ Z.testbit v' 26 = bool_decide (FL2K_MODE_SINGLECHAN = FL2K_MODE_SINGLECHAN)
    ∧ (∀ n, 0 ≤ n → n ≠ 25 → n ≠ 26 →
         Z.testbit v' n
         = Z.testbit (le32 (data_in (bus Pool.quiet (length (ctrl_log Pool.quiet))
                                       (read_request 0x8004)))) n)
    ∧ (FL2K_MODE_SINGLECHAN = FL2K_MODE_MULTICHAN → between = [])
    ∧ (if decide (u32 (ctrl_ret (bus Pool.quiet
                                   (length between + 1 + length (ctrl_log Pool.quiet))%nat
                                   (Pll.write_request 0x8004 v'))) = 4)
       then r = 0 ∧ d' = set_mode FL2K_MODE_SINGLECHAN opened_dev
       else r = FL2K_ERROR_OTHER ∧ d' = opened_dev).
Proof.
  apply (set_mode_register opened_dev FL2K_MODE_SINGLECHAN Pool.quiet).
  - discriminate.
  - discriminate.
  - by left.
  - vm_compute. discriminate.
Defined.

End ModeSwitch.

Module Engine.

Import Ctrl Bits.

Import Pool.

(** ** Stopping *)

(** X16. [fl2k_stop_tx] never leaves the handle RUNNING and touches only the
    status and the cancel flag.  It returns 0 unless the handle is
    INACTIVE, in which case it returns FL2K_ERROR_BUSY and changes nothing.
    A RUNNING handle becomes CANCELING with the cancel flag set; a second
    call forces it to INACTIVE. *)
Theorem stop_tx_machine (d : fl2k_dev) :
  ∃ r d',
    fl2k_stop_tx (Some d) = (r, Some d')
    ∧ async_status d' ≠ FL2K_RUNNING
    ∧ d' = set_async_cancel (async_cancel d') (set_async_status (async_status d') d)
    ∧ (async_status d = FL2K_INACTIVE → r = FL2K_ERROR_BUSY ∧ d' = d)
    ∧ (async_status d ≠ FL2K_INACTIVE → r = 0)
    ∧ (async_status d = FL2K_RUNNING →
         async_status d' = FL2K_CANCELING ∧ async_cancel d' = 1)
    ∧ (async_status <$> (fl2k_stop_tx (Some d')).2) = Some FL2K_INACTIVE.
Proof.
  unfold fl2k_stop_tx. destruct d as [? ? ? ? ? st ? ? ? ? ? ?].
  destruct st; cbn; eexists _, _; (split; [reflexivity|]); cbn; repeat split; try done.
Qed.

(** ** Picking a transfer *)

Lemma next_xfer_loop_first_empty pool (a n : nat) nb ns :
  (a + n ≤ length pool)%nat →
  ∃ r, next_xfer_loop pool BUF_EMPTY (seq a n) nb ns = Some r ∧
    match r with
    | Some i =>
        (a ≤ i < a + n)%nat ∧ slot_state pool i = Some BUF_EMPTY
        ∧ ∀ j, (a ≤ j < i)%nat → slot_state pool j ≠ Some BUF_EMPTY
    | None => ∀ j, (a ≤ j < a + n)%nat → slot_state pool j ≠ Some BUF_EMPTY
    end.
Proof.
  revert a nb ns. induction n as [|n IH]; intros a nb ns Hlen.
  { cbn. rewrite decide_False by (by intros [? _]). eexists; split; [done|].
    intros j Hj. lia. }
  destruct (lookup_lt_is_Some_2 pool a ltac:(lia)) as [x Hx].
  cbn [seq next_xfer_loop]. rewrite Hx. cbn [mbind option_bind].
  assert (slot_state pool a = state <$> user_data x) as Hslot
    by (unfold slot_state; by rewrite Hx).
  assert (slot_state pool a ≠ Some BUF_EMPTY →
          ∃ r, next_xfer_loop pool BUF_EMPTY (seq (S a) n) nb ns = Some r ∧
            match r with
            | Some i =>
                (a ≤ i < a + S n)%nat ∧ slot_state pool i = Some BUF_EMPTY
                ∧ ∀ j, (a ≤ j < i)%nat → slot_state pool j ≠ Some BUF_EMPTY
            | None => ∀ j, (a ≤ j < a + S n)%nat → slot_state pool j ≠ Some BUF_EMPTY
            end) as Hskip.
  { intros Hne. destruct (IH (S a) nb ns ltac:(lia)) as (r & -> & Hspec).
    exists r. split; [done|]. destruct r as [i|].
    - destruct Hspec as (Hi & He & Hb). split; [lia|]. split; [done|].
      intros j Hj. destruct (decide (j = a)) as [->|]; [done|]. apply Hb. lia.
    - intros j Hj. destruct (decide (j = a)) as [->|]; [done|]. apply Hspec. lia. }
  destruct (user_data x) as [info|] eqn:Hinfo.
  2:{ apply Hskip. by rewrite Hslot. }
  destruct (decide (state info = BUF_EMPTY)) as [Hst|Hst].
  - rewrite decide_True by done. eexists; split; [done|].
    split; [lia|]. split; [by rewrite Hslot; cbn; rewrite Hst|]. intros j Hj. lia.
  - apply Hskip. rewrite Hslot. cbn. by intros [=].
Qed.

Lemma next_xfer_loop_submitted pool idx nb ns :
  Forall (λ i, i < length pool)%nat idx →
  next_xfer_loop pool BUF_SUBMITTED idx nb ns = Some None.
Proof.
  revert nb ns. induction idx as [|i idx IH]; intros nb ns Hidx.
  { cbn. by rewrite decide_False by (by intros [? _]). }
  apply Forall_cons in Hidx as [Hi Hidx].
  destruct (lookup_lt_is_Some_2 pool i Hi) as [x Hx].
  cbn [next_xfer_loop]. rewrite Hx. cbn [mbind option_bind].
  destruct (user_data x) as [info|]; [|by apply IH].
  destruct (decide (state info = BUF_SUBMITTED)); [|by apply IH].
  rewrite decide_False by done.
  destruct (decide _); by apply IH.
Qed.

(** X17. Asked for an EMPTY transfer, [fl2k_get_next_xfer] returns the one of
    lowest index, and NULL only if none is EMPTY; asked for a SUBMITTED
    one, it always returns NULL. *)
Theorem get_next_xfer_empty (d : fl2k_dev) :
  pool_wf d →
  (∃ r, fl2k_get_next_xfer d BUF_EMPTY = Some r ∧
     match r with
     | Some i =>
         slot_state (xfer d) i = Some BUF_EMPTY
         ∧ ∀ j, (j < i)%nat → slot_state (xfer d) j ≠ Some BUF_EMPTY
     | None => ∀ j, slot_state (xfer d) j ≠ Some BUF_EMPTY
     end)
  ∧ fl2k_get_next_xfer d BUF_SUBMITTED = Some None.
Proof.
  intros Hwf. unfold fl2k_get_next_xfer.
  assert (Forall (λ i, i < length (xfer d))%nat (seq 0 (Z.to_nat (xfer_buf_num d)))) as Hidx.
  { apply Forall_forall. intros i Hi%elem_of_seq. rewrite <- Hwf. lia. }
  split; [|by apply next_xfer_loop_submitted].
  destruct (next_xfer_loop_first_empty (xfer d) 0 (Z.to_nat (xfer_buf_num d)) (-1) 0)
    as (r & -> & Hspec); [rewrite Hwf; lia|].
  exists r. split; [done|]. destruct r as [i|].
  - destruct Hspec as (Hi & He & Hb). split; [done|]. intros j Hj. apply Hb. lia.
  - intros j. destruct (decide (j < length (xfer d))%nat) as [Hj|Hj].
    + apply Hspec. rewrite Hwf. lia.
    + unfold slot_state. rewrite lookup_ge_None_2 by lia. done.
Qed.

Lemma get_next_xfer_empty_witness :
  (∃ r, fl2k_get_next_xfer
          (small_dev (XferInfo 0 BUF_SUBMITTED) (XferInfo 0 BUF_EMPTY) (XferInfo 0 BUF_EMPTY))
          BUF_EMPTY = Some r ∧
     match r with
     | Some i =>
         slot_state (small_pool (XferInfo 0 BUF_SUBMITTED) (XferInfo 0 BUF_EMPTY)
                                (XferInfo 0 BUF_EMPTY)) i = Some BUF_EMPTY
         ∧ ∀ j, (j < i)%nat →
             slot_state (small_pool (XferInfo 0 BUF_SUBMITTED) (XferInfo 0 BUF_EMPTY)
                                    (XferInfo 0 BUF_EMPTY)) j ≠ Some BUF_EMPTY
     | None =>
         ∀ j, slot_state (small_pool (XferInfo 0 BUF_SUBMITTED) (XferInfo 0 BUF_EMPTY)
                                     (XferInfo 0 BUF_EMPTY)) j ≠ Some BUF_EMPTY
     end)
  ∧ fl2k_get_next_xfer
      (small_dev (XferInfo 0 BUF_SUBMITTED) (XferInfo 0 BUF_EMPTY) (XferInfo 0 BUF_EMPTY))
      BUF_SUBMITTED = Some None.
Proof.
  apply (get_next_xfer_empty
           (small_dev (XferInfo 0 BUF_SUBMITTED) (XferInfo 0 BUF_EMPTY) (XferInfo 0 BUF_EMPTY))).
  reflexivity.
Defined.

(** ** The completion callback *)

(** The world after one submission, [n] signals on the condition
    variable and the messages [msgs]. *)
Definition resubmitted (sub : nat * list Z) (n : nat) (msgs : list diag) (w : world) : world :=
  World (bus w) (ctrl_log w) (submit_ret w) (sub :: submit_log w) (n + cond_signals w)
        (malloc_ok w) (dev_mem_alloc_ret w) (dev_mem_allocs w) (pthread_create_ret w) (threads w)
        (msgs ++ stderr w).

(** What the callback does to the handle when it gives the device up. *)
Definition lose_device (d : fl2k_dev) : fl2k_dev :=
  default (set_dev_lost 1 d) (fl2k_stop_tx (Some (set_dev_lost 1 d))).2.

(** The callback on a transfer that completed while the engine is
    RUNNING: one submission, then the check of its result. *)
Lemma callback_running d k x w :
  pool_wf d → xfer d !! k = Some x → is_Some (user_data x) →
  status x = LIBUSB_TRANSFER_COMPLETED → async_status d = FL2K_RUNNING →
  ∃ d1 sub msgs,
    (∃ nx, fl2k_get_next_xfer d BUF_FILLED = Some nx ∧
       match nx with
       | Some j => ∃ y s, xfer d !! j = Some y ∧ filled (xfer d) j s
                     ∧ d1 = set_state k BUF_EMPTY (set_state j BUF_SUBMITTED d)
                     ∧ sub = (j, xfer_buffer y) ∧ msgs = []
       | None => d1 = set_underflow_cnt (u32 (underflow_cnt d + 1)) d
                 ∧ sub = (k, xfer_buffer x) ∧ msgs = [Resubmitted]
       end)
    ∧ _libusb_callback d k w
      = Some (if decide (submit_ret w (length (submit_log w)) = LIBUSB_ERROR_NO_DEVICE)
              then (lose_device d1,
                    resubmitted sub 2
                      (CallbackCanceling (status x) LIBUSB_ERROR_NO_DEVICE :: msgs) w)
              else (d1, resubmitted sub 1 msgs w)).
Proof.
  intros Hwf Hx [info Hinfo] Hst Hrun.
  destruct (get_next_filled d Hwf) as (nx & Hnext & Hspec).
  unfold _libusb_callback.
  rewrite bind_run, Hx, lift_run, bind_run, Hinfo, lift_run.
  rewrite (decide_True (P := status x = _)) by done.
  rewrite (decide_True (P := async_status d = _)) by done.
  rewrite bind_run, bind_run, Hnext, lift_run.
  set (r := submit_ret w (length (submit_log w))).
  assert (∀ P : Prop, P ∨ r = LIBUSB_ERROR_NO_DEVICE ↔ (P ∨ r = LIBUSB_ERROR_NO_DEVICE)) as _ by done.
  destruct nx as [j|].
  - destruct Hspec as (s & Hf & _). pose proof Hf as (y & Hy & Hu).
    rewrite bind_run, Hy, lift_run, bind_run, Hu, lift_run.
    rewrite bind_run. unfold libusb_submit_transfer at 1. fold r.
    rewrite bind_run. unfold pthread_cond_signal at 1. rewrite ret_run.
    exists (set_state k BUF_EMPTY (set_state j BUF_SUBMITTED d)), (j, xfer_buffer y), [].
    split. { eexists. split; [done|]. by exists y, s. }
    destruct (decide (r = LIBUSB_ERROR_NO_DEVICE)) as [Hr|Hr].
    + rewrite decide_True by (by right).
      rewrite bind_run. unfold pthread_cond_signal at 1.
      rewrite bind_run. unfold fprintf_stderr at 1. rewrite ret_run, Hr. reflexivity.
    + rewrite decide_False; [reflexivity|].
      rewrite Hst. intros [[_ H]|H]; [by apply H|done].
  - rewrite bind_run. unfold libusb_submit_transfer at 1. fold r.
    rewrite bind_run. unfold pthread_cond_signal at 1.
    rewrite bind_run. unfold fprintf_stderr at 1. rewrite ret_run.
    exists (set_underflow_cnt (u32 (underflow_cnt d + 1)) d), (k, xfer_buffer x), [Resubmitted].
    split. { eexists. split; [done|]. done. }
    destruct (decide (r = LIBUSB_ERROR_NO_DEVICE)) as [Hr|Hr].
    + rewrite decide_True by (by right).
      rewrite bind_run. unfold pthread_cond_signal at 1.
      rewrite bind_run. unfold fprintf_stderr at 1. rewrite ret_run, Hr. reflexivity.
    + rewrite decide_False; [reflexivity|].
      rewrite Hst. intros [[_ H]|H]; [by apply H|done].
Qed.

Lemma lose_device_spec d :
  dev_lost (lose_device d) = 1 ∧ async_status (lose_device d) ≠ FL2K_RUNNING
  ∧ xfer (lose_device d) = xfer d ∧ underflow_cnt (lose_device d) = underflow_cnt d
  ∧ (async_status d = FL2K_RUNNING →
       async_status (lose_device d) = FL2K_CANCELING ∧ async_cancel (lose_device d) = 1).
Proof.
  unfold lose_device, fl2k_stop_tx. destruct d as [? ? ? ? ? st ? ? ? ? ? ?].
  destruct st; cbn; repeat split; done.
Qed.

(** X18. Unless the transfer COMPLETED while the engine is RUNNING, the
    callback submits nothing.  For a CANCELLED transfer, and for a
    COMPLETED one while the engine is not RUNNING, it has no effect at
    all.  For every other status it marks the device lost and stops the
    engine (RUNNING becomes CANCELING with the cancel flag set), signals
    the condition variable once and prints one message; the pool is left
    as it is. *)
Theorem callback_status_dispatch (d : fl2k_dev) (k : nat) (x : libusb_transfer) (w : world) :
  xfer d !! k = Some x → is_Some (user_data x) →
  (status x = LIBUSB_TRANSFER_CANCELLED
   ∨ (status x = LIBUSB_TRANSFER_COMPLETED ∧ async_status d ≠ FL2K_RUNNING) →
   _libusb_callback d k w = Some (d, w))
  ∧ (status x ≠ LIBUSB_TRANSFER_CANCELLED → status x ≠ LIBUSB_TRANSFER_COMPLETED →
     ∃ d' w',
       _libusb_callback d k w = Some (d', w')
       ∧ submit_log w' = submit_log w
       ∧ cond_signals w' = S (cond_signals w)
       ∧ stderr w' = CallbackCanceling (status x) 0 :: stderr w
       ∧ dev_lost d' = 1 ∧ async_status d' ≠ FL2K_RUNNING ∧ xfer d' = xfer d
       ∧ (async_status d = FL2K_RUNNING →
            async_status d' = FL2K_CANCELING ∧ async_cancel d' = 1)).
Proof.
  intros Hx [info Hinfo]. split.
  - intros Hcase. unfold _libusb_callback.
    rewrite bind_run, Hx, lift_run, bind_run, Hinfo, lift_run, bind_run.
    destruct Hcase as [Hst|[Hst Hrun]]; rewrite Hst.
    + rewrite decide_False by done. rewrite ret_run.
      rewrite decide_False; [done|]. intros [[H _]|H]; [by apply H|done].
    + rewrite decide_True by done. rewrite decide_False by done. rewrite ret_run.
      rewrite decide_False; [done|]. intros [[_ H]|H]; [by apply H|done].
  - intros Hc Hd. unfold _libusb_callback.
    rewrite bind_run, Hx, lift_run, bind_run, Hinfo, lift_run, bind_run.
    rewrite decide_False by done. rewrite ret_run.
    rewrite decide_True by (by left).
    rewrite bind_run. unfold pthread_cond_signal at 1.
    rewrite bind_run. unfold fprintf_stderr at 1. rewrite ret_run.
    destruct (lose_device_spec d) as (H1 & H2 & H3 & _ & H5).
    eexists _, _. split; [reflexivity|]. cbn [submit_log cond_signals stderr].
    fold (lose_device d). done.
Qed.

Lemma callback_status_dispatch_witness :
  (LIBUSB_TRANSFER_ERROR = LIBUSB_TRANSFER_CANCELLED
   ∨ (LIBUSB_TRANSFER_ERROR = LIBUSB_TRANSFER_COMPLETED
      ∧ async_status (set_status 0 LIBUSB_TRANSFER_ERROR
                        (small_dev (XferInfo 0 BUF_SUBMITTED) (XferInfo 0 BUF_EMPTY)
                                   (XferInfo 0 BUF_EMPTY))) ≠ FL2K_RUNNING) →
   _libusb_callback (set_status 0 LIBUSB_TRANSFER_ERROR
                       (small_dev (XferInfo 0 BUF_SUBMITTED) (XferInfo 0 BUF_EMPTY)
                                  (XferInfo 0 BUF_EMPTY))) 0 quiet
   = Some (set_status 0 LIBUSB_TRANSFER_ERROR
             (small_dev (XferInfo 0 BUF_SUBMITTED) (XferInfo 0 BUF_EMPTY)
                        (XferInfo 0 BUF_EMPTY)), quiet))
  ∧ (LIBUSB_TRANSFER_ERROR ≠ LIBUSB_TRANSFER_CANCELLED →
     LIBUSB_TRANSFER_ERROR ≠ LIBUSB_TRANSFER_COMPLETED →
     ∃ d' w',
       _libusb_callback (set_status 0 LIBUSB_TRANSFER_ERROR
                           (small_dev (XferInfo 0 BUF_SUBMITTED) (XferInfo 0 BUF_EMPTY)
                                      (XferInfo 0 BUF_EMPTY))) 0 quiet
       = Some (d', w')
       ∧ submit_log w' = submit_log quiet
       ∧ cond_signals w' = S (cond_signals quiet)
       ∧ stderr w' = CallbackCanceling LIBUSB_TRANSFER_ERROR 0 :: stderr quiet
       ∧ dev_lost d' = 1 ∧ async_status d' ≠ FL2K_RUNNING
       ∧ xfer d' = xfer (set_status 0 LIBUSB_TRANSFER_ERROR
                           (small_dev (XferInfo 0 BUF_SUBMITTED) (XferInfo 0 BUF_EMPTY)
                                      (XferInfo 0 BUF_EMPTY)))
       ∧ (async_status (set_status 0 LIBUSB_TRANSFER_ERROR
                          (small_dev (XferInfo 0 BUF_SUBMITTED) (XferInfo 0 BUF_EMPTY)
                                     (XferInfo 0 BUF_EMPTY))) = FL2K_RUNNING →
            async_status d' = FL2K_CANCELING ∧ async_cancel d' = 1)).
Proof.
  apply (callback_status_dispatch
           (set_status 0 LIBUSB_TRANSFER_ERROR
              (small_dev (XferInfo 0 BUF_SUBMITTED) (XferInfo 0 BUF_EMPTY)
                         (XferInfo 0 BUF_EMPTY)))
           0 (Transfer LIBUSB_TRANSFER_ERROR (replicate 24 0) (Some (XferInfo 0 BUF_SUBMITTED)))
           quiet).
  - reflexivity.
  - by eexists.
Defined.

(** X19. The result of the submission in the callback is looked at for one
    value only: if it is LIBUSB_ERROR_NO_DEVICE, the device is marked
    lost and the engine goes to CANCELING with the cancel flag set; for
    every other value, negative or not, the engine stays RUNNING and the
    device is not marked.  Either way exactly one transfer has been
    submitted. *)
Theorem callback_submit_result (d : fl2k_dev) (k : nat) (x : libusb_transfer) (w : world) :
  pool_wf d → xfer d !! k = Some x → is_Some (user_data x) →
  status x = LIBUSB_TRANSFER_COMPLETED → async_status d = FL2K_RUNNING →
  ∃ d' w' sub,
    _libusb_callback d k w = Some (d', w')
    ∧ submit_log w' = sub :: submit_log w
    ∧ (if decide (submit_ret w (length (submit_log w)) = LIBUSB_ERROR_NO_DEVICE)
       then dev_lost d' = 1 ∧ async_status d' = FL2K_CANCELING ∧ async_cancel d' = 1
       else dev_lost d' = dev_lost d ∧ async_status d' = FL2K_RUNNING
            ∧ async_cancel d' = async_cancel d).
Proof.
  intros Hwf Hx Hu Hst Hrun.
  destruct (callback_running d k x w Hwf Hx Hu Hst Hrun)
    as (d1 & sub & msgs & (nx & _ & Hd1) & ->).
  assert (dev_lost d1 = dev_lost d ∧ async_status d1 = FL2K_RUNNING
          ∧ async_cancel d1 = async_cancel d) as (Hl & Hs & Hc).
  { destruct nx as [j|].
    - destruct Hd1 as (y & s & _ & _ & -> & _). done.
    - destruct Hd1 as (-> & _). done. }
  destruct (decide _).
  - eexists _, _, sub. split; [reflexivity|]. split; [done|].
    destruct (lose_device_spec d1) as (H1 & _ & _ & _ & H5).
    destruct (H5 Hs). done.
  - eexists _, _, sub. split; [reflexivity|]. done.
Qed.

Lemma callback_submit_result_witness :
  ∃ d' w' sub,
    _libusb_callback
      (small_dev (XferInfo 0 BUF_SUBMITTED) (XferInfo 0 BUF_EMPTY) (XferInfo 0 BUF_EMPTY))
      0 quiet = Some (d', w')
    ∧ submit_log w' = sub :: submit_log quiet
    ∧ (if decide (submit_ret quiet (length (submit_log quiet)) = LIBUSB_ERROR_NO_DEVICE)
       then dev_lost d' = 1 ∧ async_status d' = FL2K_CANCELING ∧ async_cancel d' = 1
       else dev_lost d'
            = dev_lost (small_dev (XferInfo 0 BUF_SUBMITTED) (XferInfo 0 BUF_EMPTY)
                                  (XferInfo 0 BUF_EMPTY))
            ∧ async_status d' = FL2K_RUNNING
            ∧ async_cancel d'
              = async_cancel (small_dev (XferInfo 0 BUF_SUBMITTED) (XferInfo 0 BUF_EMPTY)
                                        (XferInfo 0 BUF_EMPTY))).
Proof.
  apply (callback_submit_result
           (small_dev (XferInfo 0 BUF_SUBMITTED) (XferInfo 0 BUF_EMPTY) (XferInfo 0 BUF_EMPTY))
           0 (Transfer LIBUSB_TRANSFER_COMPLETED (replicate 24 0)
                (Some (XferInfo 0 BUF_SUBMITTED))) quiet).
  - reflexivity.
  - reflexivity.
  - by eexists.
  - reflexivity.
  - reflexivity.
Defined.

(** ** Transfers in flight *)

(** The number of transfers of the pool in state [st]. *)
Definition count_state (st : fl2k_buf_state) (pool : list libusb_transfer) : nat :=
  length (filter (λ x, state <$> user_data x = Some st) pool).

Lemma count_state_alter st f pool i x :
  pool !! i = Some x →
  (count_state st (alter f i pool)
   + (if decide (state <$> user_data x = Some st) then 1 else 0)
   = count_state st pool
     + (if decide (state <$> user_data (f x) = Some st) then 1 else 0))%nat.
Proof.
  unfold count_state. revert i. induction pool as [|y pool IH]; intros i Hi; [done|].
  destruct i as [|i].
  - injection Hi as ->. cbn [alter list_alter]. rewrite !filter_cons.
    repeat destruct (decide _); cbn [length]; lia.
  - cbn [alter list_alter]. rewrite !filter_cons. cbn in Hi. specialize (IH i Hi).
    change (list_alter f i pool) with (alter f i pool).
    repeat destruct (decide _); cbn [length] in *; lia.
Qed.

Lemma set_state_count st d i x s0 st0 st1 :
  xfer d !! i = Some x → user_data x = Some (XferInfo s0 st0) →
  (count_state st (xfer (set_state i st1 d)) + (if decide (st0 = st) then 1 else 0)
   = count_state st (xfer d) + (if decide (st1 = st) then 1 else 0))%nat.
Proof.
  intros Hx Hu. unfold set_state. cbn [xfer set_xfer].
  pose proof (count_state_alter st
    (λ x, Transfer (status x) (xfer_buffer x)
            ((λ info, XferInfo (seqno info) st1) <$> user_data x)) (xfer d) i x Hx) as H.
  cbn [user_data] in H. rewrite Hu in H. cbn in H.
  repeat destruct (decide _); try lia; try congruence.
Qed.

Lemma set_state_lookup_ne d i j st : i ≠ j → xfer (set_state i st d) !! j = xfer d !! j.
Proof. intros. unfold set_state. cbn [xfer set_xfer]. by rewrite list_lookup_alter_ne. Qed.

Lemma set_state_buffers d i st :
  xfer_buffer <$> xfer (set_state i st d) = xfer_buffer <$> xfer d.
Proof.
  unfold set_state. cbn [xfer set_xfer]. generalize (xfer d). intros pool. revert i.
  induction pool as [|x pool IH]; intros i; [done|].
  destruct i as [|i]; cbn; [done|]. f_equal. apply IH.
Qed.

(** X20. When a SUBMITTED transfer completes while the engine is RUNNING, the
    callback submits exactly one transfer, and afterwards as many
    transfers are SUBMITTED as before: either a FILLED one has taken the
    place of the completed one, which is now EMPTY, or the completed one
    is on the wire again.  No buffer is written. *)
Theorem callback_keeps_in_flight (d : fl2k_dev) (k : nat) (s : Z) (x : libusb_transfer)
    (w : world) :
  pool_wf d → xfer d !! k = Some x → user_data x = Some (XferInfo s BUF_SUBMITTED) →
  status x = LIBUSB_TRANSFER_COMPLETED → async_status d = FL2K_RUNNING →
  ∃ d' w' sub,
    _libusb_callback d k w = Some (d', w')
    ∧ submit_log w' = sub :: submit_log w
    ∧ count_state BUF_SUBMITTED (xfer d') = count_state BUF_SUBMITTED (xfer d)
    ∧ (count_state BUF_EMPTY (xfer d') + count_state BUF_FILLED (xfer d')
       = count_state BUF_EMPTY (xfer d) + count_state BUF_FILLED (xfer d))%nat
    ∧ xfer_buffer <$> xfer d' = xfer_buffer <$> xfer d.
Proof.
  intros Hwf Hx Hu Hst Hrun.
  destruct (callback_running d k x w Hwf Hx ltac:(by eexists) Hst Hrun)
    as (d1 & sub & msgs & (nx & _ & Hd1) & ->).
  assert (count_state BUF_SUBMITTED (xfer d1) = count_state BUF_SUBMITTED (xfer d)
          ∧ (count_state BUF_EMPTY (xfer d1) + count_state BUF_FILLED (xfer d1)
             = count_state BUF_EMPTY (xfer d) + count_state BUF_FILLED (xfer d))%nat
          ∧ xfer_buffer <$> xfer d1 = xfer_buffer <$> xfer d) as (H1 & H2 & H3).
  { destruct nx as [j|].
    - destruct Hd1 as (y & sj & Hy & Hf & -> & _).
      destruct Hf as (y' & Hy' & Huy). rewrite Hy in Hy'. injection Hy' as <-.
      assert (j ≠ k) as Hjk by (intros ->; rewrite Hx in Hy; injection Hy as <-; congruence).
      assert (xfer (set_state j BUF_SUBMITTED d) !! k = Some x) as Hx'
        by (by rewrite set_state_lookup_ne).
      pose proof (λ st, set_state_count st d j y sj BUF_FILLED BUF_SUBMITTED Hy Huy) as Hj.
      pose proof (λ st, set_state_count st (set_state j BUF_SUBMITTED d) k x s
                          BUF_SUBMITTED BUF_EMPTY Hx' Hu) as Hk.
      pose proof (Hj BUF_SUBMITTED) as A1. pose proof (Hk BUF_SUBMITTED) as A2.
      pose proof (Hj BUF_EMPTY) as B1. pose proof (Hk BUF_EMPTY) as B2.
      pose proof (Hj BUF_FILLED) as C1. pose proof (Hk BUF_FILLED) as C2.
      clear Hj Hk.
      repeat match goal with
             | H : context [decide (?a = ?b)] |- _ =>
                 destruct (decide (a = b)); try congruence
             end.
      split; [lia|]. split; [lia|]. by rewrite !set_state_buffers.
    - destruct Hd1 as (-> & _). done. }
  destruct (lose_device_spec d1) as (_ & _ & Hxf & _).
  destruct (decide _); eexists _, _, sub; (split; [reflexivity|]);
    rewrite ?Hxf; done.
Qed.

Lemma callback_keeps_in_flight_witness :
  ∃ d' w' sub,
    _libusb_callback
      (small_dev (XferInfo 0 BUF_SUBMITTED) (XferInfo 5 BUF_FILLED) (XferInfo 3 BUF_FILLED))
      0 quiet = Some (d', w')
    ∧ submit_log w' = sub :: submit_log quiet
    ∧ count_state BUF_SUBMITTED (xfer d')
      = count_state BUF_SUBMITTED
          (xfer (small_dev (XferInfo 0 BUF_SUBMITTED) (XferInfo 5 BUF_FILLED)
                           (XferInfo 3 BUF_FILLED)))
    ∧ (count_state BUF_EMPTY (xfer d') + count_state BUF_FILLED (xfer d')
       = count_state BUF_EMPTY
           (xfer (small_dev (XferInfo 0 BUF_SUBMITTED) (XferInfo 5 BUF_FILLED)
                            (XferInfo 3 BUF_FILLED)))
         + count_state BUF_FILLED
             (xfer (small_dev (XferInfo 0 BUF_SUBMITTED) (XferInfo 5 BUF_FILLED)
                              (XferInfo 3 BUF_FILLED))))%nat
    ∧ xfer_buffer <$> xfer d'
      = xfer_buffer <$> xfer (small_dev (XferInfo 0 BUF_SUBMITTED) (XferInfo 5 BUF_FILLED)
                                        (XferInfo 3 BUF_FILLED)).
Proof.
  apply (callback_keeps_in_flight
           (small_dev (XferInfo 0 BUF_SUBMITTED) (XferInfo 5 BUF_FILLED) (XferInfo 3 BUF_FILLED))
           0 0 (Transfer LIBUSB_TRANSFER_COMPLETED (replicate 24 0)
                  (Some (XferInfo 0 BUF_SUBMITTED))) quiet); reflexivity.
Defined.

End Engine.

Module Start.

Import Ctrl Bits.

Import Pool.

(** The bodies of the three loops of [fl2k_alloc_submit_transfers] that
    talk to the environment. *)
Definition alloc_body (len : Z) (i : nat) (xfer_buf : list (list Z))
    : M (list (list Z) + unit) :=
  buf ← libusb_dev_mem_alloc len;
  match buf with
  | Some buf =>
      bug ← lift (mmap_bug buf len);
      if bug : bool then
        _ ← fprintf_stderr UsbfsMmapBug;
        mret (inr tt)
      else mret (inl (xfer_buf ++ [buf]) : list (list Z) + unit)
  | None =>
      _ ← fprintf_stderr (ZerocopyAllocFailed (s32 (Z.of_nat i)));
      mret (inr tt)
  end.

Definition malloc_body (_ : nat) (_ : unit) : M (unit + Z) :=
  ok ← malloc;
  if ok : bool then mret (inl tt) else mret (inr FL2K_ERROR_NO_MEM).

Definition submit_body (i : nat) (d : fl2k_dev) : M (fl2k_dev + fl2k_dev) :=
  xfer_ ← lift (xfer d !! i);
  r ← libusb_submit_transfer i (xfer_buffer xfer_);
  let d := set_state i BUF_SUBMITTED d in
  if decide (r < 0) then
    _ ← fprintf_stderr (SubmitFailed (s32 (Z.of_nat i)));
    mret (inr d)
  else mret (inl d : fl2k_dev + fl2k_dev).

(** A transfer as the allocation leaves it, and once submitted. *)
Definition blank (len : Z) (st : fl2k_buf_state) : libusb_transfer :=
  Transfer LIBUSB_TRANSFER_COMPLETED (replicate (Z.to_nat len) 0) (Some (XferInfo 0 st)).

(** The handle and the pool after the allocation phase: [zc] is the
    outcome of the zero-copy loop. *)
Definition allocated_dev (d : fl2k_dev) (zc : list (list Z) + unit) : fl2k_dev :=
  let d := set_use_zerocopy 1 (set_xfer (replicate (Z.to_nat (xfer_buf_num d))
                                           libusb_alloc_transfer) d) in
  match zc with inl _ => d | inr _ => set_use_zerocopy 0 d end.

Definition filled_pool (d : fl2k_dev) (zc : list (list Z) + unit) : list libusb_transfer :=
  match zc with
  | inl xfer_buf =>
      (λ buf, Transfer LIBUSB_TRANSFER_COMPLETED buf (Some (XferInfo 0 BUF_EMPTY)))
        <$> xfer_buf
  | inr _ =>
      replicate (Z.to_nat (xfer_buf_num d))
        (blank (xfer_buf_len (allocated_dev d zc)) BUF_EMPTY)
  end.

Lemma alloc_submit_unfold d w :
  fl2k_alloc_submit_transfers (Some d) w
  = (_ ← fprintf_stderr (AllocatingZerocopy (s32 (xfer_buf_num d)));
     zc ← for_each (seq 0 (Z.to_nat (xfer_buf_num d))) [] (alloc_body (xfer_buf_len d));
     r ← (if decide (use_zerocopy (allocated_dev d zc) = 0)
          then for_each (seq 0 (Z.to_nat (xfer_buf_num d))) tt malloc_body
          else mret (inl tt));
     match r with
     | inr r => mret (r, Some (allocated_dev d zc))
     | inl _ =>
         r ← for_each (seq 0 (Z.to_nat (xfer_num (allocated_dev d zc))))
               (set_xfer (filled_pool d zc) (allocated_dev d zc)) submit_body;
         match r with
         | inl d | inr d => mret (0, Some d)
         end
     end) w.
Proof. reflexivity. Qed.


Lemma allocated_dev_fields d zc :
  xfer_num (allocated_dev d zc) = xfer_num d
  ∧ xfer_buf_num (allocated_dev d zc) = xfer_buf_num d
  ∧ xfer_buf_len (allocated_dev d zc) = xfer_buf_len d
  ∧ async_status (allocated_dev d zc) = async_status d.
Proof. by destruct zc. Qed.

(** The world after [k] calls of [libusb_dev_mem_alloc], the submissions
    [subs] and the messages [msgs] (both most recent first). *)
Definition advanced (k : nat) (subs : list (nat * list Z)) (msgs : list diag) (w : world)
    : world :=
  World (bus w) (ctrl_log w) (submit_ret w) (subs ++ submit_log w) (cond_signals w)
        (malloc_ok w) (dev_mem_alloc_ret w) (k + dev_mem_allocs w) (pthread_create_ret w)
        (threads w) (msgs ++ stderr w).

Lemma advanced_0 w : advanced 0 [] [] w = w.
Proof. by destruct w. Qed.

Lemma advanced_advanced k2 s2 m2 k1 s1 m1 w :
  advanced k2 s2 m2 (advanced k1 s1 m1 w) = advanced (k2 + k1) (s2 ++ s1) (m2 ++ m1) w.
Proof. unfold advanced. cbn. by rewrite !app_assoc, Nat.add_assoc. Qed.

Lemma fprintf_run m w : fprintf_stderr m w = Some (tt, advanced 0 [] [m] w).
Proof. reflexivity. Qed.

(** ** The test for zeroed memory *)

Lemma take_shift (b0 : Z) (rest : list Z) :
  take (length rest) (b0 :: rest) = rest ↔ rest = replicate (length rest) b0.
Proof.
  revert b0. induction rest as [|r rest IH]; intros b0; [done|].
  cbn [length take replicate]. split.
  - intros [= -> Hrest]. f_equal. by apply IH.
  - intros [= -> Hrest]. f_equal. by apply IH.
Qed.

(** On a buffer of [len] bytes the test finds the bug exactly when some
    byte is not 0. *)
Lemma mmap_bug_spec (buf : list Z) (len : Z) :
  length buf = Z.to_nat len → 0 < len < 2 ^ 32 →
  mmap_bug buf len = Some (bool_decide (buf ≠ replicate (Z.to_nat len) 0)).
Proof.
  intros Hlen Hrange. unfold mmap_bug.
  destruct buf as [|b0 rest]; [cbn in Hlen; lia|].
  cbn [lookup list_lookup mbind option_bind drop]. f_equal.
  replace (Z.to_nat (u32 (len - 1))) with (length rest)
    by (unfold u32; rewrite Z.mod_small by lia; cbn [length] in Hlen; lia).
  rewrite <- Hlen. cbn [length replicate].
  rewrite (take_ge rest) by done.
  destruct (decide (b0 = 0)) as [->|Hb].
  - rewrite (bool_decide_eq_false_2 (0 ≠ 0)) by (intros H; by apply H). cbn [orb].
    apply bool_decide_ext. split; intros Hne Heq; apply Hne.
    + injection Heq as Heq. by apply take_shift.
    + f_equal. by apply take_shift.
  - rewrite (bool_decide_eq_true_2 (b0 ≠ 0)) by done. cbn [orb].
    symmetry. apply bool_decide_eq_true_2. intros [= ? _]. done.
Qed.

Lemma length_mem_bytes content len : length (mem_bytes content len) = Z.to_nat len.
Proof. unfold mem_bytes. by rewrite length_fmap, length_seq. Qed.

(** The kernel memory of the [n]-th allocation is there and zeroed. *)
Definition zeroed_mem (w : world) (len : Z) (n : nat) : Prop :=
  match dev_mem_alloc_ret w n with
  | Some content => mem_bytes content len = replicate (Z.to_nat len) 0
  | None => False
  end.

Global Instance zeroed_mem_dec w len n : Decision (zeroed_mem w len n).
Proof. unfold zeroed_mem. destruct (dev_mem_alloc_ret w n); apply _. Defined.

(** The next [n] allocations of zero-copy memory all yield zeroed
    memory. *)
Definition zerocopy_works (w : world) (len : Z) (n : nat) : Prop :=
  Forall (zeroed_mem w len) (seq (dev_mem_allocs w) n).

Global Instance zerocopy_works_dec w len n : Decision (zerocopy_works w len n).
Proof. unfold zerocopy_works. apply _. Defined.

(** Memory is zeroed when each of its bytes is 0. *)
Lemma zeroed_mem_bytes content len :
  (∀ k, (k < Z.to_nat len)%nat → u8 (content k) = 0) →
  mem_bytes content len = replicate (Z.to_nat len) 0.
Proof.
  intros Hz. unfold mem_bytes.
  apply list_eq_same_length with (Z.to_nat len);
    [by rewrite ?length_fmap, ?length_seq, ?length_replicate..|].
  intros k x y Hk Hx Hy.
  rewrite list_lookup_fmap, lookup_seq_lt in Hx by done.
    rewrite lookup_replicate_2 in Hy by done. cbn in Hx. injection Hx as <-.
    injection Hy as <-. by apply Hz.
Qed.

(** ** The loops *)

(** One pass of the zero-copy loop. *)
Lemma alloc_body_run len i acc w :
  0 < len < 2 ^ 32 →
  alloc_body len i acc w
  = Some (if decide (zeroed_mem w len (dev_mem_allocs w))
          then (inl (acc ++ [replicate (Z.to_nat len) 0]), advanced 1 [] [] w)
          else (inr tt,
                advanced 1 []
                  [match dev_mem_alloc_ret w (dev_mem_allocs w) with
                   | Some _ => UsbfsMmapBug
                   | None => ZerocopyAllocFailed (s32 (Z.of_nat i))
                   end] w)).
Proof.
  intros Hlen. unfold alloc_body. rewrite bind_run. unfold libusb_dev_mem_alloc at 1.
  destruct (decide (zeroed_mem w len (dev_mem_allocs w))) as [Hz|Hz];
    unfold zeroed_mem in Hz;
    destruct (dev_mem_alloc_ret w (dev_mem_allocs w)) as [content|];
    cbn [fmap option_fmap option_map].
  - rewrite bind_run, mmap_bug_spec by (by rewrite ?length_mem_bytes).
    rewrite bool_decide_eq_false_2 by (intros H; by apply H).
    rewrite lift_run, ret_run, Hz. reflexivity.
  - done.
  - rewrite bind_run, mmap_bug_spec by (by rewrite ?length_mem_bytes).
    rewrite bool_decide_eq_true_2 by done.
    rewrite lift_run, bind_run. reflexivity.
  - rewrite bind_run. reflexivity.
Qed.

(** The zero-copy loop: it runs to its end when every allocation yields
    zeroed memory, and is left at the first one that does not. *)
Lemma alloc_loop_run len (i0 m : nat) acc w :
  0 < len < 2 ^ 32 →
  ∃ res k msgs,
    for_each (seq i0 m) acc (alloc_body len) w = Some (res, advanced k [] msgs w)
    ∧ (k ≤ m)%nat
    ∧ (zerocopy_works w len m →
         res = inl (acc ++ replicate m (replicate (Z.to_nat len) 0)) ∧ k = m ∧ msgs = [])
    ∧ (¬ zerocopy_works w len m →
         res = inr tt
         ∧ (msgs = [UsbfsMmapBug]
            ∨ ∃ i, (i0 ≤ i < i0 + m)%nat ∧ msgs = [ZerocopyAllocFailed (s32 (Z.of_nat i))])).
Proof.
  intros Hlen. revert i0 acc w. induction m as [|m IH]; intros i0 acc w.
  { exists (inl acc), 0%nat, []. cbn [seq for_each]. rewrite ret_run, advanced_0.
    split; [done|]. split; [done|]. split.
    - intros _. by rewrite app_nil_r.
    - intros H. exfalso. apply H. constructor. }
  cbn [seq for_each]. rewrite bind_run, alloc_body_run by done.
  destruct (decide (zeroed_mem w len (dev_mem_allocs w))) as [Hz|Hz].
  - destruct (IH (S i0) (acc ++ [replicate (Z.to_nat len) 0]) (advanced 1 [] [] w))
      as (res & k & msgs & -> & Hk & Hyes & Hno).
    exists res, (k + 1)%nat, msgs. rewrite advanced_advanced, !app_nil_r.
    split; [done|]. split; [lia|]. split.
    + intros Hall. apply Forall_cons in Hall as [_ Hall].
      destruct (Hyes Hall) as (-> & -> & ->).
      split; [|split; [lia|done]].
      rewrite <- app_assoc. done.
    + intros Hnot. destruct Hno as [-> Hmsgs].
      { intros Hall. apply Hnot. by constructor. }
      split; [done|]. destruct Hmsgs as [->|(i & Hi & ->)]; [by left|].
      right. exists i. split; [lia|done].
  - exists (inr tt), 1%nat. eexists. rewrite ret_run. split; [reflexivity|].
    split; [lia|]. split.
    + intros Hall. apply Forall_cons in Hall as [Hz' _]. done.
    + intros _. split; [done|].
      destruct (dev_mem_alloc_ret w (dev_mem_allocs w)); [by left|].
      right. exists i0. split; [lia|done].
Qed.


(** The allocations in userspace fail at once or not at all. *)
Lemma malloc_loop_run (l : list nat) w :
  for_each l tt malloc_body w
  = Some (if malloc_ok w then inl tt
          else match l with [] => inl tt | _ => inr FL2K_ERROR_NO_MEM end, w).
Proof.
  induction l as [|i l IH]; [by destruct (malloc_ok w)|].
  cbn [for_each]. rewrite bind_run. unfold malloc_body at 1.
  rewrite bind_run. unfold malloc at 1.
  destruct (malloc_ok w).
  - by rewrite ret_run, IH.
  - by rewrite !ret_run.
Qed.

Lemma submit_loop_run len (a k b : nat) d w :
  xfer d = replicate a (blank len BUF_SUBMITTED) ++ replicate b (blank len BUF_EMPTY) →
  (k ≤ b)%nat →
  (∀ n, 0 ≤ submit_ret w n) →
  ∃ d',
    for_each (seq a k) d submit_body w
    = Some (inl d',
            advanced 0 (reverse ((λ i, (i, replicate (Z.to_nat len) 0)) <$> seq a k)) [] w)
    ∧ d' = set_xfer (replicate (a + k) (blank len BUF_SUBMITTED)
                     ++ replicate (b - k) (blank len BUF_EMPTY)) d.
Proof.
  revert a b d w. induction k as [|k IH]; intros a b d w Hpool Hk Hret.
  { exists d. cbn [seq for_each fmap list_fmap].
    rewrite reverse_nil, advanced_0, Nat.add_0_r, Nat.sub_0_r, <- Hpool.
    split; [done|]. by destruct d. }
  cbn [seq for_each]. rewrite bind_run. unfold submit_body at 1.
  assert (xfer d !! a = Some (blank len BUF_EMPTY)) as Hlook.
  { rewrite Hpool, lookup_app_r by (rewrite length_replicate; lia).
    rewrite length_replicate, Nat.sub_diag. destruct b; [lia|done]. }
  rewrite bind_run, Hlook, lift_run, bind_run.
  unfold libusb_submit_transfer at 1.
  rewrite decide_False by (specialize (Hret (length (submit_log w))); lia).
  rewrite ret_run.
  set (w1 := World _ _ _ _ _ _ _ _ _ _ _).
  destruct (IH (S a) (b - 1)%nat (set_state a BUF_SUBMITTED d) w1) as (d' & Hrun & Hd').
  { unfold set_state. cbn [xfer set_xfer]. rewrite Hpool.
    rewrite alter_app_r_alt by (rewrite length_replicate; lia).
    rewrite length_replicate, Nat.sub_diag.
    destruct b as [|b]; [lia|].
    replace (S b - 1)%nat with b by lia.
    rewrite (replicate_S_end a), <- app_assoc. done. }
  { lia. }
  { intros n. apply Hret. }
  rewrite Hrun. exists d'.
  split. { rewrite fmap_cons, reverse_cons. unfold advanced, w1. cbn. by rewrite <- app_assoc. }
  rewrite Hd'.
  replace (S a + k)%nat with (a + S k)%nat by lia.
  replace (b - 1 - k)%nat with (b - S k)%nat by lia.
  by destruct d.
Qed.

(** The handle as [fl2k_start_tx] prepares it before it allocates. *)
Definition prepared (d : fl2k_dev) (buf_num : Z) : fl2k_dev :=
  let d := set_async_status FL2K_RUNNING d in
  let d := set_async_cancel 0 d in
  let d := set_has_cb true d in
  let d := set_xfer_num (if decide (0 < buf_num) then buf_num else DEFAULT_BUF_NUMBER) d in
  let d := set_xfer_buf_num (u32 (xfer_num d + 2)) d in
  set_xfer_buf_len FL2K_XFER_LEN d.

Lemma start_tx_unfold d buf_num :
  fl2k_start_tx (Some d) true buf_num
  = ('(r, dev) ← fl2k_alloc_submit_transfers (Some (prepared d buf_num));
     if decide (r < 0) then mret (FL2K_ERROR_BUSY, (_fl2k_free_async_buffers dev).2)
     else
       r ← pthread_create fl2k_usb_worker;
       if decide (r < 0) then
         _ ← fprintf_stderr SpawnError;
         mret (FL2K_ERROR_BUSY, (_fl2k_free_async_buffers dev).2)
       else
         r ← pthread_create fl2k_sample_worker;
         if decide (r < 0) then
           _ ← fprintf_stderr SpawnError;
           mret (FL2K_ERROR_BUSY, (_fl2k_free_async_buffers dev).2)
         else mret (0, dev)).
Proof. reflexivity. Qed.

(** The number of transfers of the pool [fl2k_start_tx] asks for. *)
Definition pool_size (buf_num : Z) : nat :=
  Z.to_nat ((if decide (0 < buf_num) then buf_num else DEFAULT_BUF_NUMBER) + 2).

(** The allocation phase: with zeroed kernel memory for every transfer
    the pool uses it; otherwise the function falls back to userspace,
    and succeeds if [malloc] does.  Either way the pool is zeroed. *)
Lemma alloc_phase_run d w :
  0 < xfer_buf_len d < 2 ^ 32 →
  zerocopy_works w (xfer_buf_len d) (Z.to_nat (xfer_buf_num d)) ∨ malloc_ok w = true →
  ∃ zc k msgs w1,
    w1 = advanced k [] (msgs ++ [AllocatingZerocopy (s32 (xfer_buf_num d))]) w
    ∧ fl2k_alloc_submit_transfers (Some d) w
      = (r ← for_each (seq 0 (Z.to_nat (xfer_num d)))
               (set_xfer (replicate (Z.to_nat (xfer_buf_num d))
                            (blank (xfer_buf_len d) BUF_EMPTY))
                  (allocated_dev d zc)) submit_body;
         match r with
         | inl d | inr d => mret (0, Some d)
         end) w1
    ∧ (zerocopy_works w (xfer_buf_len d) (Z.to_nat (xfer_buf_num d)) →
         use_zerocopy (allocated_dev d zc) = 1 ∧ msgs = [])
    ∧ (¬ zerocopy_works w (xfer_buf_len d) (Z.to_nat (xfer_buf_num d)) →
         use_zerocopy (allocated_dev d zc) = 0
         ∧ (msgs = [UsbfsMmapBug]
            ∨ ∃ i, (i < Z.to_nat (xfer_buf_num d))%nat
                   ∧ msgs = [ZerocopyAllocFailed (s32 (Z.of_nat i))])).
Proof.
  intros Hlen Hmem. rewrite alloc_submit_unfold.
  rewrite bind_run, fprintf_run, bind_run.
  destruct (alloc_loop_run (xfer_buf_len d) 0 (Z.to_nat (xfer_buf_num d)) []
              (advanced 0 [] [AllocatingZerocopy (s32 (xfer_buf_num d))] w) Hlen)
    as (zc & k & msgs & -> & Hk & Hyes & Hno).
  rewrite advanced_advanced, Nat.add_0_r. cbn [app].
  exists zc, k, msgs. eexists. split; [reflexivity|].
  destruct (decide (zerocopy_works w (xfer_buf_len d) (Z.to_nat (xfer_buf_num d))))
    as [Hall|Hnot].
  - destruct (Hyes Hall) as (-> & -> & ->).
    split; [|split; [done|by intros ?]].
    rewrite bind_run. cbn [allocated_dev use_zerocopy set_use_zerocopy].
    rewrite decide_False by done. rewrite ret_run.
    destruct (allocated_dev_fields d (inl (replicate (Z.to_nat (xfer_buf_num d))
                                            (replicate (Z.to_nat (xfer_buf_len d)) 0))))
      as (Hxn & _).
    cbn [allocated_dev] in Hxn |- *. rewrite Hxn.
    unfold filled_pool. cbn [app]. rewrite fmap_replicate. reflexivity.
  - destruct (Hno Hnot) as (-> & Hmsgs).
    destruct Hmem as [Hall|Hm]; [done|].
    split; [|split; [by intros ?|]].
    + rewrite bind_run. cbn [allocated_dev use_zerocopy set_use_zerocopy].
      rewrite decide_True by done. rewrite malloc_loop_run. cbn [malloc_ok advanced].
      rewrite Hm. reflexivity.
    + intros _. split; [done|]. destruct Hmsgs as [->|(i & Hi & ->)]; [by left|].
      right. exists i. split; [lia|done].
Qed.

(** X21. A successful start.  With submissions accepted, both threads
    created, and sample buffers to be had (zeroed zero-copy memory from
    the kernel for every transfer, or else memory from [malloc]),
    [fl2k_start_tx] returns 0 and leaves the handle RUNNING with a pool
    of [xfer_num + 2] zeroed transfers of FL2K_XFER_LEN bytes: the first
    [xfer_num] SUBMITTED, in this order, and two spare ones EMPTY.
    [xfer_num] is [buf_num], or 4 when [buf_num] is 0.  [use_zerocopy] is
    1 when the kernel memory is used and 0 after the fall-back, which
    the function reports on stderr after the message that announces the
    allocation. *)
Theorem start_tx_pool (d : fl2k_dev) (buf_num : Z) (w : world) :
  0 ≤ buf_num < 2 ^ 32 - 2 →
  (∀ n, 0 ≤ submit_ret w n) → (∀ n, pthread_create_ret w n = 0) →
  zerocopy_works w FL2K_XFER_LEN (pool_size buf_num) ∨ malloc_ok w = true →
  ∃ d' w' msgs,
    fl2k_start_tx (Some d) true buf_num w = Some ((0, Some d'), w')
    ∧ d' = set_xfer (replicate (Z.to_nat (xfer_num d')) (blank FL2K_XFER_LEN BUF_SUBMITTED)
                     ++ replicate 2 (blank FL2K_XFER_LEN BUF_EMPTY))
             (set_use_zerocopy
                (if decide (zerocopy_works w FL2K_XFER_LEN (pool_size buf_num)) then 1 else 0)
                (prepared d buf_num))
    ∧ xfer_num d' = (if decide (0 < buf_num) then buf_num else 4)
    ∧ xfer_buf_num d' = xfer_num d' + 2
    ∧ async_status d' = FL2K_RUNNING
    ∧ pool_wf d'
    ∧ (fst <$> submit_log w') = reverse (seq 0 (Z.to_nat (xfer_num d'))) ++ (fst <$> submit_log w)
    ∧ threads w' = fl2k_sample_worker :: fl2k_usb_worker :: threads w
    ∧ stderr w' = msgs ++ AllocatingZerocopy (s32 (xfer_num d' + 2)) :: stderr w
    ∧ (if decide (zerocopy_works w FL2K_XFER_LEN (pool_size buf_num)) then msgs = []
       else msgs = [UsbfsMmapBug]
            ∨ ∃ i, (i < pool_size buf_num)%nat
                   ∧ msgs = [ZerocopyAllocFailed (s32 (Z.of_nat i))]).
Proof.
  intros Hbuf Hsub Hthr Hmem. rewrite start_tx_unfold, bind_run.
  set (n := if decide (0 < buf_num) then buf_num else DEFAULT_BUF_NUMBER).
  assert (0 < n < 2 ^ 32 - 2) as Hn
    by (unfold n, DEFAULT_BUF_NUMBER; destruct (decide _); lia).
  assert (xfer_num (prepared d buf_num) = n) as Hxn by reflexivity.
  assert (xfer_buf_num (prepared d buf_num) = n + 2) as Hxb.
  { change (xfer_buf_num (prepared d buf_num)) with (u32 (n + 2)).
    unfold u32. apply Z.mod_small. lia. }
  assert (xfer_buf_len (prepared d buf_num) = FL2K_XFER_LEN) as Hxl by reflexivity.
  assert (pool_size buf_num = Z.to_nat (n + 2)) as Hps by reflexivity.
  destruct (alloc_phase_run (prepared d buf_num) w)
    as (zc & k & msgs & w1 & Hw1 & -> & Hyes & Hno).
  { rewrite Hxl. by vm_compute. }
  { by rewrite Hxl, Hxb, <- Hps. }
  rewrite Hxl, Hxb, <- Hps in Hyes, Hno. rewrite Hxn, Hxb, Hxl.
  rewrite bind_run.
  set (d0 := set_xfer _ (allocated_dev (prepared d buf_num) zc)).
  destruct (submit_loop_run FL2K_XFER_LEN 0 (Z.to_nat n) (Z.to_nat (n + 2)) d0 w1)
    as (d' & -> & Hd'); [reflexivity|lia|by rewrite Hw1|].
  replace (Z.to_nat (n + 2) - Z.to_nat n)%nat with 2%nat in Hd' by lia.
  cbn [Nat.add] in Hd'.
  rewrite ret_run. rewrite decide_False by lia.
  rewrite bind_run. unfold pthread_create at 1.
  rewrite Hw1. cbn [pthread_create_ret threads advanced]. rewrite Hthr.
  rewrite decide_False by lia. rewrite decide_True by done.
  rewrite bind_run. unfold pthread_create at 1. cbn [pthread_create_ret threads].
  rewrite Hthr. rewrite decide_False by lia. rewrite decide_True by done.
  rewrite ret_run.
  destruct (allocated_dev_fields (prepared d buf_num) zc) as (Hzn & Hzb & Hzl & Hzs).
  assert (xfer_num d0 = n ∧ xfer_buf_num d0 = n + 2 ∧ async_status d0 = FL2K_RUNNING)
    as (Hd0n & Hd0b & Hd0s).
  { unfold d0. cbn [xfer_num xfer_buf_num async_status set_xfer].
    rewrite Hzn, Hzb, Hzs, Hxn, Hxb. done. }
  assert (xfer_num d' = n) as Hn' by (by rewrite Hd').
  eexists d', _, msgs. split; [reflexivity|]. rewrite Hn'.
  split.
  { rewrite Hd'. unfold d0. cbn [set_xfer xfer_num xfer_buf_num xfer_buf_len has_cb
      async_status async_cancel mode use_zerocopy rate dev_lost underflow_cnt set_use_zerocopy].
    destruct (decide (zerocopy_works w FL2K_XFER_LEN (pool_size buf_num))) as [Hall|Hnot].
    - destruct (Hyes Hall) as [Hz _]. destruct zc; [|discriminate Hz]. by destruct d.
    - destruct (Hno Hnot) as [Hz _]. destruct zc; [discriminate Hz|]. by destruct d. }
  split. { unfold n, DEFAULT_BUF_NUMBER. done. }
  split. { by rewrite Hd'. }
  split. { by rewrite Hd'. }
  split. { unfold pool_wf. rewrite Hd'. cbn [xfer_buf_num xfer set_xfer].
           rewrite Hd0b, length_app, !length_replicate. lia. }
  split.
  { cbn [submit_log advanced]. rewrite fmap_app, fmap_reverse, <- list_fmap_compose.
    f_equal. f_equal. by rewrite list_fmap_id. }
  split; [reflexivity|].
  split. { cbn [stderr advanced]. by rewrite <- app_assoc, Hxb. }
  destruct (decide (zerocopy_works w FL2K_XFER_LEN (pool_size buf_num))) as [Hall|Hnot].
  - by destruct (Hyes Hall).
  - by destruct (Hno Hnot).
Qed.

Lemma start_tx_pool_witness :
  ∃ d' w' msgs,
    fl2k_start_tx (Some opened_dev) true 0 quiet = Some ((0, Some d'), w')
    ∧ d' = set_xfer (replicate (Z.to_nat (xfer_num d')) (blank FL2K_XFER_LEN BUF_SUBMITTED)
                     ++ replicate 2 (blank FL2K_XFER_LEN BUF_EMPTY))
             (set_use_zerocopy
                (if decide (zerocopy_works quiet FL2K_XFER_LEN (pool_size 0)) then 1 else 0)
                (prepared opened_dev 0))
    ∧ xfer_num d' = (if decide (0 < 0) then 0 else 4)
    ∧ xfer_buf_num d' = xfer_num d' + 2
    ∧ async_status d' = FL2K_RUNNING
    ∧ pool_wf d'
    ∧ (fst <$> submit_log w')
      = reverse (seq 0 (Z.to_nat (xfer_num d'))) ++ (fst <$> submit_log quiet)
    ∧ threads w' = fl2k_sample_worker :: fl2k_usb_worker :: threads quiet
    ∧ stderr w' = msgs ++ AllocatingZerocopy (s32 (xfer_num d' + 2)) :: stderr quiet
    ∧ (if decide (zerocopy_works quiet FL2K_XFER_LEN (pool_size 0)) then msgs = []
       else msgs = [UsbfsMmapBug]
            ∨ ∃ i, (i < pool_size 0)%nat
                   ∧ msgs = [ZerocopyAllocFailed (s32 (Z.of_nat i))]).
Proof.
  apply (start_tx_pool opened_dev 0 quiet).
  - lia.
  - intros n. cbn. lia.
  - intros n. reflexivity.
  - right. reflexivity.
Defined.

(** A world in which the kernel maps memory of the given content for
    every allocation, and a small handle. *)
Definition kernel_memory (content : nat → Z) : world :=
  World (λ _ _, CtrlReply 4 [0; 0; 0; 0]) [] (λ _, 0) [] 0 true (λ _, Some content) 0
        (λ _, 0) [] [].

(** With zeroed kernel memory the zero-copy allocations work, however
    many and however long. *)
Lemma kernel_memory_zeroed (len : Z) (n : nat) :
  zerocopy_works (kernel_memory (λ _, 0)) len n.
Proof.
  unfold zerocopy_works. apply Forall_forall. intros k _.
  unfold zeroed_mem. cbn [dev_mem_alloc_ret kernel_memory].
  by apply zeroed_mem_bytes.
Qed.

Definition tiny_dev : fl2k_dev :=
  Dev 1 3 24 [] true FL2K_RUNNING 0 FL2K_MODE_MULTICHAN 0 0%Q 0 0.

(** The allocation on zeroed kernel memory uses it; one byte that is
    not 0, here byte 5 of each mapping, makes it fall back to buffers in
    userspace after the first allocation, with the notice. *)
Example alloc_submit_zero_copy :
  (λ x : Z * option fl2k_dev * world,
     (x.1.1, use_zerocopy <$> x.1.2, (λ d, slot_state (xfer d) <$> [0; 1; 2]%nat) <$> x.1.2,
      stderr x.2, dev_mem_allocs x.2, fst <$> submit_log x.2))
    <$> fl2k_alloc_submit_transfers (Some tiny_dev) (kernel_memory (λ _, 0))
  = Some (0, Some 1, Some [Some BUF_SUBMITTED; Some BUF_EMPTY; Some BUF_EMPTY],
          [AllocatingZerocopy 3], 3%nat, [0%nat])
  ∧ (λ x : Z * option fl2k_dev * world,
       (x.1.1, use_zerocopy <$> x.1.2, (λ d, slot_state (xfer d) <$> [0; 1; 2]%nat) <$> x.1.2,
        stderr x.2, dev_mem_allocs x.2, fst <$> submit_log x.2))
      <$> fl2k_alloc_submit_transfers (Some tiny_dev)
            (kernel_memory (λ k, if decide (k = 5%nat) then 1 else 0))
    = Some (0, Some 0, Some [Some BUF_SUBMITTED; Some BUF_EMPTY; Some BUF_EMPTY],
            [UsbfsMmapBug; AllocatingZerocopy 3], 1%nat, [0%nat]).
Proof. split; vm_compute; reflexivity. Qed.





(** The world of a machine that has no memory left. *)
Definition no_memory : world :=
  World (λ _ _, CtrlReply 4 [0; 0; 0; 0]) [] (λ _, 0) [] 0 false (λ _, None) 0 (λ _, 0) [] [].

Example start_tx_no_memory :
  (λ x : Z * option fl2k_dev * world,
     (x.1.1, async_status <$> x.1.2, use_zerocopy <$> x.1.2, xfer <$> x.1.2, stderr x.2,
      threads x.2))
    <$> fl2k_start_tx (Some opened_dev) true 0 no_memory
  = Some (FL2K_ERROR_BUSY, Some FL2K_RUNNING, Some 0, Some [],
          [ZerocopyAllocFailed 0; AllocatingZerocopy 6], []).
Proof. vm_compute. reflexivity. Qed.

(** X23. [buf_num + 2] must fit 32 bits.  For the two largest values of
    [buf_num] the size of the pool wraps around to 0 or 1 while the
    submit loop still runs up to [buf_num]: it reads [dev->xfer[i]] past
    the end of the array (undefined behaviour), at once for 2^32 - 2 and,
    for 2^32 - 1, after the first submission if that one is accepted. *)
Theorem start_tx_pool_size_wraps (d : fl2k_dev) (buf_num : Z) (w : world) :
  malloc_ok w = true →
  buf_num = 2 ^ 32 - 2 ∨ (buf_num = 2 ^ 32 - 1 ∧ 0 ≤ submit_ret w (length (submit_log w))) →
  xfer_buf_num (prepared d buf_num) < 2
  ∧ fl2k_start_tx (Some d) true buf_num w = None.
Proof.
  intros Hm Hbuf.
  assert (xfer_num (prepared d buf_num) = buf_num) as Hxn.
  { change (xfer_num (prepared d buf_num))
      with (if decide (0 < buf_num) then buf_num else DEFAULT_BUF_NUMBER).
    rewrite decide_True; [done|]. destruct Hbuf as [->|[-> _]]; lia. }
  assert (xfer_buf_num (prepared d buf_num) = u32 (buf_num + 2)) as Hxb.
  { change (xfer_buf_num (prepared d buf_num)) with (u32 (xfer_num (prepared d buf_num) + 2)).
    by rewrite Hxn. }
  split.
  { rewrite Hxb. destruct Hbuf as [->|[-> _]]; vm_compute; reflexivity. }
  rewrite start_tx_unfold, bind_run.
  destruct (alloc_phase_run (prepared d buf_num) w) as (zc & k & msgs & w1 & Hw1 & -> & _).
  { by vm_compute. }
  { by right. }
  destruct (allocated_dev_fields (prepared d buf_num) zc) as (Hzn & _).
  rewrite bind_run, Hxn, Hxb.
  destruct Hbuf as [->|[-> Hsub]].
  - change (u32 (2 ^ 32 - 2 + 2)) with 0. change (Z.to_nat 0) with 0%nat.
    destruct (Z.to_nat (2 ^ 32 - 2)) as [|m] eqn:Hn; [lia|].
    cbn [seq for_each replicate]. rewrite bind_run. unfold submit_body at 1.
    rewrite bind_run. reflexivity.
  - change (u32 (2 ^ 32 - 1 + 2)) with 1. change (Z.to_nat 1) with 1%nat.
    destruct (Z.to_nat (2 ^ 32 - 1)) as [|[|m]] eqn:Hn; [lia..|].
    cbn [seq for_each replicate]. rewrite bind_run. unfold submit_body at 1.
    rewrite bind_run. cbn [xfer set_xfer lookup list_lookup]. rewrite lift_run, bind_run.
    unfold libusb_submit_transfer at 1. rewrite Hw1. cbn [submit_ret submit_log advanced app].
    rewrite decide_False by lia. rewrite ret_run.
    rewrite bind_run. unfold submit_body at 1. rewrite bind_run. reflexivity.
Qed.

Lemma start_tx_pool_size_wraps_witness :
  xfer_buf_num (prepared opened_dev (2 ^ 32 - 2)) < 2
  ∧ fl2k_start_tx (Some opened_dev) true (2 ^ 32 - 2) quiet = None.
Proof.
  apply (start_tx_pool_size_wraps opened_dev (2 ^ 32 - 2) quiet).
  - reflexivity.
  - by left.
Defined.

End Start.

Module Worker.

Import Ctrl Bits.

Import Pool Convert.

(** A conversion at the start of the buffer, for a channel that is
    present and for one that is not. *)
Lemma convert_at_present conv offs in_ len offset out_buf :
  (∀ out, (24 * groups len ≤ length (bytes out))%nat →
     conv (Some out) (Some in_) len offset
     = Some (Some (apply_writes (chan_writes offs in_ offset (groups len)) out))) →
  (24 * groups len ≤ length out_buf)%nat →
  convert_at conv 0 (Some in_) len offset out_buf
  = Some (bytes (apply_writes (chan_writes offs in_ offset (groups len)) (fresh out_buf))).
Proof.
  intros Hconv Hlen. unfold convert_at. rewrite drop_0, Hconv by done. done.
Qed.

Lemma convert_at_r in_ len offset out_buf :
  0 ≤ len ≤ 2 ^ 32 - 24 → (24 * groups len ≤ length out_buf)%nat →
  (8 * groups len ≤ length in_)%nat →
  convert_at fl2k_convert_r 0 (Some in_) len offset out_buf
  = Some (bytes (apply_writes (chan_writes r_offsets in_ offset (groups len)) (fresh out_buf))).
Proof.
  intros. apply convert_at_present; [|done]. intros out Hout. by apply fl2k_convert_r_ok.
Qed.

Lemma convert_at_g in_ len offset out_buf :
  0 ≤ len ≤ 2 ^ 32 - 24 → (24 * groups len ≤ length out_buf)%nat →
  (8 * groups len ≤ length in_)%nat →
  convert_at fl2k_convert_g 0 (Some in_) len offset out_buf
  = Some (bytes (apply_writes (chan_writes g_offsets in_ offset (groups len)) (fresh out_buf))).
Proof.
  intros. apply convert_at_present; [|done]. intros out Hout. by apply fl2k_convert_g_ok.
Qed.

Lemma convert_at_b in_ len offset out_buf :
  0 ≤ len ≤ 2 ^ 32 - 24 → (24 * groups len ≤ length out_buf)%nat →
  (8 * groups len ≤ length in_)%nat →
  convert_at fl2k_convert_b 0 (Some in_) len offset out_buf
  = Some (bytes (apply_writes (chan_writes b_offsets in_ offset (groups len)) (fresh out_buf))).
Proof.
  intros. apply convert_at_present; [|done]. intros out Hout. by apply fl2k_convert_b_ok.
Qed.

(** The bytes after a list of writes do not depend on the store log. *)
Lemma apply_writes_bytes ws o o' :
  bytes o = bytes o' → bytes (apply_writes ws o) = bytes (apply_writes ws o').
Proof.
  revert o o'. induction ws as [|w ws IH]; intros o o' Hb; [done|].
  rewrite !apply_writes_cons. apply IH. cbn. by rewrite Hb.
Qed.

(** The writes of the three channels, in the order of the calls. *)
Definition rgb_writes (r g b : list Z) (offset : Z) (n : nat) : list (nat * Z) :=
  chan_writes r_offsets r offset n ++ chan_writes g_offsets g offset n
  ++ chan_writes b_offsets b offset n.

Lemma rgb_writes_index r g b offset n : (rgb_writes r g b offset n).*1 ≡ₚ seq 0 (24 * n).
Proof.
  unfold rgb_writes. rewrite !fmap_app, !chan_writes_index. apply chan_index_partition.
Qed.

(** Writes that cover a buffer determine it. *)
Lemma apply_writes_covering ws (buf buf' : list Z) (n : nat) :
  ws.*1 ≡ₚ seq 0 n → length buf = n → length buf' = n →
  bytes (apply_writes ws (fresh buf)) = bytes (apply_writes ws (fresh buf')).
Proof.
  intros Hperm Hl Hl'.
  assert (NoDup ws.*1) as Hnd by (rewrite Hperm; apply NoDup_seq).
  apply list_eq_same_length with n; [by rewrite apply_writes_length|by rewrite apply_writes_length|].
  intros p x y Hp Hx Hy.
  assert (p ∈ ws.*1) as Hin by (rewrite Hperm; apply elem_of_seq; lia).
  apply list_elem_of_fmap in Hin as ([p' v] & -> & Hin). cbn in *.
  rewrite (apply_writes_lookup ws (fresh buf) p' v) in Hx by (done || cbn; lia).
  rewrite (apply_writes_lookup ws (fresh buf') p' v) in Hy by (done || cbn; lia).
  congruence.
Qed.

Lemma fill_unfold d c i x di rest :
  mode d ≠ FL2K_MODE_SINGLECHAN → xfer d !! i = Some x → is_Some (user_data x) →
  sample_worker_fill d c i (di :: rest)
  = (out_buf ← (out_buf ← convert_at fl2k_convert_r 0 (r_buf di) (xfer_buf_len d)
                             (sample_offset di) (xfer_buffer x);
                out_buf ← convert_at fl2k_convert_g 0 (g_buf di) (xfer_buf_len d)
                            (sample_offset di) out_buf;
                convert_at fl2k_convert_b 0 (b_buf di) (xfer_buf_len d)
                  (sample_offset di) out_buf);
     Some (set_xfer (<[i := Transfer (status x) out_buf
                              (Some (XferInfo c BUF_FILLED))]> (xfer d)) d,
           u64 (c + 1))).
Proof.
  intros Hmode Hx [info Hinfo]. unfold sample_worker_fill.
  rewrite Hx. cbn [mbind option_bind]. rewrite Hinfo. cbn [mbind option_bind].
  rewrite decide_False by done. reflexivity.
Qed.

(** X24. The sample worker in multi-channel mode, given all three channel
    buffers: the conversions stay within the buffers, the transfer
    becomes FILLED with the worker's counter as its sequence number, the
    counter goes up by one (modulo 2^64), and the whole transfer buffer
    is overwritten: what it holds afterwards is what the conversions
    make of a zeroed buffer, whatever it held before.  Byte [24 k + d]
    is the sample of the channel that owns offset [d], plus 128 (modulo
    256) for signed samples. *)
Theorem worker_fill_multichan (d : fl2k_dev) (c : Z) (i : nat) (x : libusb_transfer)
    (sgn : Z) (r g b : list Z) (rest : list fl2k_data_info) :
  mode d ≠ FL2K_MODE_SINGLECHAN → xfer d !! i = Some x → is_Some (user_data x) →
  0 ≤ xfer_buf_len d ≤ 2 ^ 32 - 24 →
  length (xfer_buffer x) = (24 * groups (xfer_buf_len d))%nat →
  (8 * groups (xfer_buf_len d) ≤ length r)%nat →
  (8 * groups (xfer_buf_len d) ≤ length g)%nat →
  (8 * groups (xfer_buf_len d) ≤ length b)%nat →
  ∃ out,
    sample_worker_fill d c i (DataInfo sgn (Some r) (Some g) (Some b) :: rest)
    = Some (set_xfer (<[i := Transfer (status x) out (Some (XferInfo c BUF_FILLED))]> (xfer d)) d,
            u64 (c + 1))
    ∧ out = bytes (apply_writes
                     (rgb_writes r g b (if decide (sgn ≠ 0) then 128 else 0)
                                 (groups (xfer_buf_len d)))
                     (fresh (replicate (24 * groups (xfer_buf_len d)) 0)))
    ∧ length out = length (xfer_buffer x)
    ∧ (∀ (k ch p : nat) v, (k < groups (xfer_buf_len d))%nat →
         (r_offsets !! ch = Some p ∧ r !! (8 * k + ch)%nat = Some v) ∨
         (g_offsets !! ch = Some p ∧ g !! (8 * k + ch)%nat = Some v) ∨
         (b_offsets !! ch = Some p ∧ b !! (8 * k + ch)%nat = Some v) →
         out !! (24 * k + p)%nat = Some (u8 (v + (if decide (sgn ≠ 0) then 128 else 0)))).
Proof.
  intros Hmode Hx Hu Hlen Hbuf Hr Hg Hb.
  set (off := if decide (sgn ≠ 0) then 128 else 0).
  rewrite (fill_unfold d c i x) by done.
  cbn [r_buf g_buf b_buf sample_offset sampletype_signed]. fold off.
  rewrite convert_at_r by (done || lia). cbn [mbind option_bind].
  rewrite convert_at_g
    by (repeat (rewrite apply_writes_length; cbn [bytes fresh]); done || lia).
  cbn [mbind option_bind].
  rewrite convert_at_b
    by (repeat (rewrite apply_writes_length; cbn [bytes fresh]); done || lia).
  cbn [mbind option_bind].
  set (n := groups (xfer_buf_len d)) in *.
  match goal with |- context [Transfer _ ?o _] => set (out := o) end.
  assert (out = bytes (apply_writes (rgb_writes r g b off n) (fresh (xfer_buffer x)))) as Hout.
  { unfold out, rgb_writes. rewrite !apply_writes_app.
    apply apply_writes_bytes. cbn [bytes fresh].
    apply apply_writes_bytes. done. }
  exists out. split; [done|].
  assert ((rgb_writes r g b off n).*1 ≡ₚ seq 0 (24 * n)) as Hperm by apply rgb_writes_index.
  split; [|split].
  - rewrite Hout. apply (apply_writes_covering _ _ _ (24 * n)); [done|done|].
    by rewrite length_replicate.
  - rewrite Hout, apply_writes_length. done.
  - intros k ch p v Hk Hcase. rewrite Hout.
    assert (NoDup (rgb_writes r g b off n).*1) as Hnd by (rewrite Hperm; apply NoDup_seq).
    assert (p < 24)%nat as Hp.
    { destruct Hcase as [[Hd _]|[[Hd _]|[Hd _]]];
        apply list_elem_of_lookup_2 in Hd;
        (assert (p ∈ seq 0 24) as Hs
           by (rewrite <- offsets_partition, !elem_of_app; auto));
        apply elem_of_seq in Hs; lia. }
    apply apply_writes_lookup; [done| |cbn [bytes fresh]; lia].
    unfold rgb_writes. rewrite !elem_of_app.
    destruct Hcase as [[Hd Hv]|[[Hd Hv]|[Hd Hv]]];
      rewrite <- (list_lookup_total_correct _ _ _ Hv);
      [left|right; left|right; right]; by apply chan_writes_elem.
Qed.

Lemma worker_fill_multichan_witness :
  ∃ out,
    sample_worker_fill
      (small_dev (XferInfo 0 BUF_SUBMITTED) (XferInfo 0 BUF_EMPTY) (XferInfo 0 BUF_EMPTY))
      7 1 (DataInfo 1 (Some [0; 1; 2; 3; 4; 5; 6; 7]) (Some [8; 9; 10; 11; 12; 13; 14; 15])
                    (Some [16; 17; 18; 19; 20; 21; 22; 23]) :: [])
    = Some (set_xfer (<[1%nat := Transfer LIBUSB_TRANSFER_COMPLETED out
                                   (Some (XferInfo 7 BUF_FILLED))]>
                        (xfer (small_dev (XferInfo 0 BUF_SUBMITTED) (XferInfo 0 BUF_EMPTY)
                                         (XferInfo 0 BUF_EMPTY))))
              (small_dev (XferInfo 0 BUF_SUBMITTED) (XferInfo 0 BUF_EMPTY) (XferInfo 0 BUF_EMPTY)),
            u64 (7 + 1))
    ∧ out = bytes (apply_writes
                     (rgb_writes [0; 1; 2; 3; 4; 5; 6; 7] [8; 9; 10; 11; 12; 13; 14; 15]
                        [16; 17; 18; 19; 20; 21; 22; 23] (if decide (1 ≠ 0) then 128 else 0)
                        (groups 24))
                     (fresh (replicate (24 * groups 24) 0)))
    ∧ length out = length (replicate 24 0)
    ∧ (∀ (k ch p : nat) v, (k < groups 24)%nat →
         (r_offsets !! ch = Some p ∧ [0; 1; 2; 3; 4; 5; 6; 7] !! (8 * k + ch)%nat = Some v) ∨
         (g_offsets !! ch = Some p
          ∧ [8; 9; 10; 11; 12; 13; 14; 15] !! (8 * k + ch)%nat = Some v) ∨
         (b_offsets !! ch = Some p
          ∧ [16; 17; 18; 19; 20; 21; 22; 23] !! (8 * k + ch)%nat = Some v) →
         out !! (24 * k + p)%nat = Some (u8 (v + (if decide (1 ≠ 0) then 128 else 0)))).
Proof.
  apply (worker_fill_multichan
           (small_dev (XferInfo 0 BUF_SUBMITTED) (XferInfo 0 BUF_EMPTY) (XferInfo 0 BUF_EMPTY))
           7 1 (Transfer LIBUSB_TRANSFER_COMPLETED (replicate 24 0) (Some (XferInfo 0 BUF_EMPTY)))
           1 [0; 1; 2; 3; 4; 5; 6; 7] [8; 9; 10; 11; 12; 13; 14; 15]
           [16; 17; 18; 19; 20; 21; 22; 23] []).
  - discriminate.
  - reflexivity.
  - by eexists.
  - vm_compute. split; discriminate.
  - reflexivity.
  - vm_compute. lia.
  - vm_compute. lia.
  - vm_compute. lia.
Defined.

Lemma convert_at_absent conv len offset out_buf :
  (∀ out, conv (Some out) None len offset = Some (Some out)) →
  convert_at conv 0 None len offset out_buf = Some out_buf.
Proof. intros Hconv. unfold convert_at. rewrite drop_0, Hconv. done. Qed.

Lemma chan_index_elem offs n k p :
  (k < n)%nat → p ∈ offs → (24 * k + p)%nat ∈ chan_index offs n.
Proof.
  intros Hk Hp. unfold chan_index. apply list_elem_of_bind. exists k.
  split; [|apply elem_of_seq; lia]. apply list_elem_of_fmap. by exists p.
Qed.

(** X25. A channel whose buffer pointer is NULL is skipped: with only the R
    buffer given (as [fl2k_file] does), the worker stores the R samples at
    the R offsets and leaves every byte at a G or B offset as the
    transfer buffer held it before. *)
Theorem worker_fill_red_only (d : fl2k_dev) (c : Z) (i : nat) (x : libusb_transfer)
    (sgn : Z) (r : list Z) (rest : list fl2k_data_info) :
  mode d ≠ FL2K_MODE_SINGLECHAN → xfer d !! i = Some x → is_Some (user_data x) →
  0 ≤ xfer_buf_len d ≤ 2 ^ 32 - 24 →
  length (xfer_buffer x) = (24 * groups (xfer_buf_len d))%nat →
  (8 * groups (xfer_buf_len d) ≤ length r)%nat →
  ∃ out,
    sample_worker_fill d c i (DataInfo sgn (Some r) None None :: rest)
    = Some (set_xfer (<[i := Transfer (status x) out (Some (XferInfo c BUF_FILLED))]> (xfer d)) d,
            u64 (c + 1))
    ∧ length out = length (xfer_buffer x)
    ∧ (∀ (k ch p : nat) v, (k < groups (xfer_buf_len d))%nat →
         r_offsets !! ch = Some p → r !! (8 * k + ch)%nat = Some v →
         out !! (24 * k + p)%nat = Some (u8 (v + (if decide (sgn ≠ 0) then 128 else 0))))
    ∧ (∀ (k p : nat), (k < groups (xfer_buf_len d))%nat → p ∈ g_offsets ++ b_offsets →
         out !! (24 * k + p)%nat = xfer_buffer x !! (24 * k + p)%nat).
Proof.
  intros Hmode Hx Hu Hlen Hbuf Hr.
  set (off := if decide (sgn ≠ 0) then 128 else 0).
  rewrite (fill_unfold d c i x) by done.
  cbn [r_buf g_buf b_buf sample_offset sampletype_signed]. fold off.
  rewrite convert_at_r by (done || lia). cbn [mbind option_bind].
  rewrite (convert_at_absent fl2k_convert_g) by (intros; reflexivity).
  cbn [mbind option_bind].
  rewrite (convert_at_absent fl2k_convert_b) by (intros; reflexivity).
  cbn [mbind option_bind].
  set (n := groups (xfer_buf_len d)) in *.
  eexists. split; [reflexivity|].
  assert (NoDup (chan_index r_offsets n ++ chan_index g_offsets n ++ chan_index b_offsets n))
    as Hnd by (rewrite chan_index_partition; apply NoDup_seq).
  split; [|split].
  - by rewrite apply_writes_length.
  - intros k ch p v Hk Hp Hv.
    assert (p < 24)%nat.
    { apply list_elem_of_lookup_2 in Hp.
      assert (p ∈ seq 0 24) as Hs by (rewrite <- offsets_partition, !elem_of_app; auto).
      apply elem_of_seq in Hs. lia. }
    apply apply_writes_lookup.
    + rewrite chan_writes_index. by apply NoDup_app in Hnd as [? _].
    + rewrite <- (list_lookup_total_correct _ _ _ Hv). by apply chan_writes_elem.
    + cbn [bytes fresh]. lia.
  - intros k p Hk Hp. rewrite apply_writes_other; [done|].
    rewrite chan_writes_index. intros Hin.
    apply NoDup_app in Hnd as (_ & Hdisj & _). apply (Hdisj _ Hin).
    apply elem_of_app in Hp as [Hp|Hp]; apply elem_of_app; [left|right];
      by apply chan_index_elem.
Qed.

Lemma worker_fill_red_only_witness :
  ∃ out,
    sample_worker_fill
      (small_dev (XferInfo 0 BUF_SUBMITTED) (XferInfo 0 BUF_EMPTY) (XferInfo 0 BUF_EMPTY))
      7 1 (DataInfo 0 (Some [0; 1; 2; 3; 4; 5; 6; 7]) None None :: [])
    = Some (set_xfer (<[1%nat := Transfer LIBUSB_TRANSFER_COMPLETED out
                                   (Some (XferInfo 7 BUF_FILLED))]>
                        (xfer (small_dev (XferInfo 0 BUF_SUBMITTED) (XferInfo 0 BUF_EMPTY)
                                         (XferInfo 0 BUF_EMPTY))))
              (small_dev (XferInfo 0 BUF_SUBMITTED) (XferInfo 0 BUF_EMPTY) (XferInfo 0 BUF_EMPTY)),
            u64 (7 + 1))
    ∧ length out = length (replicate 24 0)
    ∧ (∀ (k ch p : nat) v, (k < groups 24)%nat →
         r_offsets !! ch = Some p → [0; 1; 2; 3; 4; 5; 6; 7] !! (8 * k + ch)%nat = Some v →
         out !! (24 * k + p)%nat = Some (u8 (v + (if decide (0 ≠ 0) then 128 else 0))))
    ∧ (∀ (k p : nat), (k < groups 24)%nat → p ∈ g_offsets ++ b_offsets →
         out !! (24 * k + p)%nat = replicate 24 0 !! (24 * k + p)%nat).
Proof.
  apply (worker_fill_red_only
           (small_dev (XferInfo 0 BUF_SUBMITTED) (XferInfo 0 BUF_EMPTY) (XferInfo 0 BUF_EMPTY))
           7 1 (Transfer LIBUSB_TRANSFER_COMPLETED (replicate 24 0) (Some (XferInfo 0 BUF_EMPTY)))
           0 [0; 1; 2; 3; 4; 5; 6; 7] []).
  - discriminate.
  - reflexivity.
  - by eexists.
  - vm_compute. split; discriminate.
  - reflexivity.
  - vm_compute. lia.
Defined.

Example worker_fill_red_only_evaluated :
  (λ p : fl2k_dev * Z, (xfer_buffer <$> xfer p.1 !! 1%nat, slot_state (xfer p.1) 1, p.2))
    <$> sample_worker_fill
          (small_dev (XferInfo 0 BUF_SUBMITTED) (XferInfo 0 BUF_EMPTY) (XferInfo 0 BUF_EMPTY))
          7 1 [DataInfo 1 (Some [0; 1; 2; 3; 4; 5; 6; 7]) None None]
  = Some (Some [0; 129; 0; 0; 0; 0; 128; 0; 0; 0; 132; 0; 130; 0; 0; 131; 134; 0; 0; 135;
                0; 133; 0; 0],
          Some BUF_FILLED, 8).
Proof. vm_compute. reflexivity. Qed.

End Worker.
